(** * ruby-libvirt: the marshalling layer of [ext/libvirt/connect.c] and
    [ext/libvirt/domain.c]

    The binding converts Ruby arguments to C values, calls a [virXxx]
    entry point of libvirt and converts the answer back.  This file embeds
    the functions that implement the "ask for a count, then ask for the
    values" queries, the domain-event callbacks and their registration, and
    the typed-parameter records, and proves what the specification says
    about them.

    Conventions of the embedding:
    - a C [int] is a [Z]; pointers are addresses, [0] is [NULL];
    - a Ruby [VALUE] is a term of the inductive type [VALUE];
    - a C function that may raise a Ruby exception (a [longjmp] out of the
      function) is a computation in the monad [M]: it takes the state of the
      world and yields an [outcome] and the next state;
    - libvirt, the Ruby methods reached through [rb_funcall] and the helper
      of [common.c] that builds name lists are outside the two source files:
      they are the methods of the class [Host]; what is proved of a function
      of the binding is proved for every instance of it, and one instance,
      a scripted libvirt, runs the functions on concrete inputs;
    - Ruby's own allocations ([rb_ary_new], [rb_str_new2], ...) succeed. *)

From Stdlib Require Import ZArith String List Lia.
From stdpp Require Import base list gmap strings.

Local Open Scope string_scope.
Local Open Scope list_scope.
Local Open Scope Z_scope.

Set Warnings "-register-all,-clear-no-such-hyp".

(** ** Ruby values *)

Definition virConnectPtr := Z.
Definition virDomainPtr := Z.
Definition virDomainSnapshotPtr := Z.

(** The part of Ruby's object space the two files touch.  [Connect p] is
    [Data_Wrap_Struct(c_connect, NULL, connect_close, p)]; [Domain d c] is
    the wrapper of [domain_new], whose [@connection] is [c]; a hash keeps
    its keys (Ruby strings here) in insertion order. *)
Inductive VALUE : Type :=
  | Qnil
  | Qtrue
  | Qfalse
  | Integer (n : Z)
  | RString (s : string)
  | Symbol (id : string)
  | Proc (body : nat)
  | RArray (elts : list VALUE)
  | RHash (pairs : list (string * VALUE))
  | Class (cname : string)
  | Connect (p : virConnectPtr)
  | Domain (p : virDomainPtr) (conn : VALUE)
  | DomainSnapshot (p : virDomainSnapshotPtr) (domain : VALUE).

(** [rb_obj_classname]. *)
Definition rb_obj_classname (v : VALUE) : string :=
  match v with
  | Qnil => "NilClass"
  | Qtrue => "TrueClass"
  | Qfalse => "FalseClass"
  | Integer _ => "Integer"
  | RString _ => "String"
  | Symbol _ => "Symbol"
  | Proc _ => "Proc"
  | RArray _ => "Array"
  | RHash _ => "Hash"
  | Class _ => "Class"
  | Connect _ => "Libvirt::Connect"
  | Domain _ _ => "Libvirt::Domain"
  | DomainSnapshot _ _ => "Libvirt::Domain::Snapshot"
  end.

(** [rb_class_of]. *)
Definition rb_class_of (v : VALUE) : VALUE := Class (rb_obj_classname v).

(** [rb_to_id] of a Symbol: the method name it stands for. *)
Definition rb_to_id (v : VALUE) : string :=
  match v with
  | Symbol id => id
  | RString s => s
  | _ => ""
  end.

(** [strcmp(a, b) == 0]. *)
Definition streq (a b : string) : bool := bool_decide (a = b).

(** ** Exceptions *)

Inductive exception_class : Type :=
  | rb_eTypeError
  | rb_eArgError
  | rb_eRangeError
  | e_Error
  | e_RetrieveError
  | e_DefinitionError.

(** An exception object: its class and its message.  For the errors built
    by [create_error] the message is the name of the libvirt function that
    failed.  Format directives are kept as written, not expanded. *)
Record exception : Type := Exception {
  exc_class : exception_class;
  exc_message : string
}.

(** ** Outcomes

    A call returns, raises, or does what C leaves undefined: it read a slot
    of a buffer that nothing had written, or read past its end. *)
Inductive outcome (A : Type) : Type :=
  | Ret (a : A)
  | Raise (e : exception)
  | Undef.

Arguments Ret {A} a.
Arguments Raise {A} e.
Arguments Undef {A}.

(** ** C integers *)

Definition INT_MIN : Z := - 2 ^ 31.
Definition INT_MAX : Z := 2 ^ 31 - 1.
Definition UINT_MAX : Z := 2 ^ 32 - 1.

(** [NUM2INT]: the value of an Integer that fits an [int]. *)
Definition NUM2INT (v : VALUE) : outcome Z :=
  match v with
  | Integer n =>
      if (INT_MIN <=? n) && (n <=? INT_MAX) then Ret n
      else Raise (Exception rb_eRangeError "integer out of range of int")
  | _ => Raise (Exception rb_eTypeError "no implicit conversion to Integer")
  end.

(** [NUM2UINT]: negative numbers down to [INT_MIN] wrap around. *)
Definition NUM2UINT (v : VALUE) : outcome Z :=
  match v with
  | Integer n =>
      if (INT_MIN <=? n) && (n <=? UINT_MAX) then Ret (n mod 2 ^ 32)
      else Raise (Exception rb_eRangeError "integer out of range of unsigned int")
  | _ => Raise (Exception rb_eTypeError "no implicit conversion to Integer")
  end.

Definition INT2NUM (n : Z) : VALUE := Integer n.
Definition LL2NUM (n : Z) : VALUE := Integer n.
Definition ULL2NUM (n : Z) : VALUE := Integer n.
Definition rb_str_new2 (s : string) : VALUE := RString s.

Definition NIL_P (v : VALUE) : bool :=
  match v with Qnil => true | _ => false end.

(** ** Ruby arrays and hashes *)

Definition rb_ary_new : VALUE := RArray [].
Definition rb_ary_new2 (capa : Z) : VALUE := RArray [].
Definition rb_hash_new : VALUE := RHash [].

(** [rb_ary_store(ary, idx, val)] on the element list: a store past the end
    fills the gap with [nil]. *)
Definition ary_store (elts : list VALUE) (idx : nat) (val : VALUE) : list VALUE :=
  if decide (idx < length elts)%nat then <[idx := val]> elts
  else elts ++ replicate (idx - length elts) Qnil ++ [val].

Definition rb_ary_store (ary : VALUE) (idx : nat) (val : VALUE) : VALUE :=
  match ary with
  | RArray elts => RArray (ary_store elts idx val)
  | _ => ary
  end.

Definition rb_ary_push (ary : VALUE) (val : VALUE) : VALUE :=
  match ary with
  | RArray elts => RArray (elts ++ [val])
  | _ => ary
  end.

(** [rb_hash_aset] on the pair list: an existing key keeps its place and
    takes the new value, a new key goes to the end. *)
Fixpoint hash_aset (pairs : list (string * VALUE)) (key : string) (val : VALUE)
  : list (string * VALUE) :=
  match pairs with
  | [] => [(key, val)]
  | (k, v) :: rest =>
      if streq k key then (k, val) :: rest
      else (k, v) :: hash_aset rest key val
  end.

Definition rb_hash_aset (hash : VALUE) (key : string) (val : VALUE) : VALUE :=
  match hash with
  | RHash pairs => RHash (hash_aset pairs key val)
  | _ => hash
  end.


(** ** The world

    What a call can change: the state of libvirt (of type [LV], left to the
    instance of [Host]), the calls that crossed the boundary of the binding
    so far, and the storage obtained from [malloc] and not yet given back.
    Storage taken with [alloca] lives in the frame of the function and is
    gone when the function is left, by [return] or by a raise; it is kept as
    a local value and is not part of the world. *)

Inductive event : Type :=
  | Libvirt (func : string)
  | Funcall (recv : VALUE) (mid : string) (argv : list VALUE).

Record world (LV : Type) : Type := World {
  libvirt : LV;
  trace : list event;
  heap : gset nat;
  brk : nat
}.

Arguments World {LV} _ _ _ _.
Arguments libvirt {LV} _.
Arguments trace {LV} _.
Arguments heap {LV} _.
Arguments brk {LV} _.

(** Every block that is still allocated was handed out before [brk]. *)
Definition heap_ok {LV : Type} (w : world LV) : Prop :=
  forall b : nat, b ∈ heap w -> (b < brk w)%nat.

(** A C string allocated by libvirt and owned by the caller. *)
Record cstr : Type := CStr { addr : nat; chars : string }.

(** One record of [virNodeCPUStats] or [virNodeMemoryStats] : a field
    name and an [unsigned long long] value. *)
Record node_stats : Type := NodeStats { field : string; value : Z }.

(** What [virNodeGetCPUStats] and [virNodeGetMemoryStats] answer: the
    return value, the count left in [*nparams], and the records written to
    the front of [params]. *)
Record stats_reply : Type := StatsReply {
  sr_ret : Z;
  sr_nparams : Z;
  sr_written : list node_stats
}.

(** The identities of a graphics event
    ([virDomainEventGraphicsSubject]). *)
Record graphics_identity : Type := GraphicsIdentity {
  gi_type : string;
  gi_name : string
}.

Record graphics_subject : Type := GraphicsSubject {
  nidentity : Z;
  identities : list graphics_identity
}.

(** [virDomainEventGraphicsAddress]. *)
Record graphics_address : Type := GraphicsAddress {
  family : Z;
  node : string;
  service : string
}.

(** The callbacks of [connect.c] that libvirt can be given. *)
Inductive internal_callback : Type :=
  | domain_event_lifecycle_cb
  | domain_event_reboot_cb
  | domain_event_rtc_cb
  | domain_event_watchdog_cb
  | domain_event_io_error_cb
  | domain_event_io_error_reason_cb
  | domain_event_graphics_cb.

(** ** What lies outside the two files

    The entry points of libvirt are functions on its state.  A probe
    answers a count, negative on failure.  A fetch into a buffer of
    [maxnames] slots answers [None] on failure and otherwise the items it
    has to offer, of which the first [maxnames] are written to the buffer
    and counted in the return value. *)
Class Host (LV : Type) : Type := {
  virConnectNumOf : string -> virConnectPtr -> LV -> Z * LV;
  virConnectList : string -> virConnectPtr -> Z -> LV -> option (list string) * LV;
  virConnectListDomains : virConnectPtr -> Z -> LV -> option (list Z) * LV;
  virNodeNumOfDevices : virConnectPtr -> option string -> Z -> LV -> Z * LV;
  virNodeListDevices :
    virConnectPtr -> option string -> Z -> Z -> LV -> option (list string) * LV;
  virDomainSnapshotNum : virDomainPtr -> Z -> LV -> Z * LV;
  virDomainSnapshotListNames :
    virDomainPtr -> Z -> Z -> LV -> option (list string) * LV;
  virDomainSnapshotNumChildren : virDomainSnapshotPtr -> Z -> LV -> Z * LV;
  virDomainSnapshotListChildrenNames :
    virDomainSnapshotPtr -> Z -> Z -> LV -> option (list string) * LV;
  virNodeGetCPUStats : virConnectPtr -> Z -> bool -> Z -> Z -> LV -> stats_reply * LV;
  virNodeGetMemoryStats : virConnectPtr -> Z -> bool -> Z -> Z -> LV -> stats_reply * LV;
  virConnectDomainEventRegisterAny :
    virConnectPtr -> virDomainPtr -> Z -> internal_callback -> VALUE -> LV -> Z * LV;
  virConnectDomainEventDeregisterAny : virConnectPtr -> Z -> LV -> Z * LV;
  (** the Ruby method run by [rb_funcall(recv, mid, argc, ...)] *)
  rb_method : VALUE -> string -> list VALUE -> outcome VALUE;
  (** [gen_list(num, names)] of [common.c], which is not among the sources:
      it is given the count and the buffer of names and answers a Ruby
      array. *)
  gen_list : Z -> list (option cstr) -> world LV -> outcome VALUE * world LV
}.

(** ** The monad of calls *)

Section Monad.
Context {LV : Type}.

Definition M (A : Type) : Type := world LV -> outcome A * world LV.

Definition ret {A : Type} (a : A) : M A := fun w => (Ret a, w).

Definition bind {A B : Type} (m : M A) (k : A -> M B) : M B :=
  fun w =>
    match m w with
    | (Ret a, w') => k a w'
    | (Raise e, w') => (Raise e, w')
    | (Undef, w') => (Undef, w')
    end.

(** [rb_raise] and [rb_exc_raise]. *)
Definition raise {A : Type} (e : exception) : M A := fun w => (Raise e, w).

Definition rb_raise {A : Type} (c : exception_class) (msg : string) : M A :=
  raise (Exception c msg).

Definition undef {A : Type} : M A := fun w => (Undef, w).

(** A pure conversion that may raise, such as [NUM2INT]. *)
Definition lift {A : Type} (o : outcome A) : M A := fun w => (o, w).

(** Entering the libvirt function [func]. *)
Definition call {A : Type} (func : string) (f : LV -> A * LV) : M A :=
  fun w =>
    let (a, s) := f (libvirt w) in
    (Ret a, World s (trace w ++ [Libvirt func]) (heap w) (brk w)).

(** [malloc], [ALLOC_N]: a block nobody holds yet. *)
Definition malloc : M nat :=
  fun w =>
    (Ret (brk w),
     World (libvirt w) (trace w) ({[ brk w ]} ∪ heap w) (S (brk w))).

(** [free], [xfree]. *)
Definition xfree (b : nat) : M unit :=
  fun w => (Ret tt, World (libvirt w) (trace w) (heap w ∖ {[ b ]}) (brk w)).

(** [rb_protect(f, arg, &exception)]: an exception raised by [f] is caught
    and reported in [exception]. *)
Definition rb_protect {A : Type} (m : M A) : M (exception + A) :=
  fun w =>
    match m w with
    | (Ret a, w') => (Ret (inr a), w')
    | (Raise e, w') => (Ret (inl e), w')
    | (Undef, w') => (Undef, w')
    end.

(** [rb_jump_tag(exception)]: the caught exception goes on. *)
Definition rb_jump_tag {A : Type} (e : exception) : M A := raise e.
End Monad.

Notation "'let*' x ':=' m 'in' k" := (bind m (fun x => k))
  (at level 10, x pattern, m at level 100, k at level 200, only parsing).
Notation "m ';;' k" := (bind m (fun _ => k))
  (at level 100, k at level 200, right associativity, only parsing).

(** ** Buffers

    A buffer is a list of slots; a slot that nothing has written yet holds
    [None].  [alloca(sizeof(T) * n)] and [ALLOC_N(T, n)] give [n] such
    slots. *)

Definition fresh_slots {T : Type} (n : Z) : list (option T) :=
  replicate (Z.to_nat n) None.

(** The callee writes [items] to the front of the buffer, never past its
    end. *)
Definition fill {T : Type} (buf : list (option T)) (items : list T)
  : list (option T) :=
  (Some <$> take (length buf) items) ++ drop (length items) buf.

(** [struct hash_field] of [connect.c]; the hash under construction is
    passed along and handed back by [hash_set]. *)
Record hash_field (T : Type) : Type := HashField {
  hf_params : list (option T);
  hf_i : nat;
  hf_result : VALUE
}.

Arguments HashField {T} _ _ _.
Arguments hf_params {T} _.
Arguments hf_i {T} _.
Arguments hf_result {T} _.

Section Binding.
Context {LV : Type} `{Host LV}.

(** [buf[i]]. *)
Definition read {T : Type} (buf : list (option T)) (i : nat) : M (LV := LV) T :=
  match buf !! i with
  | Some (Some x) => ret x
  | _ => undef
  end.

(** [for (i = start; ...; i++)], [count] rounds. *)
Fixpoint for_upto {A : Type} (count : nat) (i : nat)
    (body : nat -> A -> M (LV := LV) A) (a : A) : M A :=
  match count with
  | O => ret a
  | S count' => let* a' := body i a in for_upto count' (S i) body a'
  end.

(** libvirt duplicates each string it hands over; the caller owns the
    copies. *)
Fixpoint strdup_all (names : list string) : M (LV := LV) (list cstr) :=
  match names with
  | [] => ret []
  | n :: rest =>
      let* b := malloc in
      let* tl := strdup_all rest in
      ret (CStr b n :: tl)
  end.

(** A fetch of names into [names], a buffer of [maxnames] slots: the
    return value and the buffer afterwards. *)
Definition fetch_names (func : string) (f : LV -> option (list string) * LV)
    (names : list (option cstr)) (maxnames : Z)
  : M (Z * list (option cstr)) :=
  let* reply := call func f in
  match reply with
  | None => ret (-1, names)
  | Some offered =>
      let* strs := strdup_all (take (Z.to_nat maxnames) offered) in
      ret (Z.of_nat (length strs), fill names strs)
  end.

(** The same for a buffer of [int]. *)
Definition fetch_ints (func : string) (f : LV -> option (list Z) * LV)
    (ids : list (option Z)) (maxids : Z) : M (Z * list (option Z)) :=
  let* reply := call func f in
  match reply with
  | None => ret (-1, ids)
  | Some offered =>
      let written := take (Z.to_nat maxids) offered in
      ret (Z.of_nat (length written), fill ids written)
  end.

(** [rb_funcall(recv, mid, n, ...)]: the call is recorded, then the method
    runs. *)
Definition rb_funcall (recv : VALUE) (mid : string) (n : nat)
    (argv : list VALUE) : M (LV := LV) VALUE :=
  if decide (length argv = n) then
    fun w =>
      (rb_method recv mid argv,
       World (libvirt w) (trace w ++ [Funcall recv mid argv]) (heap w) (brk w))
  else undef.

(** [rb_scan_args(argc, argv, "<req><opt>", ...)]: the arguments found,
    the missing optional ones as [nil]. *)
Definition rb_scan_args (req opt : nat) (argv : list VALUE)
  : M (LV := LV) (list VALUE) :=
  if decide (length argv < req)%nat then
    rb_raise rb_eArgError "wrong number of arguments"
  else if decide (req + opt < length argv)%nat then
    rb_raise rb_eArgError "wrong number of arguments"
  else ret (argv ++ replicate (req + opt - length argv) Qnil).

(** *** The helpers of [common.h] and [common.c] *)

(** Modelled from the spec: the macro [_E(cond, excep)] of [common.h],
    which is not among the sources.  §4.2 step 2 and §7: a failed call is
    propagated to the caller at once; [excep] is built only when [cond]
    holds. *)
Definition _E (cond : bool) (excep : M (LV := LV) exception) : M unit :=
  if cond then (let* e := excep in raise e) else ret tt.

(** Modelled from the spec: [create_error] of [common.c], which is not
    among the sources.  §7: the error carries the name of the operation
    that failed. *)
Definition create_error (c : exception_class) (func : string)
    (conn : virConnectPtr) : exception :=
  Exception c func.

(** The pointer behind a [Data_Wrap_Struct] object. *)
Definition data_ptr (v : VALUE) : option Z :=
  match v with
  | Connect p => Some p
  | Domain p _ => Some p
  | DomainSnapshot p _ => Some p
  | _ => None
  end.

(** Modelled from the spec: the macro [generic_get(kind, v)] of
    [common.h], which is not among the sources: the pointer wrapped by
    [v], and an error once the object has been freed. *)
Definition generic_get (kind : string) (v : VALUE) : M (LV := LV) Z :=
  match data_ptr v with
  | None => rb_raise rb_eTypeError "wrong argument type (expected Data)"
  | Some p =>
      if p =? 0 then rb_raise rb_eArgError (kind +:+ " has been freed")
      else ret p
  end.

(** Modelled from the spec: [generic_new] of [common.c], which is not
    among the sources: the wrapper of a pointer, with its connection. *)
Definition generic_new_domain (d : virDomainPtr) (conn : VALUE) : VALUE :=
  Domain d conn.

(** Modelled from the spec: [is_symbol_or_proc] of [common.c], which is
    not among the sources.  §3: a handler is a symbolic method reference
    or a closure. *)
Definition is_symbol_or_proc (handle : VALUE) : bool :=
  streq (rb_obj_classname handle) "Symbol"
  || streq (rb_obj_classname handle) "Proc".

(** Modelled from the spec: the macro [gen_call_int(func, conn, args...)]
    of [common.h], which is not among the sources.  §6: the call answers
    an integer or an error; §7: a failure is propagated at once. *)
Definition gen_call_int (func : string) (conn : M (LV := LV) virConnectPtr)
    (invoke : M (LV := LV) Z) : M VALUE :=
  let* r := invoke in
  _E (r <? 0)
     (let* c := conn in ret (create_error e_RetrieveError func c)) ;;
  ret (INT2NUM r).

(** Modelled from the spec: the macro [gen_call_void(func, conn, args...)]
    of [common.h], which is not among the sources.  §6: the call answers
    success or an error; §7: a failure is propagated at once. *)
Definition gen_call_void (func : string) (conn : M (LV := LV) virConnectPtr)
    (invoke : M (LV := LV) Z) : M VALUE :=
  let* r := invoke in
  _E (r <? 0) (let* c := conn in ret (create_error e_Error func c)) ;;
  ret Qnil.

(** *** [connect.c] *)

Definition connect_new (p : virConnectPtr) : VALUE := Connect p.

(** [rb_obj_is_instance_of(s, c_connect)]. *)
Definition is_connect (s : VALUE) : bool :=
  match s with Connect _ => true | _ => false end.

(** [rb_iv_get(s, "@connection")]: set by [generic_new], [nil] on an
    object that has no such variable. *)
Definition iv_connection (s : VALUE) : VALUE :=
  match s with
  | Domain _ conn => conn
  | _ => Qnil
  end.

Definition conn_attr (s : VALUE) : M (LV := LV) VALUE :=
  let s := if negb (is_connect s) then iv_connection s else s in
  if negb (is_connect s) then
    rb_raise rb_eArgError "Expected Connection object"
  else ret s.

Definition connect_get (s : VALUE) : M (LV := LV) virConnectPtr :=
  let* s := conn_attr s in
  generic_get "Connect" s.

(** [domain.c]: [domain_new], [domain_get], [domain_snapshot_get]. *)
Definition domain_new (d : virDomainPtr) (conn : VALUE) : VALUE :=
  generic_new_domain d conn.

Definition domain_get (d : VALUE) : M (LV := LV) virDomainPtr :=
  generic_get "Domain" d.

Definition domain_snapshot_get (d : VALUE) : M (LV := LV) virDomainSnapshotPtr :=
  generic_get "DomainSnapshot" d.

(** The macro [gen_conn_list_names(s, objs)]. *)
Definition gen_conn_list_names (s : VALUE) (objs : string) : M (LV := LV) VALUE :=
  let* conn := connect_get s in
  let* num := call ("virConnectNumOf" +:+ objs) (virConnectNumOf objs conn) in
  _E (num <? 0)
     (let* conn := connect_get s in
      ret (create_error e_RetrieveError ("virConnectNumOf" +:+ objs) conn)) ;;
  if num =? 0 then
    (* if num is 0, don't call virConnectList* function *)
    ret (rb_ary_new2 num)
  else
    let names := fresh_slots num in
    let* conn := connect_get s in
    let* (r, names) :=
      fetch_names ("virConnectList" +:+ objs) (virConnectList objs conn num)
                  names num in
    _E (r <? 0)
       (let* conn := connect_get s in
        ret (create_error e_RetrieveError ("virConnectList" +:+ objs) conn)) ;;
    gen_list num names.

(** [if (cond) { body }]. *)
Definition when (cond : bool) (body : M (LV := LV) unit) : M unit :=
  if cond then body else ret tt.

(** Modelled from the spec: [get_string_or_nil] of [common.c], which is
    not among the sources: [NULL] for [nil], the characters of a String
    otherwise. *)
Definition get_string_or_nil (v : VALUE) : M (LV := LV) (option string) :=
  match v with
  | Qnil => ret None
  | RString s => ret (Some s)
  | _ => rb_raise rb_eTypeError "wrong argument type (expected String)"
  end.

(** Modelled from the spec: [integer_default_if_nil] of [common.c], which
    is not among the sources: the default for [nil]. *)
Definition integer_default_if_nil (v : VALUE) (def : Z) : VALUE :=
  if NIL_P v then INT2NUM def else v.

Definition libvirt_conn_list_domains (s : VALUE) : M (LV := LV) VALUE :=
  let* conn := connect_get s in
  let* num := call "virConnectNumOfDomains" (virConnectNumOf "Domains" conn) in
  _E (num <? 0)
     (ret (create_error e_RetrieveError "virConnectNumOfDomains" conn)) ;;
  if num =? 0 then
    let result := rb_ary_new2 num in
    ret result
  else
    let ids := fresh_slots num in
    let* (r, ids) :=
      fetch_ints "virConnectListDomains" (virConnectListDomains conn num)
                 ids num in
    _E (r <? 0)
       (ret (create_error e_RetrieveError "virConnectListDomains" conn)) ;;
    let* caught := rb_protect (ret (rb_ary_new2 num)) in
    match caught with
    | inl exception => rb_jump_tag exception
    | inr result =>
        for_upto (Z.to_nat num) 0
          (fun i result =>
             let* id := read ids i in
             let* caught := rb_protect (ret (rb_ary_push result (INT2NUM id))) in
             match caught with
             | inl exception => rb_jump_tag exception
             | inr result' => ret result'
             end)
          result
    end.

Definition libvirt_conn_list_defined_domains (s : VALUE) : M (LV := LV) VALUE :=
  gen_conn_list_names s "DefinedDomains".

Definition libvirt_conn_list_interfaces (s : VALUE) : M (LV := LV) VALUE :=
  gen_conn_list_names s "Interfaces".

Definition libvirt_conn_list_networks (s : VALUE) : M (LV := LV) VALUE :=
  gen_conn_list_names s "Networks".

Definition libvirt_conn_list_storage_pools (s : VALUE) : M (LV := LV) VALUE :=
  gen_conn_list_names s "StoragePools".

Definition libvirt_conn_list_nodedevices (argv : list VALUE) (c : VALUE)
  : M (LV := LV) VALUE :=
  let* args := rb_scan_args 0 2 argv in
  let cap := nth 0 args Qnil in
  let flags_val := nth 1 args Qnil in
  let* flags := if NIL_P flags_val then ret 0 else lift (NUM2UINT flags_val) in
  let* capstr := get_string_or_nil cap in
  let* conn := connect_get c in
  let* num := call "virNodeNumOfDevices" (virNodeNumOfDevices conn capstr 0) in
  _E (num <? 0)
     (let* conn := connect_get c in
      ret (create_error e_RetrieveError "virNodeNumOfDevices" conn)) ;;
  if num =? 0 then
    (* if num is 0, don't call virNodeListDevices function *)
    ret (rb_ary_new2 num)
  else
    let names := fresh_slots num in
    let* conn := connect_get c in
    let* (r, names) :=
      fetch_names "virNodeListDevices"
                  (virNodeListDevices conn capstr num flags) names num in
    _E (r <? 0)
       (let* conn := connect_get c in
        ret (create_error e_RetrieveError "virNodeListDevices" conn)) ;;
    gen_list num names.

(** [internal_get_stats].  [get_stats] answers the name of the function
    that failed ([NULL] on success), the buffer and the count as it left
    them; [alloc_stats] answers the block and its slots. *)
Definition internal_get_stats {T : Type} (c : VALUE) (argv : list VALUE)
    (get_stats : virConnectPtr -> Z -> option (list (option T)) -> Z -> Z ->
                 M (LV := LV) (option string * option (list (option T)) * Z))
    (alloc_stats : Z -> M (LV := LV) (nat * list (option T)))
    (hash_set : hash_field T -> M (LV := LV) VALUE)
  : M VALUE :=
  let* args := rb_scan_args 0 2 argv in
  let intparam := nth 0 args Qnil in
  let flags := nth 1 args Qnil in
  let intparam := if NIL_P intparam then INT2NUM (-1) else intparam in
  let flags := if NIL_P flags then INT2NUM 0 else flags in
  (* we first call out to the get_stats callback with NULL params and 0
     nparams to find out how many parameters we need *)
  let nparams := 0 in
  let* conn := connect_get c in
  let* ip := lift (NUM2INT intparam) in
  let* fl := lift (NUM2UINT flags) in
  let* (errname, _, nparams) := get_stats conn ip None nparams fl in
  match errname with
  | Some name =>
      let* conn := connect_get c in
      raise (create_error e_RetrieveError name conn)
  | None =>
      let result := rb_hash_new in
      if nparams =? 0 then ret result
      else
        (* Now we allocate the params array *)
        let* (block, params) := alloc_stats nparams in
        let* conn := connect_get c in
        let* ip := lift (NUM2INT intparam) in
        let* fl := lift (NUM2UINT flags) in
        let* (errname, params, nparams) :=
          get_stats conn ip (Some params) nparams fl in
        match errname with
        | Some name =>
            xfree block ;;
            let* conn := connect_get c in
            raise (create_error e_RetrieveError name conn)
        | None =>
            let params := default [] params in
            let* result :=
              for_upto (Z.to_nat nparams) 0
                (fun i result =>
                   let hf := HashField params i result in
                   let* caught := rb_protect (hash_set hf) in
                   match caught with
                   | inl exception => xfree block ;; rb_jump_tag exception
                   | inr result' => ret result'
                   end)
                result in
            xfree block ;;
            ret result
        end
  end.

(** [ALLOC_N(type, n)]. *)
Definition ALLOC_N {T : Type} (n : Z) : M (LV := LV) (nat * list (option T)) :=
  if n <? 0 then rb_raise rb_eArgError "negative allocation size"
  else
    let* block := malloc in
    ret (block, fresh_slots n).

Definition cpu_alloc_stats (nparams : Z)
  : M (LV := LV) (nat * list (option node_stats)) :=
  ALLOC_N nparams.

Definition cpu_hash_set (hf : hash_field node_stats) : M (LV := LV) VALUE :=
  let* p := read (hf_params hf) (hf_i hf) in
  ret (rb_hash_aset (hf_result hf) (field p) (ULL2NUM (value p))).

(** The buffer after libvirt has written to it; [NULL] stays [NULL]. *)
Definition written_to {T : Type} (params : option (list (option T)))
    (items : list T) : option (list (option T)) :=
  match params with
  | None => None
  | Some buf => Some (fill buf items)
  end.

Definition cpu_get_stats (conn : virConnectPtr) (intparam : Z)
    (params : option (list (option node_stats))) (nparams : Z) (flags : Z)
  : M (LV := LV) (option string * option (list (option node_stats)) * Z) :=
  let* reply :=
    call "virNodeGetCPUStats"
         (virNodeGetCPUStats conn intparam (bool_decide (is_Some params))
                             nparams flags) in
  let params := written_to params (sr_written reply) in
  if sr_ret reply <? 0 then
    ret (Some "virNodeGetCPUStats", params, sr_nparams reply)
  else ret (None, params, sr_nparams reply).

Definition libvirt_conn_node_cpu_stats (argv : list VALUE) (c : VALUE)
  : M (LV := LV) VALUE :=
  internal_get_stats c argv cpu_get_stats cpu_alloc_stats cpu_hash_set.

Definition memory_alloc_stats (nparams : Z)
  : M (LV := LV) (nat * list (option node_stats)) :=
  ALLOC_N nparams.

Definition memory_hash_set (hf : hash_field node_stats) : M (LV := LV) VALUE :=
  let* p := read (hf_params hf) (hf_i hf) in
  ret (rb_hash_aset (hf_result hf) (field p) (ULL2NUM (value p))).

Definition memory_get_stats (conn : virConnectPtr) (intparam : Z)
    (params : option (list (option node_stats))) (nparams : Z) (flags : Z)
  : M (LV := LV) (option string * option (list (option node_stats)) * Z) :=
  let* reply :=
    call "virNodeGetMemoryStats"
         (virNodeGetMemoryStats conn intparam (bool_decide (is_Some params))
                                nparams flags) in
  let params := written_to params (sr_written reply) in
  if sr_ret reply <? 0 then
    ret (Some "virNodeGetMemoryStats", params, sr_nparams reply)
  else ret (None, params, sr_nparams reply).

Definition libvirt_conn_node_memory_stats (argv : list VALUE) (c : VALUE)
  : M (LV := LV) VALUE :=
  internal_get_stats c argv memory_get_stats memory_alloc_stats
                     memory_hash_set.

(** *** The domain-event callbacks

    libvirt calls them with the [opaque] pointer given at registration,
    which is the Ruby array [[cb, opaque]]. *)

(** [TYPE(v) == T_ARRAY]. *)
Definition is_T_ARRAY (v : VALUE) : bool :=
  match v with RArray _ => true | _ => false end.

Definition RARRAY_LEN (v : VALUE) : Z :=
  match v with RArray elts => Z.of_nat (length elts) | _ => 0 end.

Definition rb_ary_entry (v : VALUE) (i : nat) : VALUE :=
  match v with RArray elts => nth i elts Qnil | _ => Qnil end.

Definition domain_event_lifecycle_callback (conn : virConnectPtr)
    (dom : virDomainPtr) (event : Z) (detail : Z) (opaque : VALUE) : M (LV := LV) Z :=
  let passthrough := opaque in
  when (negb (is_T_ARRAY passthrough))
    (rb_raise rb_eTypeError
       "wrong domain event lifecycle callback argument type (expected Array)") ;;
  when (negb (RARRAY_LEN passthrough =? 2))
    (rb_raise rb_eArgError "wrong number of arguments (%ld for 2)") ;;
  let cb := rb_ary_entry passthrough 0 in
  let cb_opaque := rb_ary_entry passthrough 1 in
  let newc := connect_new conn in
  (if streq (rb_obj_classname cb) "Symbol" then
     rb_funcall (rb_class_of cb) (rb_to_id cb) 5
       [newc; domain_new dom newc; INT2NUM event; INT2NUM detail;
        cb_opaque] ;;
     ret tt
   else if streq (rb_obj_classname cb) "Proc" then
     rb_funcall cb "call" 5
       [newc; domain_new dom newc; INT2NUM event; INT2NUM detail;
        cb_opaque] ;;
     ret tt
   else
     rb_raise rb_eTypeError
       "wrong domain event lifecycle callback (expected Symbol or Proc)") ;;
  ret 0.

Definition domain_event_reboot_callback (conn : virConnectPtr)
    (dom : virDomainPtr) (opaque : VALUE) : M (LV := LV) Z :=
  let passthrough := opaque in
  when (negb (is_T_ARRAY passthrough))
    (rb_raise rb_eTypeError
       "wrong domain event reboot callback argument type (expected Array)") ;;
  when (negb (RARRAY_LEN passthrough =? 2))
    (rb_raise rb_eArgError "wrong number of arguments (%ld for 2)") ;;
  let cb := rb_ary_entry passthrough 0 in
  let cb_opaque := rb_ary_entry passthrough 1 in
  let newc := connect_new conn in
  (if streq (rb_obj_classname cb) "Symbol" then
     rb_funcall (rb_class_of cb) (rb_to_id cb) 3
       [newc; domain_new dom newc; cb_opaque] ;;
     ret tt
   else if streq (rb_obj_classname cb) "Proc" then
     rb_funcall cb "call" 3
       [newc; domain_new dom newc; cb_opaque] ;;
     ret tt
   else
     rb_raise rb_eTypeError
       "wrong domain event reboot callback (expected Symbol or Proc)") ;;
  ret 0.

Definition domain_event_rtc_callback (conn : virConnectPtr)
    (dom : virDomainPtr) (utc_offset : Z) (opaque : VALUE) : M (LV := LV) Z :=
  let passthrough := opaque in
  when (negb (is_T_ARRAY passthrough))
    (rb_raise rb_eTypeError
       "wrong domain event rtc callback argument type (expected Array)") ;;
  when (negb (RARRAY_LEN passthrough =? 2))
    (rb_raise rb_eArgError "wrong number of arguments (%ld for 2)") ;;
  let cb := rb_ary_entry passthrough 0 in
  let cb_opaque := rb_ary_entry passthrough 1 in
  let newc := connect_new conn in
  (if streq (rb_obj_classname cb) "Symbol" then
     rb_funcall (rb_class_of cb) (rb_to_id cb) 4
       [newc; domain_new dom newc; LL2NUM utc_offset; cb_opaque] ;;
     ret tt
   else if streq (rb_obj_classname cb) "Proc" then
     rb_funcall cb "call" 4
       [newc; domain_new dom newc; LL2NUM utc_offset; cb_opaque] ;;
     ret tt
   else
     rb_raise rb_eTypeError
       "wrong domain event rtc callback (expected Symbol or Proc)") ;;
  ret 0.

Definition domain_event_watchdog_callback (conn : virConnectPtr)
    (dom : virDomainPtr) (action : Z) (opaque : VALUE) : M (LV := LV) Z :=
  let passthrough := opaque in
  when (negb (is_T_ARRAY passthrough))
    (rb_raise rb_eTypeError
       "wrong domain event watchdog callback argument type (expected Array)") ;;
  when (negb (RARRAY_LEN passthrough =? 2))
    (rb_raise rb_eArgError "wrong number of arguments (%ld for 2)") ;;
  let cb := rb_ary_entry passthrough 0 in
  let cb_opaque := rb_ary_entry passthrough 1 in
  let newc := connect_new conn in
  (if streq (rb_obj_classname cb) "Symbol" then
     rb_funcall (rb_class_of cb) (rb_to_id cb) 4
       [newc; domain_new dom newc; INT2NUM action; cb_opaque] ;;
     ret tt
   else if streq (rb_obj_classname cb) "Proc" then
     rb_funcall cb "call" 4
       [newc; domain_new dom newc; INT2NUM action; cb_opaque] ;;
     ret tt
   else
     rb_raise rb_eTypeError
       "wrong domain event watchdog callback (expected Symbol or Proc)") ;;
  ret 0.

Definition domain_event_io_error_callback (conn : virConnectPtr)
    (dom : virDomainPtr)
    (src_path : string) (dev_alias : string) (action : Z) (opaque : VALUE) : M (LV := LV) Z :=
  let passthrough := opaque in
  when (negb (is_T_ARRAY passthrough))
    (rb_raise rb_eTypeError
       "wrong domain event IO error callback argument type (expected Array)") ;;
  when (negb (RARRAY_LEN passthrough =? 2))
    (rb_raise rb_eArgError "wrong number of arguments (%ld for 2)") ;;
  let cb := rb_ary_entry passthrough 0 in
  let cb_opaque := rb_ary_entry passthrough 1 in
  let newc := connect_new conn in
  (if streq (rb_obj_classname cb) "Symbol" then
     rb_funcall (rb_class_of cb) (rb_to_id cb) 6
       [newc; domain_new dom newc; rb_str_new2 src_path;
        rb_str_new2 dev_alias; INT2NUM action; cb_opaque] ;;
     ret tt
   else if streq (rb_obj_classname cb) "Proc" then
     rb_funcall cb "call" 6
       [newc; domain_new dom newc; rb_str_new2 src_path;
        rb_str_new2 dev_alias; INT2NUM action; cb_opaque] ;;
     ret tt
   else
     rb_raise rb_eTypeError
       "wrong domain event IO error callback (expected Symbol or Proc)") ;;
  ret 0.

Definition domain_event_io_error_reason_callback (conn : virConnectPtr)
    (dom : virDomainPtr)
    (src_path : string) (dev_alias : string) (action : Z) (reason : string) (opaque : VALUE) : M (LV := LV) Z :=
  let passthrough := opaque in
  when (negb (is_T_ARRAY passthrough))
    (rb_raise rb_eTypeError
       "wrong domain event IO error reason callback argument type (expected Array)") ;;
  when (negb (RARRAY_LEN passthrough =? 2))
    (rb_raise rb_eArgError "wrong number of arguments (%ld for 2)") ;;
  let cb := rb_ary_entry passthrough 0 in
  let cb_opaque := rb_ary_entry passthrough 1 in
  let newc := connect_new conn in
  (if streq (rb_obj_classname cb) "Symbol" then
     rb_funcall (rb_class_of cb) (rb_to_id cb) 7
       [newc; domain_new dom newc; rb_str_new2 src_path;
        rb_str_new2 dev_alias; INT2NUM action; rb_str_new2 reason;
        cb_opaque] ;;
     ret tt
   else if streq (rb_obj_classname cb) "Proc" then
     rb_funcall cb "call" 7
       [newc; domain_new dom newc; rb_str_new2 src_path;
        rb_str_new2 dev_alias; INT2NUM action; rb_str_new2 reason;
        cb_opaque] ;;
     ret tt
   else
     rb_raise rb_eTypeError
       "wrong domain event IO error reason callback (expected Symbol or Proc)") ;;
  ret 0.

Definition domain_event_graphics_callback (conn : virConnectPtr)
    (dom : virDomainPtr) (phase : Z) (local : graphics_address)
    (remote : graphics_address) (authScheme : string)
    (subject : graphics_subject) (opaque : VALUE) : M (LV := LV) Z :=
  let passthrough := opaque in
  when (negb (is_T_ARRAY passthrough))
    (rb_raise rb_eTypeError
       "wrong domain event graphics callback argument type (expected Array)") ;;
  when (negb (RARRAY_LEN passthrough =? 2))
    (rb_raise rb_eArgError "wrong number of arguments (%ld for 2)") ;;
  let cb := rb_ary_entry passthrough 0 in
  let cb_opaque := rb_ary_entry passthrough 1 in
  let local_hash := rb_hash_new in
  let local_hash := rb_hash_aset local_hash "family" (INT2NUM (family local)) in
  let local_hash := rb_hash_aset local_hash "node" (rb_str_new2 (node local)) in
  let local_hash :=
    rb_hash_aset local_hash "service" (rb_str_new2 (service local)) in
  let remote_hash := rb_hash_new in
  let remote_hash :=
    rb_hash_aset remote_hash "family" (INT2NUM (family remote)) in
  let remote_hash :=
    rb_hash_aset remote_hash "node" (rb_str_new2 (node remote)) in
  let remote_hash :=
    rb_hash_aset remote_hash "service" (rb_str_new2 (service remote)) in
  let subject_array := rb_ary_new in
  let* subject_array :=
    for_upto (Z.to_nat (nidentity subject)) 0
      (fun i subject_array =>
         let* identity := read (Some <$> identities subject) i in
         let pair := rb_ary_new in
         let pair := rb_ary_store pair 0 (rb_str_new2 (gi_type identity)) in
         let pair := rb_ary_store pair 1 (rb_str_new2 (gi_name identity)) in
         ret (rb_ary_store subject_array i pair))
      subject_array in
  let newc := connect_new conn in
  (if streq (rb_obj_classname cb) "Symbol" then
     rb_funcall (rb_class_of cb) (rb_to_id cb) 8
       [newc; domain_new dom newc; INT2NUM phase; local_hash; remote_hash;
        rb_str_new2 authScheme; subject_array; cb_opaque] ;;
     ret tt
   else if streq (rb_obj_classname cb) "Proc" then
     rb_funcall cb "call" 8
       [newc; domain_new dom newc; INT2NUM phase; local_hash; remote_hash;
        rb_str_new2 authScheme; subject_array; cb_opaque] ;;
     ret tt
   else
     rb_raise rb_eTypeError
       "wrong domain event graphics callback (expected Symbol or Proc)") ;;
  ret 0.

(** Modelled from the spec: the discriminants [VIR_DOMAIN_EVENT_ID_*] of
    [libvirt.h], which is not among the sources.  §3 names the seven event
    shapes; they are numbered as libvirt numbers them. *)
Definition VIR_DOMAIN_EVENT_ID_LIFECYCLE : Z := 0.
Definition VIR_DOMAIN_EVENT_ID_REBOOT : Z := 1.
Definition VIR_DOMAIN_EVENT_ID_RTC_CHANGE : Z := 2.
Definition VIR_DOMAIN_EVENT_ID_WATCHDOG : Z := 3.
Definition VIR_DOMAIN_EVENT_ID_IO_ERROR : Z := 4.
Definition VIR_DOMAIN_EVENT_ID_GRAPHICS : Z := 5.
Definition VIR_DOMAIN_EVENT_ID_IO_ERROR_REASON : Z := 6.

(** The [switch] of [libvirt_conn_domain_event_register_any]. *)
Definition select_internalcb (eventID : Z) : option internal_callback :=
  if eventID =? VIR_DOMAIN_EVENT_ID_LIFECYCLE then
    Some domain_event_lifecycle_cb
  else if eventID =? VIR_DOMAIN_EVENT_ID_REBOOT then
    Some domain_event_reboot_cb
  else if eventID =? VIR_DOMAIN_EVENT_ID_RTC_CHANGE then
    Some domain_event_rtc_cb
  else if eventID =? VIR_DOMAIN_EVENT_ID_WATCHDOG then
    Some domain_event_watchdog_cb
  else if eventID =? VIR_DOMAIN_EVENT_ID_IO_ERROR then
    Some domain_event_io_error_cb
  else if eventID =? VIR_DOMAIN_EVENT_ID_IO_ERROR_REASON then
    Some domain_event_io_error_reason_cb
  else if eventID =? VIR_DOMAIN_EVENT_ID_GRAPHICS then
    Some domain_event_graphics_cb
  else None.

Definition libvirt_conn_domain_event_register_any (argv : list VALUE)
    (c : VALUE) : M (LV := LV) VALUE :=
  let* args := rb_scan_args 2 2 argv in
  let eventID := nth 0 args Qnil in
  let cb := nth 1 args Qnil in
  let dom := nth 2 args Qnil in
  let opaque := nth 3 args Qnil in
  when (negb (is_symbol_or_proc cb))
    (rb_raise rb_eTypeError "wrong argument type (expected Symbol or Proc)") ;;
  let* domain := if NIL_P dom then ret 0 else domain_get dom in
  let* id := lift (NUM2INT eventID) in
  let* internalcb :=
    match select_internalcb id with
    | Some internalcb => ret internalcb
    | None => rb_raise rb_eArgError "invalid eventID argument %d"
    end in
  let passthrough := rb_ary_new in
  let passthrough := rb_ary_store passthrough 0 cb in
  let passthrough := rb_ary_store passthrough 1 opaque in
  gen_call_int "virConnectDomainEventRegisterAny" (connect_get c)
    (let* conn := connect_get c in
     let* id := lift (NUM2INT eventID) in
     call "virConnectDomainEventRegisterAny"
          (virConnectDomainEventRegisterAny conn domain id internalcb
                                            passthrough)).

Definition libvirt_conn_domain_event_deregister_any (c : VALUE)
    (callbackID : VALUE) : M (LV := LV) VALUE :=
  gen_call_void "virConnectDomainEventDeregisterAny" (connect_get c)
    (let* conn := connect_get c in
     let* id := lift (NUM2INT callbackID) in
     call "virConnectDomainEventDeregisterAny"
          (virConnectDomainEventDeregisterAny conn id)).

(** *** [domain.c] *)

Definition libvirt_dom_list_snapshots (argv : list VALUE) (d : VALUE)
  : M (LV := LV) VALUE :=
  let* args := rb_scan_args 0 1 argv in
  let flags_val := nth 0 args Qnil in
  let* flags := if NIL_P flags_val then ret 0 else lift (NUM2UINT flags_val) in
  let* dom := domain_get d in
  let* num := call "virDomainSnapshotNum" (virDomainSnapshotNum dom 0) in
  _E (num <? 0)
     (let* conn := connect_get d in
      ret (create_error e_RetrieveError "virDomainSnapshotNum" conn)) ;;
  if num =? 0 then
    (* if num is 0, don't call virDomainSnapshotListNames function *)
    ret (rb_ary_new2 num)
  else
    let names := fresh_slots num in
    let* dom := domain_get d in
    let* (r, names) :=
      fetch_names "virDomainSnapshotListNames"
                  (virDomainSnapshotListNames dom num flags) names num in
    _E (r <? 0)
       (let* conn := connect_get d in
        ret (create_error e_RetrieveError "virDomainSnapshotListNames" conn)) ;;
    gen_list num names.

(** The [error:] label of [libvirt_dom_snapshot_list_children_names]. *)
Definition free_children_from (children : list (option cstr)) (i : nat)
    (ret_ : Z) : M (LV := LV) unit :=
  for_upto (Z.to_nat ret_ - i) i
    (fun j _ => let* c := read children j in xfree (addr c)) tt.

Definition libvirt_dom_snapshot_list_children_names (argv : list VALUE)
    (d : VALUE) : M (LV := LV) VALUE :=
  let* args := rb_scan_args 0 1 argv in
  let flags := nth 0 args Qnil in
  let flags := integer_default_if_nil flags 0 in
  let* snap := domain_snapshot_get d in
  let* fl := lift (NUM2UINT flags) in
  let* num_children :=
    call "virDomainSnapshotNumChildren"
         (virDomainSnapshotNumChildren snap fl) in
  _E (num_children <? 0)
     (let* conn := connect_get d in
      ret (create_error e_RetrieveError "virDomainSnapshotNumChildren" conn)) ;;
  let children := fresh_slots num_children in
  let result := rb_ary_new in
  let* snap := domain_snapshot_get d in
  let* fl := lift (NUM2UINT flags) in
  let* (ret_, children) :=
    fetch_names "virDomainSnapshotListChildrenNames"
                (virDomainSnapshotListChildrenNames snap num_children fl)
                children num_children in
  _E (ret_ <? 0)
     (let* conn := connect_get d in
      ret (create_error e_RetrieveError "virDomainSnapshotListChildrenNames"
                        conn)) ;;
  for_upto (Z.to_nat ret_) 0
    (fun i result =>
       let* child := read children i in
       let* caught := rb_protect (ret (rb_str_new2 (chars child))) in
       match caught with
       | inl exception =>
           free_children_from children i ret_ ;; rb_jump_tag exception
       | inr str =>
           let* caught := rb_protect (ret (rb_ary_store result i str)) in
           match caught with
           | inl exception =>
               free_children_from children i ret_ ;; rb_jump_tag exception
           | inr result' => xfree (addr child) ;; ret result'
           end
       end)
    result.

(** *** Delivery of an event

    What libvirt passes to the callback it was given for each kind of
    event. *)
Inductive domain_event : Type :=
  | LifecycleEvent (event : Z) (detail : Z)
  | RebootEvent
  | RtcChangeEvent (utc_offset : Z)
  | WatchdogEvent (action : Z)
  | IoErrorEvent (src_path : string) (dev_alias : string) (action : Z)
  | IoErrorReasonEvent (src_path : string) (dev_alias : string) (action : Z)
                       (reason : string)
  | GraphicsEvent (phase : Z) (local : graphics_address)
                  (remote : graphics_address) (authScheme : string)
                  (subject : graphics_subject).

Definition event_id (ev : domain_event) : Z :=
  match ev with
  | LifecycleEvent _ _ => VIR_DOMAIN_EVENT_ID_LIFECYCLE
  | RebootEvent => VIR_DOMAIN_EVENT_ID_REBOOT
  | RtcChangeEvent _ => VIR_DOMAIN_EVENT_ID_RTC_CHANGE
  | WatchdogEvent _ => VIR_DOMAIN_EVENT_ID_WATCHDOG
  | IoErrorEvent _ _ _ => VIR_DOMAIN_EVENT_ID_IO_ERROR
  | IoErrorReasonEvent _ _ _ _ => VIR_DOMAIN_EVENT_ID_IO_ERROR_REASON
  | GraphicsEvent _ _ _ _ _ => VIR_DOMAIN_EVENT_ID_GRAPHICS
  end.

(** libvirt calls [internalcb] through the signature of the event; a
    callback registered for another kind is never called with it. *)
Definition dispatch (internalcb : internal_callback) (conn : virConnectPtr)
    (dom : virDomainPtr) (ev : domain_event) (opaque : VALUE)
  : M (LV := LV) Z :=
  match internalcb, ev with
  | domain_event_lifecycle_cb, LifecycleEvent event detail =>
      domain_event_lifecycle_callback conn dom event detail opaque
  | domain_event_reboot_cb, RebootEvent =>
      domain_event_reboot_callback conn dom opaque
  | domain_event_rtc_cb, RtcChangeEvent utc_offset =>
      domain_event_rtc_callback conn dom utc_offset opaque
  | domain_event_watchdog_cb, WatchdogEvent action =>
      domain_event_watchdog_callback conn dom action opaque
  | domain_event_io_error_cb, IoErrorEvent src_path dev_alias action =>
      domain_event_io_error_callback conn dom src_path dev_alias action opaque
  | domain_event_io_error_reason_cb,
    IoErrorReasonEvent src_path dev_alias action reason =>
      domain_event_io_error_reason_callback conn dom src_path dev_alias
                                            action reason opaque
  | domain_event_graphics_cb,
    GraphicsEvent phase local remote authScheme subject =>
      domain_event_graphics_callback conn dom phase local remote authScheme
                                     subject opaque
  | _, _ => undef
  end.

(** The count of identities of a raw graphics event is the length of its
    array of identities. *)
Definition event_ok (ev : domain_event) : Prop :=
  match ev with
  | GraphicsEvent _ _ _ _ subject =>
      nidentity subject = Z.of_nat (length (identities subject))
  | _ => True
  end.
End Binding.

(** ** The argument contracts of §4.3, in the words of the specification *)

Definition address_record (a : graphics_address) : VALUE :=
  RHash [("family", Integer (family a)); ("node", RString (node a));
         ("service", RString (service a))].

Definition identity_pair (i : graphics_identity) : VALUE :=
  RArray [RString (gi_type i); RString (gi_name i)].

Definition subjectIdentityList (subject : graphics_subject) : VALUE :=
  RArray (map identity_pair (identities subject)).

Definition positional_arguments (connection domain userData : VALUE)
    (ev : domain_event) : list VALUE :=
  match ev with
  | LifecycleEvent eventCode detailCode =>
      [connection; domain; Integer eventCode; Integer detailCode; userData]
  | RebootEvent => [connection; domain; userData]
  | RtcChangeEvent utcOffsetDelta =>
      [connection; domain; Integer utcOffsetDelta; userData]
  | WatchdogEvent actionCode =>
      [connection; domain; Integer actionCode; userData]
  | IoErrorEvent sourcePath deviceAlias actionCode =>
      [connection; domain; RString sourcePath; RString deviceAlias;
       Integer actionCode; userData]
  | IoErrorReasonEvent sourcePath deviceAlias actionCode reason =>
      [connection; domain; RString sourcePath; RString deviceAlias;
       Integer actionCode; RString reason; userData]
  | GraphicsEvent phaseCode localAddress remoteAddress authScheme subject =>
      [connection; domain; Integer phaseCode; address_record localAddress;
       address_record remoteAddress; RString authScheme;
       subjectIdentityList subject; userData]
  end.

(** The number of positional arguments of each kind. *)
Definition arity (ev : domain_event) : nat :=
  match ev with
  | LifecycleEvent _ _ => 5
  | RebootEvent => 3
  | RtcChangeEvent _ => 4
  | WatchdogEvent _ => 4
  | IoErrorEvent _ _ _ => 6
  | IoErrorReasonEvent _ _ _ _ => 7
  | GraphicsEvent _ _ _ _ _ => 8
  end.

(** How a handler is invoked: a Symbol names a method, called on the class
    of the Symbol; a Proc is sent [call]. *)
Definition receiver (cb : VALUE) : VALUE :=
  match cb with Symbol _ => rb_class_of cb | _ => cb end.

Definition method_name (cb : VALUE) : string :=
  match cb with Symbol id => id | _ => "call" end.

(** ** A scripted libvirt

    An instance of [Host] for running the binding on concrete inputs: the
    probes answer the counts of the script one after the other, the fetches
    its lists, the statistics calls its replies. *)

Record script : Type := Script {
  counts : list Z;
  name_lists : list (option (list string));
  id_lists : list (option (list Z));
  replies : list stats_reply;
  callbacks : gmap Z (internal_callback * VALUE);
  next_callback : Z
}.

Definition next_count (s : script) : Z * script :=
  match counts s with
  | [] => (-1, s)
  | n :: rest =>
      (n, Script rest (name_lists s) (id_lists s) (replies s) (callbacks s)
                 (next_callback s))
  end.

Definition next_names (s : script) : option (list string) * script :=
  match name_lists s with
  | [] => (None, s)
  | l :: rest =>
      (l, Script (counts s) rest (id_lists s) (replies s) (callbacks s)
                 (next_callback s))
  end.

Definition next_ids (s : script) : option (list Z) * script :=
  match id_lists s with
  | [] => (None, s)
  | l :: rest =>
      (l, Script (counts s) (name_lists s) rest (replies s) (callbacks s)
                 (next_callback s))
  end.

Definition next_reply (s : script) : stats_reply * script :=
  match replies s with
  | [] => (StatsReply (-1) 0 [], s)
  | r :: rest =>
      (r, Script (counts s) (name_lists s) (id_lists s) rest (callbacks s)
                 (next_callback s))
  end.

(** Modelled from the spec: the table of registrations kept by libvirt.
    §4.3: a registration is Registered from the call that returns its id
    to the deregistration of that id; deregistering an id that is not
    Registered fails. *)
Definition register_callback (internalcb : internal_callback) (opaque : VALUE)
    (s : script) : Z * script :=
  (next_callback s,
   Script (counts s) (name_lists s) (id_lists s) (replies s)
          (<[next_callback s := (internalcb, opaque)]> (callbacks s))
          (next_callback s + 1)).

(** Modelled from the spec: the deregistration in that table, §4.3:
    "Calling deregister on an already-Deregistered id fails". *)
Definition deregister_callback (id : Z) (s : script) : Z * script :=
  match callbacks s !! id with
  | Some _ =>
      (0, Script (counts s) (name_lists s) (id_lists s) (replies s)
                 (delete id (callbacks s)) (next_callback s))
  | None => (-1, s)
  end.

(** A stand-in for [gen_list]: the first [num] names of the buffer, as Ruby
    strings. *)
Definition names_to_array (num : Z) (names : list (option cstr))
  : M (LV := script) VALUE :=
  for_upto (Z.to_nat num) 0
    (fun i result =>
       let* name := read names i in
       ret (rb_ary_push result (rb_str_new2 (chars name))))
    (rb_ary_new2 num).

Global Instance script_host : Host script := {|
  virConnectNumOf := fun _ _ => next_count;
  virConnectList := fun _ _ _ => next_names;
  virConnectListDomains := fun _ _ => next_ids;
  virNodeNumOfDevices := fun _ _ _ => next_count;
  virNodeListDevices := fun _ _ _ _ => next_names;
  virDomainSnapshotNum := fun _ _ => next_count;
  virDomainSnapshotListNames := fun _ _ _ => next_names;
  virDomainSnapshotNumChildren := fun _ _ => next_count;
  virDomainSnapshotListChildrenNames := fun _ _ _ => next_names;
  virNodeGetCPUStats := fun _ _ _ _ _ => next_reply;
  virNodeGetMemoryStats := fun _ _ _ _ _ => next_reply;
  virConnectDomainEventRegisterAny :=
    fun _ _ _ internalcb opaque => register_callback internalcb opaque;
  virConnectDomainEventDeregisterAny := fun _ id => deregister_callback id;
  rb_method := fun _ _ _ => Ret Qnil;
  gen_list := names_to_array
|}.

(** The world before any call. *)
Definition boot (s : script) : world script := World s [] ∅ 0.

(** ** Typed parameters *)

Module TypedParameter.

(** [domain.c], lines 35-59. *)
Definition VIR_TYPED_PARAM_STRING : Z := 7.
Definition VIR_TYPED_PARAM_FIELD_LENGTH : nat := 80.

(** Modelled from the spec: the six other tags of [libvirt.h], which is
    not among the sources; §3 lists the kinds in this order. *)
Definition VIR_TYPED_PARAM_INT : Z := 1.
Definition VIR_TYPED_PARAM_UINT : Z := 2.
Definition VIR_TYPED_PARAM_LLONG : Z := 3.
Definition VIR_TYPED_PARAM_ULLONG : Z := 4.
Definition VIR_TYPED_PARAM_DOUBLE : Z := 5.
Definition VIR_TYPED_PARAM_BOOLEAN : Z := 6.

(** The union of [struct _virTypedParameter]: the member that was
    written.  A [double] is its 64 bits; [s] is [None] for [NULL]. *)
Inductive value_union : Type :=
  | i (v : Z)
  | ui (v : Z)
  | l (v : Z)
  | ul (v : Z)
  | d (bits : Z)
  | b (v : Z)
  | s (v : option string).

(** [struct _virTypedParameter]. *)
Record virTypedParameter : Type := VirTypedParameter {
  field : string;
  type : Z;
  value : value_union
}.




(** *** The data model of §3 *)

(** Modelled from the spec: §3 [kind]: "enum {Int32, UInt32, Int64,
    UInt64, Double, Boolean, String}". *)
Inductive Kind : Type :=
  | Int32 | UInt32 | Int64 | UInt64 | Double | Boolean | KString.

(** Modelled from the spec: §3 [payload]: "a sum type holding exactly one
    of the above native representations"; a Double is its 64 bits, a
    String may be null. *)
Inductive Payload : Type :=
  | PInt32 (v : Z)
  | PUInt32 (v : Z)
  | PInt64 (v : Z)
  | PUInt64 (v : Z)
  | PDouble (bits : Z)
  | PBoolean (v : bool)
  | PString (v : option string).

(** Modelled from the spec: §3 [TypedValue]. *)
Record TypedValue : Type := Build_TypedValue {
  name : string;
  kind : Kind;
  payload : Payload
}.

Definition ParameterSet : Type := list TypedValue.

Definition active_variant (p : Payload) : Kind :=
  match p with
  | PInt32 _ => Int32
  | PUInt32 _ => UInt32
  | PInt64 _ => Int64
  | PUInt64 _ => UInt64
  | PDouble _ => Double
  | PBoolean _ => Boolean
  | PString _ => KString
  end.


(** "holding exactly one of the above native representations": a number
    is one of the native type of its kind. *)
Definition native (p : Payload) : Prop :=
  match p with
  | PInt32 v => - 2 ^ 31 <= v < 2 ^ 31
  | PUInt32 v => 0 <= v < 2 ^ 32
  | PInt64 v => - 2 ^ 63 <= v < 2 ^ 63
  | PUInt64 v => 0 <= v < 2 ^ 64
  | PDouble _ => True
  | PBoolean _ => True
  | PString _ => True
  end.

(** A TypedValue as §3 types it. *)
Definition typed (tv : TypedValue) : Prop :=
  active_variant (payload tv) = kind tv /\ native (payload tv).

Inductive codec_error : Type :=
  | DecodeError
  | InvalidValueError
  | NameTooLongError.

(** Modelled from the spec: §4.1, "standard two's-complement wraparound
    on overflow at the boundary", to [w] bits. *)
Definition wrap_unsigned (w : Z) (v : Z) : Z := v mod 2 ^ w.

Definition wrap_signed (w : Z) (v : Z) : Z :=
  (v + 2 ^ (w - 1)) mod 2 ^ w - 2 ^ (w - 1).

Definition tag_of_kind (k : Kind) : Z :=
  match k with
  | Int32 => VIR_TYPED_PARAM_INT
  | UInt32 => VIR_TYPED_PARAM_UINT
  | Int64 => VIR_TYPED_PARAM_LLONG
  | UInt64 => VIR_TYPED_PARAM_ULLONG
  | Double => VIR_TYPED_PARAM_DOUBLE
  | Boolean => VIR_TYPED_PARAM_BOOLEAN
  | KString => VIR_TYPED_PARAM_STRING
  end.

Definition kind_of_tag (t : Z) : option Kind :=
  if t =? VIR_TYPED_PARAM_INT then Some Int32
  else if t =? VIR_TYPED_PARAM_UINT then Some UInt32
  else if t =? VIR_TYPED_PARAM_LLONG then Some Int64
  else if t =? VIR_TYPED_PARAM_ULLONG then Some UInt64
  else if t =? VIR_TYPED_PARAM_DOUBLE then Some Double
  else if t =? VIR_TYPED_PARAM_BOOLEAN then Some Boolean
  else if t =? VIR_TYPED_PARAM_STRING then Some KString
  else None.

(** Modelled from the spec: the codec lives in [get_parameters] and
    [set_parameters] of [common.c], which is not among the sources.
    §4.1 [encode]: "for each entry, write name truncated/validated to the
    bounded capacity (fails with NameTooLongError if it would truncate
    silently), write kind tag, write the matching union arm. String
    payloads must not be null; encode fails with InvalidValueError for a
    String-kind entry holding no string", with wrap-around to 32 and 64
    bits and a Boolean written as 0 or 1.  An entry whose payload is not
    of its kind is malformed and is refused in the same way. *)
Definition encode_value (k : Kind) (p : Payload)
  : codec_error + value_union :=
  match k, p with
  | Int32, PInt32 v => inr (i (wrap_signed 32 v))
  | UInt32, PUInt32 v => inr (ui (wrap_unsigned 32 v))
  | Int64, PInt64 v => inr (l (wrap_signed 64 v))
  | UInt64, PUInt64 v => inr (ul (wrap_unsigned 64 v))
  | Double, PDouble bits => inr (d bits)
  | Boolean, PBoolean v => inr (b (if v then 1 else 0))
  | KString, PString (Some str) => inr (s (Some str))
  | _, _ => inl InvalidValueError
  end.

(** Modelled from the spec: §4.1 [encode], one entry: the name is checked
    against the capacity, then the tag and the member are written. *)
Definition encode_entry (tv : TypedValue) : codec_error + virTypedParameter :=
  if decide (VIR_TYPED_PARAM_FIELD_LENGTH < String.length (name tv))%nat then
    inl NameTooLongError
  else
    match encode_value (kind tv) (payload tv) with
    | inl e => inl e
    | inr v => inr (VirTypedParameter (name tv) (tag_of_kind (kind tv)) v)
    end.

(** Modelled from the spec: §4.1 [encode(ParameterSet) -> rawArray]; all
    records or none, "no partial write observable" (§8). *)
Fixpoint encode (P : ParameterSet) : codec_error + list virTypedParameter :=
  match P with
  | [] => inr []
  | tv :: rest =>
      match encode_entry tv with
      | inl e => inl e
      | inr r =>
          match encode rest with
          | inl e => inl e
          | inr rs => inr (r :: rs)
          end
      end
  end.

(** Modelled from the spec: §4.1 [decode]: "for each raw record, inspect
    kind; copy the matching payload variant. Fails with DecodeError if
    kind is outside the known enum range"; "any nonzero treated as true
    only in decode".  A record whose written member is not the one its
    tag names is malformed and is refused in the same way. *)
Definition decode_value (k : Kind) (v : value_union)
  : codec_error + Payload :=
  match k, v with
  | Int32, i n => inr (PInt32 n)
  | UInt32, ui n => inr (PUInt32 n)
  | Int64, l n => inr (PInt64 n)
  | UInt64, ul n => inr (PUInt64 n)
  | Double, d bits => inr (PDouble bits)
  | Boolean, b n => inr (PBoolean (negb (n =? 0)))
  | KString, s str => inr (PString str)
  | _, _ => inl DecodeError
  end.

(** Modelled from the spec: §4.1 [decode], one record: "inspect kind;
    copy the matching payload variant". *)
Definition decode_record (r : virTypedParameter) : codec_error + TypedValue :=
  match kind_of_tag (type r) with
  | None => inl DecodeError
  | Some k =>
      match decode_value k (value r) with
      | inl e => inl e
      | inr p => inr (Build_TypedValue (field r) k p)
      end
  end.

(** Modelled from the spec: §4.1 [decode] over all records; §8: "decode
    aborts without partially populating the ParameterSet". *)
Fixpoint decode_all (raw : list virTypedParameter)
  : codec_error + ParameterSet :=
  match raw with
  | [] => inr []
  | r :: rest =>
      match decode_record r with
      | inl e => inl e
      | inr tv =>
          match decode_all rest with
          | inl e => inl e
          | inr tvs => inr (tv :: tvs)
          end
      end
  end.

(** Modelled from the spec: §4.1 [decode(rawArray, count) ->
    ParameterSet], over the first [count] records. *)
Definition decode (rawArray : list virTypedParameter) (count : Z)
  : codec_error + ParameterSet :=
  decode_all (take (Z.to_nat count) rawArray).

End TypedParameter.

(** ** Vocabulary of the statements *)

Section Observations.
Context {LV : Type}.

(** A computation that only looks: it answers the same in every world and
    leaves the world as it found it. *)
Definition pure {A : Type} (m : M (LV := LV) A) : Prop :=
  exists o : outcome A, forall w, m w = (o, w).

(** A computation that neither allocates nor frees. *)
Definition keeps_heap {A : Type} (m : M (LV := LV) A) : Prop :=
  forall w o w', m w = (o, w') -> heap w' = heap w /\ brk w' = brk w.

(** The world after libvirt was entered through [func] and left in state
    [st]. *)
Definition logged (w : world LV) (func : string) (st : LV) : world LV :=
  World st (trace w ++ [Libvirt func]) (heap w) (brk w).

(** The world after a handler was called. *)
Definition after_funcall (w : world LV) (recv : VALUE) (mid : string)
    (argv : list VALUE) : world LV :=
  World (libvirt w) (trace w ++ [Funcall recv mid argv]) (heap w) (brk w).
End Observations.

(** An error about the arguments of a call: Ruby's [ArgumentError], or the
    [TypeError] and [RangeError] of an argument that cannot be converted. *)
Definition argument_error (e : exception) : Prop :=
  exc_class e = rb_eArgError \/ exc_class e = rb_eTypeError
  \/ exc_class e = rb_eRangeError.

(** The seven kinds of event that a handler can be registered for:
    lifecycle, reboot, RTC change, watchdog, I/O error, I/O error with
    reason, graphics. *)
Definition known_event_kind (id : Z) : Prop :=
  id ∈ [VIR_DOMAIN_EVENT_ID_LIFECYCLE; VIR_DOMAIN_EVENT_ID_REBOOT;
        VIR_DOMAIN_EVENT_ID_RTC_CHANGE; VIR_DOMAIN_EVENT_ID_WATCHDOG;
        VIR_DOMAIN_EVENT_ID_IO_ERROR; VIR_DOMAIN_EVENT_ID_IO_ERROR_REASON;
        VIR_DOMAIN_EVENT_ID_GRAPHICS].

(** A request to register that is in order but for its event id: two to
    four arguments, an integer that fits an [int], a Symbol or a Proc, no
    domain or a live one. *)
Definition request_ok (argv : list VALUE) : Prop :=
  (2 <= length argv <= 4)%nat
  /\ (exists id, NUM2INT (nth 0 argv Qnil) = Ret id)
  /\ is_symbol_or_proc (nth 1 argv Qnil) = true
  /\ (nth 2 argv Qnil = Qnil
      \/ exists p conn, nth 2 argv Qnil = Domain p conn /\ p <> 0).

(** What a callback answers once the handler has run: [0], or the
    exception of the handler. *)
Definition handler_outcome (o : outcome VALUE) : outcome Z :=
  match o with
  | Ret _ => Ret 0
  | Raise e => Raise e
  | Undef => Undef
  end.

Definition name_of (c : cstr) : VALUE := RString (chars c).

(** *** Scripted runs *)

Definition a_connection : VALUE := Connect 9.
Definition a_domain : VALUE := Domain 5 a_connection.
Definition a_snapshot : VALUE := DomainSnapshot 4 a_domain.

(** The probe counts three; by the time of the fetch one is gone. *)
Definition shrinking : script :=
  Script [3] [Some ["first"; "second"]] [Some [7; 8]] [] ∅ 0.

(** The probe counts zero. *)
Definition childless : script := Script [0] [Some []] [] [] ∅ 0.

(** The probe fails. *)
Definition unreachable : script := Script [-1] [] [] [] ∅ 0.

(** The statistics probe counts two, the fetch fails. *)
Definition failing_fetch : script :=
  Script [] [] [] [StatsReply 0 2 []; StatsReply (-1) 2 []] ∅ 0.

(** Nothing scripted, nothing registered. *)
Definition idle : script := Script [] [] [] [] ∅ 0.

Definition two_identities : graphics_subject :=
  GraphicsSubject 2 [GraphicsIdentity "x509dname" "CN=client";
                     GraphicsIdentity "saslUsername" "fred"].

Definition a_graphics_event : domain_event :=
  GraphicsEvent 0 (GraphicsAddress 1 "10.0.0.1" "5900")
                (GraphicsAddress 1 "10.0.0.7" "41234") "sasl" two_identities.

(** The world in which the callback registered first has the id [0]. *)
Definition one_registered : world script :=
  snd (libvirt_conn_domain_event_register_any
         [Integer VIR_DOMAIN_EVENT_ID_REBOOT; Symbol "on_reboot"]
         a_connection (boot idle)).

Definition some_parameters : TypedParameter.ParameterSet :=
  [TypedParameter.Build_TypedValue "cpu_shares" TypedParameter.UInt64
     (TypedParameter.PUInt64 1024);
   TypedParameter.Build_TypedValue "vcpu_quota" TypedParameter.Int64
     (TypedParameter.PInt64 (-1));
   TypedParameter.Build_TypedValue "weight" TypedParameter.Int32
     (TypedParameter.PInt32 (-5));
   TypedParameter.Build_TypedValue "enabled" TypedParameter.Boolean
     (TypedParameter.PBoolean true);
   TypedParameter.Build_TypedValue "device" TypedParameter.KString
     (TypedParameter.PString (Some "/dev/sda"))].

(** An Int32 entry that holds 2^31, one more than a native [int] can. *)
Definition overflowing_parameters : TypedParameter.ParameterSet :=
  [TypedParameter.Build_TypedValue "weight" TypedParameter.Int32
     (TypedParameter.PInt32 (2 ^ 31))].


(** ** More of [connect.c] and [domain.c]

    The functions below enter libvirt through entry points of their own;
    they are the methods of a second class, [Hypervisor]. *)

(** [virNodeInfo], with the members that [connect.c] reads (lines
    235-242, 299). *)
Record virNodeInfo : Type := VirNodeInfo {
  model : string;
  memory : Z;
  cpus : Z;
  mhz : Z;
  nodes : Z;
  sockets : Z;
  cores : Z;
  threads : Z
}.

(** [virDomainInfo]; [nrVirtCpu] is an [unsigned short]. *)
Record virDomainInfo : Type := VirDomainInfo {
  di_state : Z;
  di_maxMem : Z;
  di_memory : Z;
  di_nrVirtCpu : Z;
  di_cpuTime : Z
}.

(** [virVcpuInfo]. *)
Record virVcpuInfo : Type := VirVcpuInfo {
  vi_number : Z;
  vi_state : Z;
  vi_cpuTime : Z;
  vi_cpu : Z
}.

(** An entry point that reports failure by a negative return value or by
    [NULL] answers [None] then, and otherwise what it wrote or returned.
    A function pointer is the function. *)
Class Hypervisor (LV : Type) : Type := {
  virNodeGetInfo : virConnectPtr -> LV -> option virNodeInfo * LV;
  (** [virNodeGetCellsFreeMemory(conn, freeMems, startCell, maxCells)],
      [startCell] and [maxCells] being [int]s: the amounts it has to
      offer, as for the fetches of [Host] *)
  virNodeGetCellsFreeMemory :
    virConnectPtr -> Z -> Z -> LV -> option (list Z) * LV;
  (** [virConnectBaselineCPU(conn, xmllist, ncpus, flags)], given the
      buffer [xmllist] as it is *)
  virConnectBaselineCPU :
    virConnectPtr -> list (option string) -> Z -> Z -> LV -> option string * LV;
  (** [virConnectDomainEventRegister(conn, cb, opaque, freecb)], always
      called with [freecb = NULL] *)
  virConnectDomainEventRegister :
    virConnectPtr ->
    (virConnectPtr -> virDomainPtr -> Z -> Z -> VALUE -> M (LV := LV) Z) ->
    VALUE -> LV -> Z * LV;
  virConnectDomainEventDeregister :
    virConnectPtr ->
    (virConnectPtr -> virDomainPtr -> Z -> Z -> VALUE -> M (LV := LV) Z) ->
    LV -> Z * LV;
  (** [virDomainGetSchedulerType(dom, &nparams)]: the type and the count *)
  virDomainGetSchedulerType : virDomainPtr -> LV -> option (string * Z) * LV;
  virConnectGetType : virConnectPtr -> LV -> option string * LV;
  (** [virDomainQemuMonitorCommand(dom, cmd, &result, flags)] *)
  virDomainQemuMonitorCommand :
    virDomainPtr -> string -> Z -> LV -> option string * LV;
  (** [virDomainMigrate(domain, dconn, flags, dname, uri, bandwidth)]: [0]
      is [NULL] *)
  virDomainMigrate :
    virDomainPtr -> virConnectPtr -> Z -> option string -> option string ->
    Z -> LV -> virDomainPtr * LV;
  (** [virDomainPinVcpuFlags(domain, vcpu, cpumap, maplen, flags)], given
      the bytes of [cpumap] *)
  virDomainPinVcpuFlags :
    virDomainPtr -> Z -> list Z -> Z -> Z -> LV -> Z * LV;
  (** [virDomainSnapshotGetParent(snap, flags)]: [0] is [NULL] *)
  virDomainSnapshotGetParent :
    virDomainSnapshotPtr -> Z -> LV -> virDomainSnapshotPtr * LV;
  (** [virConnGetLastError(conn)->code] *)
  virConnGetLastError : virConnectPtr -> LV -> Z * LV;
  (** the error code of that name in [virterror.h] *)
  VIR_ERR_NO_DOMAIN_SNAPSHOT : Z;
  virDomainGetInfo : virDomainPtr -> LV -> option virDomainInfo * LV;
  (** [virDomainGetVcpus(domain, info, maxinfo, cpumaps, maplen)]: the
      records and the bytes it has to offer; when it fails it has written
      nothing *)
  virDomainGetVcpus :
    virDomainPtr -> Z -> Z -> LV -> option (list virVcpuInfo * list Z) * LV;
  (** [virDomainGetVcpuPinInfo(domain, ncpumaps, cpumaps, maplen, flags)]:
      the bytes it has to offer *)
  virDomainGetVcpuPinInfo :
    virDomainPtr -> Z -> Z -> Z -> LV -> option (list Z) * LV;
  (** the constants of these names in [libvirt.h] *)
  VIR_DOMAIN_SHUTOFF : Z;
  VIR_DOMAIN_AFFECT_CONFIG : Z
}.

(** An instance of one of the classes that the binding defines with
    [rb_define_class_under] is no [VALUE] of the kinds above.  Making one
    and setting an instance variable of it are the methods of a class of
    their own: [rb_class_new_instance(0, NULL, klass)], given the name of
    [klass], and [rb_iv_set(obj, name, val)], which answers the object
    with the variable set. *)
Class Instances : Type := {
  rb_class_new_instance : string -> VALUE;
  rb_iv_set : VALUE -> string -> VALUE -> VALUE
}.

Definition UINT2NUM (n : Z) : VALUE := Integer n.

(** The room that the stack has left for [alloca], in bytes, is the
    machine's. *)
Class Machine : Type := {
  stack_room : Z
}.

(** An [unsigned int] given where the callee takes an [int]: beyond
    [INT_MAX] it arrives as a negative number. *)
Definition int_of_unsigned (u : Z) : Z :=
  if u <=? INT_MAX then u else u - 2 ^ 32.

(** [sizeof(unsigned long long)]. *)
Definition sizeof_unsigned_long_long : Z := 8.

(** [NUM2ULONG], for an [unsigned long] of 64 bits: negative numbers down
    to [LONG_MIN] wrap around. *)
Definition NUM2ULONG (v : VALUE) : outcome Z :=
  match v with
  | Integer n =>
      if (- 2 ^ 63 <=? n) && (n <=? 2 ^ 64 - 1) then Ret (n mod 2 ^ 64)
      else
        Raise (Exception rb_eRangeError
                         "integer out of range of unsigned long")
  | _ => Raise (Exception rb_eTypeError "no implicit conversion to Integer")
  end.

(** The macros of [libvirt.h] for maps of CPUs, one bit for each CPU:
    [VIR_CPU_MAPLEN(cpu)] is [((cpu) + 7) / 8], and
    [VIR_CPU_USED(cpumap, cpu)] is
    [(cpumap)[(cpu) / 8] & (1 << ((cpu) % 8))]. *)
Definition VIR_CPU_MAPLEN (cpu : Z) : Z := (cpu + 7) / 8.


(** [VIR_NODEINFO_MAXCPUS(nodeinfo)] is
    [((nodeinfo).nodes*(nodeinfo).sockets*(nodeinfo).cores*(nodeinfo).threads)],
    a product of [unsigned int]s. *)
Definition VIR_NODEINFO_MAXCPUS (nodeinfo : virNodeInfo) : Z :=
  (nodes nodeinfo * sockets nodeinfo * cores nodeinfo * threads nodeinfo)
  mod 2 ^ 32.

Section More.
Context {LV : Type} `{Host LV} `{Hypervisor LV} `{Instances} `{Machine}.

(** A string that libvirt allocated for its answer and that the caller
    has to free. *)
Definition owned (str : string) : M (LV := LV) cstr :=
  let* b := malloc in
  ret (CStr b str).


Fixpoint has_nul (s : string) : bool :=
  match s with
  | EmptyString => false
  | String c rest => Ascii.eqb c Ascii.zero || has_nul rest
  end.

(** [StringValueCStr(v)]: the characters of a String that holds no NUL. *)
Definition StringValueCStr (v : VALUE) : M (LV := LV) string :=
  match v with
  | RString s =>
      if has_nul s then rb_raise rb_eArgError "string contains null byte"
      else ret s
  | _ => rb_raise rb_eTypeError "no implicit conversion into String"
  end.

(** [alloca(size)] for a buffer of [n] slots: what it does when the stack
    has no room for [size] bytes is undefined. *)
Definition alloca {T : Type} (size : Z) (n : Z)
  : M (LV := LV) (list (option T)) :=
  if size <=? stack_room then ret (fresh_slots n) else undef.

(** *** [connect.c] *)

(** [startCell] and [maxCells] are [unsigned int]s; libvirt takes them
    for [int]s. *)
Definition libvirt_conn_node_cells_free_memory (argv : list VALUE) (s : VALUE)
  : M (LV := LV) VALUE :=
  let* args := rb_scan_args 0 2 argv in
  let start := nth 0 args Qnil in
  let max := nth 1 args Qnil in
  let* startCell := if NIL_P start then ret 0 else lift (NUM2UINT start) in
  let* maxCells :=
    if NIL_P max then
      let* conn := connect_get s in
      let* r := call "virNodeGetInfo" (virNodeGetInfo conn) in
      match r with
      | None =>
          let* conn := connect_get s in
          raise (create_error e_RetrieveError "virNodeGetInfo" conn)
      | Some nodeinfo => ret (nodes nodeinfo)
      end
    else lift (NUM2UINT max) in
  let* freeMems := alloca (sizeof_unsigned_long_long * maxCells) maxCells in
  let* conn := connect_get s in
  let* (r, freeMems) :=
    fetch_ints "virNodeGetCellsFreeMemory"
               (virNodeGetCellsFreeMemory conn (int_of_unsigned startCell)
                                          (int_of_unsigned maxCells))
               freeMems (int_of_unsigned maxCells) in
  _E (r <? 0)
     (let* conn := connect_get s in
      ret (create_error e_RetrieveError "virNodeGetCellsFreeMemory" conn)) ;;
  let cells := rb_ary_new2 r in
  for_upto (Z.to_nat r) 0
    (fun i cells =>
       let* freeMem := read freeMems i in
       ret (rb_ary_push cells (ULL2NUM freeMem)))
    cells.


(** The wrapper of [domain_event_lifecycle_callback] that
    [libvirt_conn_domain_event_register] hands to libvirt. *)
Definition domain_event_callback (conn : virConnectPtr) (dom : virDomainPtr)
    (event : Z) (detail : Z) (opaque : VALUE) : M (LV := LV) Z :=
  domain_event_lifecycle_callback conn dom event detail opaque.

Definition libvirt_conn_domain_event_register (argv : list VALUE) (c : VALUE)
  : M (LV := LV) VALUE :=
  let* args := rb_scan_args 1 1 argv in
  let cb := nth 0 args Qnil in
  let opaque := nth 1 args Qnil in
  when (negb (is_symbol_or_proc cb))
    (rb_raise rb_eTypeError "wrong argument type (expected Symbol or Proc)") ;;
  let passthrough := rb_ary_new in
  let passthrough := rb_ary_store passthrough 0 cb in
  let passthrough := rb_ary_store passthrough 1 opaque in
  gen_call_void "virConnectDomainEventRegister" (connect_get c)
    (let* conn := connect_get c in
     call "virConnectDomainEventRegister"
          (virConnectDomainEventRegister conn domain_event_callback
                                         passthrough)).

Definition libvirt_conn_domain_event_deregister (c : VALUE)
  : M (LV := LV) VALUE :=
  gen_call_void "virConnectDomainEventDeregister" (connect_get c)
    (let* conn := connect_get c in
     call "virConnectDomainEventDeregister"
          (virConnectDomainEventDeregister conn domain_event_callback)).

(** *** [domain.c] *)

Definition libvirt_dom_migrate (argv : list VALUE) (d : VALUE)
  : M (LV := LV) VALUE :=
  let* args := rb_scan_args 1 4 argv in
  let dconn := nth 0 args Qnil in
  let flags := nth 1 args Qnil in
  let dname_val := nth 2 args Qnil in
  let uri_val := nth 3 args Qnil in
  let bandwidth := nth 4 args Qnil in
  let bandwidth := integer_default_if_nil bandwidth 0 in
  let flags := integer_default_if_nil flags 0 in
  let* dom := domain_get d in
  let* conn := connect_get dconn in
  let* fl := lift (NUM2ULONG flags) in
  let* dname := get_string_or_nil dname_val in
  let* uri := get_string_or_nil uri_val in
  let* bw := lift (NUM2ULONG bandwidth) in
  let* ddom :=
    call "virDomainMigrate" (virDomainMigrate dom conn fl dname uri bw) in
  _E (ddom =? 0)
     (let* conn := connect_get d in
      ret (create_error e_Error "virDomainMigrate" conn)) ;;
  ret (domain_new ddom dconn).


(** [VIR_CPU_USABLE(cpumaps, maplen, vcpu, cpu)] of [libvirt.h], which is
    [VIR_CPU_USED(VIR_GET_CPUMAP(cpumaps, maplen, vcpu), cpu)] with
    [VIR_GET_CPUMAP(cpumaps, maplen, vcpu)] being
    [&(cpumaps[(vcpu) * (maplen)])], on a buffer that came from [alloca]. *)
Definition VIR_CPU_USABLE (cpumaps : list (option Z)) (maplen vcpu cpu : Z)
  : M (LV := LV) Z :=
  let* byte := read cpumaps (Z.to_nat (vcpu * maplen + cpu / 8)) in
  ret (Z.land byte (Z.shiftl 1 (cpu mod 8))).

(** With [HAVE_VIRDOMAINGETVCPUPININFO].  [alloca] does not answer
    [NULL]; the size of [cpumap] is a product of [int]s. *)
Definition libvirt_dom_get_vcpus (d : VALUE) : M (LV := LV) VALUE :=
  let* conn := connect_get d in
  let* r := call "virNodeGetInfo" (virNodeGetInfo conn) in
  match r with
  | None =>
      let* conn := connect_get d in
      raise (create_error e_RetrieveError "virNodeGetInfo" conn)
  | Some nodeinfo =>
      let* dom := domain_get d in
      let* r := call "virDomainGetInfo" (virDomainGetInfo dom) in
      match r with
      | None =>
          let* conn := connect_get d in
          raise (create_error e_RetrieveError "virDomainGetInfo" conn)
      | Some dominfo =>
          let cpuinfo : option (list (option virVcpuInfo)) :=
            Some (fresh_slots (di_nrVirtCpu dominfo)) in
          let cpumaplen := VIR_CPU_MAPLEN (VIR_NODEINFO_MAXCPUS nodeinfo) in
          (if di_nrVirtCpu dominfo * cpumaplen <=? INT_MAX then ret tt
           else undef) ;;
          let cpumap : list (option Z) :=
            fresh_slots (di_nrVirtCpu dominfo * cpumaplen) in
          let* dom := domain_get d in
          let* r :=
            call "virDomainGetVcpus"
                 (virDomainGetVcpus dom (di_nrVirtCpu dominfo) cpumaplen) in
          let* bufs :=
            match r with
            | Some (infos, bytes) =>
                ret (written_to cpuinfo infos, fill cpumap bytes)
            | None =>
                (* if the domain is not shutoff, then this is an error *)
                when (negb (di_state dominfo =? VIR_DOMAIN_SHUTOFF))
                  (let* conn := connect_get d in
                   raise (create_error e_RetrieveError "virDomainGetVcpus"
                                       conn)) ;;
                (* otherwise, we can try to call virDomainGetVcpuPinInfo
                   to get the information instead *)
                let* dom := domain_get d in
                let* r :=
                  call "virDomainGetVcpuPinInfo"
                       (virDomainGetVcpuPinInfo dom (di_nrVirtCpu dominfo)
                          cpumaplen VIR_DOMAIN_AFFECT_CONFIG) in
                match r with
                | None =>
                    let* conn := connect_get d in
                    raise (create_error e_RetrieveError
                                        "virDomainGetVcpuPinInfo" conn)
                | Some bytes => ret (cpuinfo, fill cpumap bytes)
                end
            end in
          let cpuinfo := fst bufs in
          let cpumap := snd bufs in
          let result := rb_ary_new in
          for_upto (Z.to_nat (di_nrVirtCpu dominfo)) 0
            (fun i result =>
               let vcpuinfo :=
                 rb_class_new_instance "Libvirt::Domain::VCPUInfo" in
               let vcpuinfo :=
                 rb_iv_set vcpuinfo "@number" (UINT2NUM (Z.of_nat i)) in
               let* vcpuinfo :=
                 match cpuinfo with
                 | Some cpuinfo =>
                     let* info := read cpuinfo i in
                     let vcpuinfo :=
                       rb_iv_set vcpuinfo "@state" (INT2NUM (vi_state info)) in
                     let vcpuinfo :=
                       rb_iv_set vcpuinfo "@cpu_time"
                                 (ULL2NUM (vi_cpuTime info)) in
                     ret (rb_iv_set vcpuinfo "@cpu" (INT2NUM (vi_cpu info)))
                 | None =>
                     let vcpuinfo := rb_iv_set vcpuinfo "@state" Qnil in
                     let vcpuinfo := rb_iv_set vcpuinfo "@cpu_time" Qnil in
                     ret (rb_iv_set vcpuinfo "@cpu" Qnil)
                 end in
               let p2vcpumap := rb_ary_new in
               let* p2vcpumap :=
                 for_upto (Z.to_nat (VIR_NODEINFO_MAXCPUS nodeinfo)) 0
                   (fun j p2vcpumap =>
                      let* usable :=
                        VIR_CPU_USABLE cpumap
                          (VIR_CPU_MAPLEN (VIR_NODEINFO_MAXCPUS nodeinfo))
                          (Z.of_nat i) (Z.of_nat j) in
                      ret (rb_ary_push p2vcpumap
                             (if usable =? 0 then Qfalse else Qtrue)))
                   p2vcpumap in
               let vcpuinfo := rb_iv_set vcpuinfo "@cpumap" p2vcpumap in
               ret (rb_ary_push result vcpuinfo))
            result
      end
  end.


Definition domain_snapshot_new (d : virDomainSnapshotPtr) (domain : VALUE)
  : VALUE :=
  DomainSnapshot d domain.

(** [create_sched_type_array], given the members of its argument. *)
Definition create_sched_type_array (type : string) (nparams : Z)
  : M (LV := LV) VALUE :=
  let result := rb_ary_new in
  let result := rb_ary_push result (rb_str_new2 type) in
  let result := rb_ary_push result (INT2NUM nparams) in
  ret result.

Definition libvirt_dom_scheduler_type (d : VALUE) : M (LV := LV) VALUE :=
  let* dom := domain_get d in
  let* r :=
    call "virDomainGetSchedulerType" (virDomainGetSchedulerType dom) in
  match r with
  | None =>
      let* conn := connect_get d in
      raise (create_error e_RetrieveError "virDomainGetSchedulerType" conn)
  | Some (type, nparams) =>
      let* type := owned type in
      let* caught :=
        rb_protect (create_sched_type_array (chars type) nparams) in
      match caught with
      | inl exception => xfree (addr type) ;; rb_jump_tag exception
      | inr result => ret result
      end
  end.

Definition scheduler_nparams (d : VALUE) (flags : Z) : M (LV := LV) Z :=
  let* dom := domain_get d in
  let* r :=
    call "virDomainGetSchedulerType" (virDomainGetSchedulerType dom) in
  match r with
  | None =>
      let* conn := connect_get d in
      raise (create_error e_RetrieveError "virDomainGetSchedulerType" conn)
  | Some (type, nparams) =>
      let* type := owned type in
      xfree (addr type) ;;
      ret nparams
  end.

Definition libvirt_dom_qemu_monitor_command (argv : list VALUE) (d : VALUE)
  : M (LV := LV) VALUE :=
  let* args := rb_scan_args 1 1 argv in
  let cmd := nth 0 args Qnil in
  let flags := nth 1 args Qnil in
  let flags := integer_default_if_nil flags 0 in
  let* conn := connect_get d in
  let* type := call "virConnectGetType" (virConnectGetType conn) in
  match type with
  | None =>
      let* conn := connect_get d in
      raise (create_error e_Error "virConnectGetType" conn)
  | Some type =>
      when (negb (streq type "QEMU"))
        (rb_raise rb_eTypeError
           "Tried to use virDomainQemuMonitor command on %s connection") ;;
      let* dom := domain_get d in
      let* command := StringValueCStr cmd in
      let* fl := lift (NUM2UINT flags) in
      let* result :=
        call "virDomainQemuMonitorCommand"
             (virDomainQemuMonitorCommand dom command fl) in
      match result with
      | None =>
          let* conn := connect_get d in
          raise (create_error e_RetrieveError "virDomainQemuMonitorCommand"
                              conn)
      | Some result =>
          let* result := owned result in
          let* caught := rb_protect (ret (rb_str_new2 (chars result))) in
          xfree (addr result) ;;
          match caught with
          | inl exception => rb_jump_tag exception
          | inr ret_ => ret ret_
          end
      end
  end.

Definition libvirt_dom_snapshot_parent (argv : list VALUE) (s : VALUE)
  : M (LV := LV) VALUE :=
  let* args := rb_scan_args 0 1 argv in
  let flags := nth 0 args Qnil in
  let flags := integer_default_if_nil flags 0 in
  let* snapshot := domain_snapshot_get s in
  let* fl := lift (NUM2UINT flags) in
  let* snap :=
    call "virDomainSnapshotGetParent" (virDomainSnapshotGetParent snapshot fl) in
  if snap =? 0 then
    (* snap may be NULL if there is a root, in which case we want to return
       nil *)
    let* conn := connect_get s in
    let* code := call "virConnGetLastError" (virConnGetLastError conn) in
    if code =? VIR_ERR_NO_DOMAIN_SNAPSHOT then ret Qnil
    else
      let* conn := connect_get s in
      raise (create_error e_RetrieveError "virDomainSnapshotGetParent" conn)
  else ret (domain_snapshot_new snap s).
End More.

(** The scripted libvirt answers the entry points of [Hypervisor] from the
    same lists: a count for a number or a pointer, the head of a list of
    names for a string; a host has as many CPUs as cells, the count. *)
Definition next_string (s : script) : option string * script :=
  match next_names s with
  | (Some (str :: _), s') => (Some str, s')
  | (_, s') => (None, s')
  end.

Definition next_node_info (s : script) : option virNodeInfo * script :=
  let (n, s') := next_count s in
  if n <? 0 then (None, s')
  else (Some (VirNodeInfo "x86_64" 0 n 0 n 1 1 1), s').

(** A count for the state and a count for the virtual CPUs. *)
Definition next_domain_info (s : script) : option virDomainInfo * script :=
  let (st, s') := next_count s in
  let (n, s'') := next_count s' in
  if st <? 0 then (None, s'')
  else (Some (VirDomainInfo st 0 0 n 0), s'').

(** A list of numbers is the bytes of the maps; a virtual CPU runs on the
    CPU of its own number. *)
Definition next_vcpus (maxinfo : Z) (s : script)
  : option (list virVcpuInfo * list Z) * script :=
  match next_ids s with
  | (Some bytes, s') =>
      (Some (map (fun i => VirVcpuInfo (Z.of_nat i) 1 0 (Z.of_nat i))
                 (seq 0 (Z.to_nat maxinfo)), bytes), s')
  | (None, s') => (None, s')
  end.

Definition next_sched_type (s : script) : option (string * Z) * script :=
  match next_string s with
  | (Some type, s') => let (n, s'') := next_count s' in (Some (type, n), s'')
  | (None, s') => (None, s')
  end.

Global Instance script_hypervisor : Hypervisor script := {|
  virNodeGetInfo := fun _ => next_node_info;
  virNodeGetCellsFreeMemory := fun _ _ _ => next_ids;
  virConnectBaselineCPU := fun _ _ _ _ => next_string;
  virConnectDomainEventRegister := fun _ _ _ => next_count;
  virConnectDomainEventDeregister := fun _ _ => next_count;
  virDomainGetSchedulerType := fun _ => next_sched_type;
  virConnectGetType := fun _ => next_string;
  virDomainQemuMonitorCommand := fun _ _ _ => next_string;
  virDomainMigrate := fun _ _ _ _ _ _ => next_count;
  virDomainPinVcpuFlags := fun _ _ _ _ _ => next_count;
  virDomainSnapshotGetParent := fun _ _ => next_count;
  virConnGetLastError := fun _ => next_count;
  VIR_ERR_NO_DOMAIN_SNAPSHOT := 72;
  virDomainGetInfo := fun _ => next_domain_info;
  virDomainGetVcpus := fun _ maxinfo _ => next_vcpus maxinfo;
  virDomainGetVcpuPinInfo := fun _ _ _ _ => next_ids;
  VIR_DOMAIN_SHUTOFF := 5;
  VIR_DOMAIN_AFFECT_CONFIG := 2
|}.

(** Instances shown as the hash of their instance variables, under the
    name of their class. *)
Global Instance shown_instances : Instances := {|
  rb_class_new_instance := fun cname => RHash [("class", RString cname)];
  rb_iv_set := rb_hash_aset
|}.

(** A stack with 8 MiB left. *)
Global Instance a_machine : Machine := {|
  stack_room := 8388608
|}.

(** ** More vocabulary of the statements *)

(** [v] is a String that holds the characters [str], none of them NUL:
    what [StringValueCStr] accepts. *)
Definition c_string (v : VALUE) (str : string) : Prop :=
  v = RString str /\ has_nul str = false.

(** The hash that [cpu_hash_set] has built after the records [written]:
    each field name with its value, a later record of the same name
    replacing an earlier one. *)
Definition fields_of (written : list node_stats) : VALUE :=
  RHash (fold_left
           (fun pairs p => hash_aset pairs (field p) (ULL2NUM (value p)))
           written []).

(** A record as the pair that [cpu_hash_set] makes of it. *)
Definition field_value (p : node_stats) : string * VALUE :=
  (field p, ULL2NUM (value p)).

(** What [libvirt_dom_get_vcpus] makes of the record [info] of the
    virtual CPU [i] and of the array [cpumap]. *)
Definition vcpu_object `{Instances} (i : nat) (info : virVcpuInfo)
    (cpumap : list VALUE) : VALUE :=
  let o := rb_class_new_instance "Libvirt::Domain::VCPUInfo" in
  let o := rb_iv_set o "@number" (Integer (Z.of_nat i)) in
  let o := rb_iv_set o "@state" (Integer (vi_state info)) in
  let o := rb_iv_set o "@cpu_time" (Integer (vi_cpuTime info)) in
  let o := rb_iv_set o "@cpu" (Integer (vi_cpu info)) in
  rb_iv_set o "@cpumap" (RArray cpumap).

(** Bit [cpu] of the map of the virtual CPU [vcpu], the maps being
    [maplen] bytes each, one after the other in [bytes]. *)
Definition pinned (bytes : list Z) (maplen : Z) (vcpu cpu : nat) : bool :=
  Z.testbit
    (nth (Z.to_nat (Z.of_nat vcpu * maplen + Z.of_nat cpu / 8)) bytes 0)
    (Z.of_nat cpu mod 8).

Definition truth (b : bool) : VALUE := if b then Qtrue else Qfalse.

(** *** More scripted runs *)

(** A host that reports the free memory of three cells. *)
Definition three_cells : script :=
  Script [] [] [Some [100; 200; 300]] [] ∅ 0.

(** A host of two cells that has the free memory of three to offer. *)
Definition two_nodes : script :=
  Script [2] [] [Some [100; 200; 300]] [] ∅ 0.

(** libvirt answers one string. *)
Definition one_answer (str : string) : script :=
  Script [] [Some [str]] [] [] ∅ 0.

(** libvirt answers the number [n]. *)
Definition one_count (n : Z) : script := Script [n] [] [] [] ∅ 0.


(** The scheduler [credit], with two parameters. *)
Definition a_scheduler : script := Script [2] [Some ["credit"]] [] [] ∅ 0.

(** A QEMU connection whose monitor answers [running]. *)
Definition a_monitor : script :=
  Script [] [Some ["QEMU"]; Some ["running"]] [] [] ∅ 0.

(** The probe counts two and the fetch has two to offer. *)
Definition steady : script :=
  Script [2] [Some ["first"; "second"]] [Some [7; 8]] [] ∅ 0.

(** A shut-off domain of one virtual CPU on a host of eight CPUs:
    [virDomainGetVcpus] fails, [virDomainGetVcpuPinInfo] writes the map. *)
Definition shut_off : script := Script [8; 5; 1] [] [None; Some [255]] [] ∅ 0.

(** A running domain of two virtual CPUs on a host of eight CPUs: the
    first may run on CPUs 0 and 2, the second on CPU 1. *)
Definition two_vcpus : script := Script [8; 1; 2] [] [Some [5; 2]] [] ∅ 0.

(** The statistics probe counts two, the fetch writes two records. *)
Definition two_statistics : script :=
  Script [] [] []
         [StatsReply 0 2 [];
          StatsReply 0 2 [NodeStats "kernel" 10; NodeStats "user" 20]] ∅ 0.

(** * Theorems *)

(** ** The monad *)

Section MonadFacts.
Context {LV : Type} `{Host LV}.

Lemma bind_ret_eq {A B : Type} (m : M (LV := LV) A) (k : A -> M B) w a w' :
  m w = (Ret a, w') -> bind m k w = k a w'.
Proof. intros Hm. unfold bind. by rewrite Hm. Qed.

Lemma call_eq {A : Type} func (f : LV -> A * LV) w a st :
  f (libvirt w) = (a, st) -> call func f w = (Ret a, logged w func st).
Proof. intros Hf. unfold call. by rewrite Hf. Qed.

Lemma pure_generic_get kind v : pure (LV := LV) (generic_get kind v).
Proof.
  unfold generic_get. destruct (data_ptr v) as [p|].
  - destruct (p =? 0); eexists; intros w; reflexivity.
  - eexists; intros w; reflexivity.
Qed.

Lemma pure_connect_get s : pure (LV := LV) (connect_get s).
Proof.
  unfold connect_get, conn_attr, bind.
  destruct (negb (is_connect (if negb (is_connect s) then iv_connection s else s))).
  - eexists; intros w; reflexivity.
  - destruct (pure_generic_get "Connect"
                (if negb (is_connect s) then iv_connection s else s)) as [o Ho].
    exists o. intros w. unfold ret. simpl. apply Ho.
Qed.

(** The arguments of a call are scanned without touching the world. *)
Lemma pure_rb_scan_args req opt argv :
  pure (LV := LV) (rb_scan_args req opt argv).
Proof.
  unfold rb_scan_args. repeat case_decide; eexists; intros w; reflexivity.
Qed.

Lemma pure_keeps_heap {A : Type} (m : M (LV := LV) A) : pure m -> keeps_heap m.
Proof.
  intros [o Ho] w o' w' Hm. rewrite Ho in Hm.
  injection Hm as Ho' Hw. by subst.
Qed.

Lemma cpu_get_stats_keeps_heap conn ip params nparams fl :
  keeps_heap (LV := LV) (cpu_get_stats conn ip params nparams fl).
Proof.
  intros w o w' Hm. unfold cpu_get_stats, bind, call in Hm.
  destruct (virNodeGetCPUStats _ _ _ _ _ _) as [reply st].
  destruct (sr_ret reply <? 0); injection Hm as Ho Hw; by subst.
Qed.

Lemma cpu_get_stats_returns conn ip params nparams fl (w : world LV) :
  exists r w', cpu_get_stats conn ip params nparams fl w = (Ret r, w').
Proof.
  unfold cpu_get_stats, bind, call.
  destruct (virNodeGetCPUStats _ _ _ _ _ _) as [reply st].
  destruct (sr_ret reply <? 0); eexists _, _; reflexivity.
Qed.

Lemma cpu_hash_set_keeps_heap hf : keeps_heap (LV := LV) (cpu_hash_set hf).
Proof.
  apply pure_keeps_heap. unfold cpu_hash_set, read, bind.
  destruct (hf_params hf !! hf_i hf) as [[p|]|]; eexists; intros w; reflexivity.
Qed.

(** Freeing the block that was allocated last gives the heap back. *)
Lemma free_last (h : gset nat) (blk : nat) :
  blk ∉ h -> ({[ blk ]} ∪ h) ∖ {[ blk ]} = h.
Proof.
  intros Hblk. apply set_eq. intros x.
  rewrite elem_of_difference, elem_of_union, elem_of_singleton.
  split.
  - intros [[->|Hx] Hne]; [by destruct Hne|done].
  - intros Hx. split; [by right|]. intros ->. by apply Hblk.
Qed.

Lemma domain_get_live p conn (w : world LV) :
  p <> 0 -> domain_get (Domain p conn) w = (Ret p, w).
Proof.
  intros Hp. unfold domain_get, generic_get. simpl.
  apply Z.eqb_neq in Hp. by rewrite Hp.
Qed.

Lemma connect_get_live q (w : world LV) :
  q <> 0 -> connect_get (Connect q) w = (Ret q, w).
Proof.
  intros Hq. unfold connect_get, conn_attr, generic_get, bind. simpl.
  apply Z.eqb_neq in Hq. by rewrite Hq.
Qed.

Lemma connect_get_of_domain p q (w : world LV) :
  q <> 0 -> connect_get (Domain p (Connect q)) w = (Ret q, w).
Proof.
  intros Hq. unfold connect_get, conn_attr, generic_get, bind. simpl.
  apply Z.eqb_neq in Hq. by rewrite Hq.
Qed.

Lemma snapshot_get_live p domain (w : world LV) :
  p <> 0 -> domain_snapshot_get (DomainSnapshot p domain) w = (Ret p, w).
Proof.
  intros Hp. unfold domain_snapshot_get, generic_get. simpl.
  apply Z.eqb_neq in Hp. by rewrite Hp.
Qed.

(** [domain_snapshot_new] gives a snapshot its [@domain] and no
    [@connection]: [connect_get] finds no connection in it. *)
Lemma connect_get_of_snapshot p domain (w : world LV) :
  connect_get (DomainSnapshot p domain) w
  = (Raise (Exception rb_eArgError "Expected Connection object"), w).
Proof. reflexivity. Qed.

(** The strings handed over by a fetch carry the names it offered; they
    are new blocks of the heap. *)
Lemma strdup_all_spec (names : list string) (w : world LV) :
  exists strs w',
    strdup_all names w = (Ret strs, w')
    /\ map chars strs = names
    /\ heap w' = list_to_set (map addr strs) ∪ heap w
    /\ Forall (fun c => (brk w <= addr c)%nat) strs.
Proof.
  revert w. induction names as [|n names IH]; intros w.
  - exists [], w. split; [done|]. split; [done|]. split; [|done].
    simpl. set_solver.
  - simpl. unfold bind at 1, malloc at 1.
    set (w1 := World _ _ _ _).
    destruct (IH w1) as (strs & w' & Hrun & Hchars & Hheap & Haddr).
    unfold bind at 1. rewrite Hrun.
    exists (CStr (brk w) n :: strs), w'. simpl. rewrite Hchars.
    split; [done|]. split; [done|]. split.
    + rewrite Hheap. subst w1. simpl. set_solver.
    + constructor; [simpl; lia|].
      eapply Forall_impl; [exact Haddr|]. subst w1. simpl. intros c Hc. lia.
Qed.

Lemma fill_lookup {T : Type} (n : Z) (items : list T) (i : nat) (x : T) :
  (length items <= Z.to_nat n)%nat ->
  items !! i = Some x ->
  fill (fresh_slots n) items !! i = Some (Some x).
Proof.
  intros Hlen Hi. unfold fill, fresh_slots.
  rewrite length_replicate, take_ge by lia.
  rewrite lookup_app_l.
  - by rewrite list_lookup_fmap, Hi.
  - rewrite length_fmap. by eapply lookup_lt_Some.
Qed.

Lemma nth_padded (l : list VALUE) (n i : nat) :
  nth i (l ++ replicate n Qnil) Qnil = nth i l Qnil.
Proof.
  revert i. induction l as [|x l IH]; intros i; simpl.
  - revert i. induction n as [|n IHn]; intros [|i]; simpl; auto.
    rewrite IHn. by destruct i.
  - destruct i; auto.
Qed.

Lemma symbol_or_proc cb :
  is_symbol_or_proc cb = true ->
  (exists id, cb = Symbol id) \/ (exists body, cb = Proc body).
Proof.
  destruct cb; intros Hcb; try (vm_compute in Hcb; discriminate Hcb); eauto.
Qed.
End MonadFacts.

(** ** Two-phase queries (§4.2) *)

Section TwoPhase.
Context {LV : Type} `{Host LV}.

(** *** The macro [gen_conn_list_names] *)

(** A probe that counts zero ends the query; libvirt is entered once. *)
Lemma gen_conn_list_names_zero s objs conn (w : world LV) st :
  connect_get s w = (Ret conn, w) ->
  virConnectNumOf objs conn (libvirt w) = (0, st) ->
  gen_conn_list_names s objs w
  = (Ret (RArray []), logged w ("virConnectNumOf" +:+ objs) st).
Proof.
  intros Hc Hn. unfold gen_conn_list_names.
  rewrite (bind_ret_eq _ _ _ _ _ Hc).
  rewrite (bind_ret_eq _ _ _ _ _ (call_eq _ _ _ _ _ Hn)).
  reflexivity.
Qed.

(** A probe that fails is reported at once, under its name. *)
Lemma gen_conn_list_names_probe_fails s objs conn (w : world LV) num st :
  connect_get s w = (Ret conn, w) ->
  virConnectNumOf objs conn (libvirt w) = (num, st) ->
  num < 0 ->
  gen_conn_list_names s objs w
  = (Raise (Exception e_RetrieveError ("virConnectNumOf" +:+ objs)),
     logged w ("virConnectNumOf" +:+ objs) st).
Proof.
  intros Hc Hn Hneg. unfold gen_conn_list_names.
  rewrite (bind_ret_eq _ _ _ _ _ Hc).
  rewrite (bind_ret_eq _ _ _ _ _ (call_eq _ _ _ _ _ Hn)).
  destruct (pure_connect_get (LV := LV) s) as [oc Hoc].
  rewrite Hoc in Hc. injection Hc as ->.
  unfold _E. replace (num <? 0) with true by (symmetry; by apply Z.ltb_lt).
  unfold bind. rewrite Hoc. reflexivity.
Qed.

(** *** [libvirt_conn_list_domains] *)

(** A loop over a buffer that meets a slot nothing has written. *)
Lemma list_domains_loop_unwritten (ids : list (option Z)) count i j result
    (w : world LV) :
  (i <= j < i + count)%nat ->
  (forall id, ids !! j <> Some (Some id)) ->
  fst (for_upto count i
         (fun i result =>
            let* id := read ids i in
            let* caught := rb_protect (ret (rb_ary_push result (INT2NUM id))) in
            match caught with
            | inl exception => rb_jump_tag exception
            | inr result' => ret result'
            end)
         result w) = Undef.
Proof.
  revert i result w. induction count as [|count IH]; intros i result w Hj Hun.
  - lia.
  - simpl for_upto. unfold bind at 1. unfold bind at 1. unfold read at 1.
    destruct (ids !! i) as [[id|]|] eqn:Hi; [|reflexivity..].
    unfold ret at 1. unfold bind at 1. unfold rb_protect at 1, ret at 1.
    unfold ret at 1.
    apply IH; [|done].
    assert (i <> j) by (intros ->; by apply (Hun id)). lia.
Qed.

Lemma fill_unwritten {T : Type} (n : Z) (items : list T) :
  (length items < Z.to_nat n)%nat ->
  fill (fresh_slots n) items !! length items = Some None.
Proof.
  intros Hlen. unfold fill, fresh_slots.
  rewrite length_replicate, take_ge by lia.
  rewrite lookup_app_r by (rewrite length_fmap; lia).
  rewrite length_fmap, Nat.sub_diag, lookup_drop, Nat.add_0_r.
  by apply lookup_replicate_2.
Qed.

(** [libvirt_conn_list_domains] runs its loop to the count of the probe:
    when the fetch had fewer ids to write, it reads a slot that nothing has
    written. *)
Lemma list_domains_reads_unwritten_slot q (w : world LV) num st offered st' :
  q <> 0 ->
  virConnectNumOf "Domains" q (libvirt w) = (num, st) ->
  virConnectListDomains q num st = (Some offered, st') ->
  (length offered < Z.to_nat num)%nat ->
  fst (libvirt_conn_list_domains (Connect q) w) = Undef.
Proof.
  intros Hq Hn Hf Hshort. unfold libvirt_conn_list_domains.
  rewrite (bind_ret_eq _ _ _ _ _ (connect_get_live q w Hq)).
  rewrite (bind_ret_eq _ _ _ _ _ (call_eq _ _ _ _ _ Hn)).
  unfold _E at 1.
  replace (num <? 0) with false by (symmetry; apply Z.ltb_ge; lia).
  rewrite (bind_ret_eq _ _ _ tt _) by reflexivity.
  replace (num =? 0) with false by (symmetry; apply Z.eqb_neq; lia).
  unfold fetch_ints. unfold bind at 1. unfold bind at 1.
  rewrite (call_eq "virConnectListDomains" _
             (logged w "virConnectNumOfDomains" st) (Some offered) st')
    by exact Hf.
  unfold ret at 1. rewrite take_ge by lia.
  unfold _E at 1.
  replace (Z.of_nat (length offered) <? 0) with false
    by (symmetry; apply Z.ltb_ge; lia).
  rewrite (bind_ret_eq _ _ _ tt _) by reflexivity.
  rewrite (bind_ret_eq _ _ _ (inr (rb_ary_new2 num)) _) by reflexivity.
  apply (list_domains_loop_unwritten _ _ 0%nat (length offered)); [lia|].
  intros id. by rewrite fill_unwritten.
Qed.

(** *** [libvirt_dom_list_snapshots] *)

Lemma list_snapshots_zero p q (w : world LV) st :
  p <> 0 ->
  virDomainSnapshotNum p 0 (libvirt w) = (0, st) ->
  libvirt_dom_list_snapshots [] (Domain p (Connect q)) w
  = (Ret (RArray []), logged w "virDomainSnapshotNum" st).
Proof.
  intros Hp Hn. unfold libvirt_dom_list_snapshots.
  rewrite (bind_ret_eq _ _ w [Qnil] w) by reflexivity.
  cbv zeta. simpl nth. simpl NIL_P. cbv iota.
  rewrite (bind_ret_eq _ _ w 0 w) by reflexivity.
  rewrite (bind_ret_eq _ _ _ _ _ (domain_get_live p _ w Hp)).
  rewrite (bind_ret_eq _ _ _ _ _ (call_eq _ _ _ _ _ Hn)).
  reflexivity.
Qed.

Lemma list_snapshots_probe_fails p q (w : world LV) num st :
  p <> 0 -> q <> 0 ->
  virDomainSnapshotNum p 0 (libvirt w) = (num, st) ->
  num < 0 ->
  libvirt_dom_list_snapshots [] (Domain p (Connect q)) w
  = (Raise (Exception e_RetrieveError "virDomainSnapshotNum"),
     logged w "virDomainSnapshotNum" st).
Proof.
  intros Hp Hq Hn Hneg. unfold libvirt_dom_list_snapshots.
  rewrite (bind_ret_eq _ _ w [Qnil] w) by reflexivity.
  cbv zeta. simpl nth. simpl NIL_P. cbv iota.
  rewrite (bind_ret_eq _ _ w 0 w) by reflexivity.
  rewrite (bind_ret_eq _ _ _ _ _ (domain_get_live p _ w Hp)).
  rewrite (bind_ret_eq _ _ _ _ _ (call_eq _ _ _ _ _ Hn)).
  unfold _E. replace (num <? 0) with true by (symmetry; by apply Z.ltb_lt).
  unfold bind. rewrite (connect_get_of_domain p q _ Hq). reflexivity.
Qed.

(** [libvirt_dom_list_snapshots] hands [gen_list] the count of the probe,
    with a buffer of which the fetch wrote only what it had to offer. *)
Lemma list_snapshots_passes_probed_count p q (w : world LV) num st offered st' :
  p <> 0 ->
  virDomainSnapshotNum p 0 (libvirt w) = (num, st) ->
  0 < num ->
  virDomainSnapshotListNames p num 0 st = (Some offered, st') ->
  exists strs w',
    map chars strs = take (Z.to_nat num) offered
    /\ libvirt_dom_list_snapshots [] (Domain p (Connect q)) w
       = gen_list num (fill (fresh_slots num) strs) w'.
Proof.
  intros Hp Hn Hpos Hf. unfold libvirt_dom_list_snapshots.
  rewrite (bind_ret_eq _ _ w [Qnil] w) by reflexivity.
  cbv zeta. simpl nth. simpl NIL_P. cbv iota.
  rewrite (bind_ret_eq _ _ w 0 w) by reflexivity.
  rewrite (bind_ret_eq _ _ _ _ _ (domain_get_live p _ w Hp)).
  rewrite (bind_ret_eq _ _ _ _ _ (call_eq _ _ _ _ _ Hn)).
  unfold _E at 1.
  replace (num <? 0) with false by (symmetry; apply Z.ltb_ge; lia).
  rewrite (bind_ret_eq _ _ _ tt _) by reflexivity.
  replace (num =? 0) with false by (symmetry; apply Z.eqb_neq; lia).
  rewrite (bind_ret_eq _ _ _ _ _ (domain_get_live p _ _ Hp)).
  unfold fetch_names.
  unfold bind at 1. unfold bind at 1.
  rewrite (call_eq "virDomainSnapshotListNames" _
             (logged w "virDomainSnapshotNum" st) (Some offered) st')
    by exact Hf.
  destruct (strdup_all_spec (take (Z.to_nat num) offered)
              (logged (logged w "virDomainSnapshotNum" st)
                      "virDomainSnapshotListNames" st'))
    as (strs & w' & Hrun & Hchars & _).
  unfold bind at 1. rewrite Hrun. unfold ret at 1.
  exists strs, w'. split; [done|].
  unfold _E.
  replace (Z.of_nat (length strs) <? 0) with false
    by (symmetry; apply Z.ltb_ge; lia).
  reflexivity.
Qed.

(** *** [libvirt_dom_snapshot_list_children_names] *)

(** The function has no guard: with a count of zero the fetch is entered
    all the same. *)
Lemma children_names_fetches_at_zero p domain (w : world LV) st reply st' :
  p <> 0 ->
  virDomainSnapshotNumChildren p 0 (libvirt w) = (0, st) ->
  virDomainSnapshotListChildrenNames p 0 0 st = (reply, st') ->
  trace (snd (libvirt_dom_snapshot_list_children_names []
                (DomainSnapshot p domain) w))
  = trace w ++ [Libvirt "virDomainSnapshotNumChildren";
                Libvirt "virDomainSnapshotListChildrenNames"].
Proof.
  intros Hp Hn Hf. unfold libvirt_dom_snapshot_list_children_names.
  rewrite (bind_ret_eq _ _ w [Qnil] w) by reflexivity.
  cbv zeta. simpl nth. unfold integer_default_if_nil. simpl NIL_P. cbv iota.
  rewrite (bind_ret_eq _ _ _ _ _ (snapshot_get_live p _ w Hp)).
  rewrite (bind_ret_eq _ _ w 0 w) by reflexivity.
  rewrite (bind_ret_eq _ _ _ _ _ (call_eq _ _ _ _ _ Hn)).
  rewrite (bind_ret_eq _ _ _ tt _) by reflexivity.
  rewrite (bind_ret_eq _ _ _ _ _ (snapshot_get_live p _ _ Hp)).
  rewrite (bind_ret_eq _ _ _ 0 _) by reflexivity.
  unfold fetch_names. unfold bind at 1. unfold bind at 1.
  rewrite (call_eq "virDomainSnapshotListChildrenNames" _
             (logged w "virDomainSnapshotNumChildren" st) reply st')
    by exact Hf.
  destruct reply as [offered|]; simpl; by rewrite <- app_assoc.
Qed.

(** When its probe fails, the error it means to raise is never built:
    [connect_get] is applied to the snapshot. *)
Lemma children_names_probe_fails p domain (w : world LV) num st :
  p <> 0 ->
  virDomainSnapshotNumChildren p 0 (libvirt w) = (num, st) ->
  num < 0 ->
  libvirt_dom_snapshot_list_children_names [] (DomainSnapshot p domain) w
  = (Raise (Exception rb_eArgError "Expected Connection object"),
     logged w "virDomainSnapshotNumChildren" st).
Proof.
  intros Hp Hn Hneg. unfold libvirt_dom_snapshot_list_children_names.
  rewrite (bind_ret_eq _ _ w [Qnil] w) by reflexivity.
  cbv zeta. simpl nth. unfold integer_default_if_nil. simpl NIL_P. cbv iota.
  rewrite (bind_ret_eq _ _ _ _ _ (snapshot_get_live p _ w Hp)).
  rewrite (bind_ret_eq _ _ w 0 w) by reflexivity.
  rewrite (bind_ret_eq _ _ _ _ _ (call_eq _ _ _ _ _ Hn)).
  unfold _E at 1. replace (num <? 0) with true by (symmetry; by apply Z.ltb_lt).
  reflexivity.
Qed.

(** The loop over the names fetched: each is converted, stored and
    freed. *)
Lemma children_loop (children : list (option cstr)) (ret_ : Z)
    (done rest : list cstr) (w : world LV) :
  (forall i c, (done ++ rest) !! i = Some c -> children !! i = Some (Some c)) ->
  exists w',
    for_upto (length rest) (length done)
      (fun i result =>
         let* child := read children i in
         let* caught := rb_protect (ret (rb_str_new2 (chars child))) in
         match caught with
         | inl exception =>
             free_children_from children i ret_ ;; rb_jump_tag exception
         | inr str =>
             let* caught := rb_protect (ret (rb_ary_store result i str)) in
             match caught with
             | inl exception =>
                 free_children_from children i ret_ ;; rb_jump_tag exception
             | inr result' => xfree (addr child) ;; ret result'
             end
         end)
      (RArray (map name_of done)) w
    = (Ret (RArray (map name_of (done ++ rest))), w')
    /\ heap w' = heap w ∖ list_to_set (map addr rest).
Proof.
  revert done w. induction rest as [|x rest IH]; intros done w Hbuf.
  - exists w. simpl. rewrite app_nil_r. split; [done|]. set_solver.
  - simpl for_upto.
    assert (Hx : children !! length done = Some (Some x)).
    { apply Hbuf. rewrite lookup_app_r by lia. by rewrite Nat.sub_diag. }
    unfold bind at 1. unfold bind at 1. unfold read at 1. rewrite Hx.
    unfold ret at 1. unfold bind at 1. unfold rb_protect at 1, ret at 1.
    unfold bind at 1. unfold rb_protect at 1, ret at 1.
    unfold bind at 1. unfold xfree at 1. unfold ret at 1.
    set (w1 := World _ _ _ _).
    destruct (IH (done ++ [x]) w1) as (w' & Hrun & Hheap).
    { intros i c Hi. apply Hbuf. by rewrite <- app_assoc in Hi. }
    rewrite length_app in Hrun. simpl in Hrun.
    replace (length done + 1)%nat with (S (length done)) in Hrun by lia.
    rewrite <- app_assoc in Hrun. simpl in Hrun.
    exists w'. split.
    + rewrite <- Hrun. f_equal. f_equal. simpl rb_ary_store.
      unfold ary_store. rewrite length_map.
      case_decide; [lia|]. rewrite Nat.sub_diag. simpl.
      by rewrite map_app.
    + rewrite Hheap. subst w1. simpl. set_solver.
Qed.

(** It answers as many names as the fetch reported, whatever the probe had
    said (the loop runs to [ret], not to [num_children]), and it has freed
    every string that libvirt handed over. *)
Lemma children_names_truncates p domain (w : world LV) num st offered st' :
  p <> 0 ->
  virDomainSnapshotNumChildren p 0 (libvirt w) = (num, st) ->
  0 <= num ->
  virDomainSnapshotListChildrenNames p num 0 st = (Some offered, st') ->
  exists w',
    libvirt_dom_snapshot_list_children_names [] (DomainSnapshot p domain) w
    = (Ret (RArray (map RString (take (Z.to_nat num) offered))), w')
    /\ (heap_ok w -> heap w' = heap w).
Proof.
  intros Hp Hn Hpos Hf. unfold libvirt_dom_snapshot_list_children_names.
  rewrite (bind_ret_eq _ _ w [Qnil] w) by reflexivity.
  cbv zeta. simpl nth. unfold integer_default_if_nil. simpl NIL_P. cbv iota.
  rewrite (bind_ret_eq _ _ _ _ _ (snapshot_get_live p _ w Hp)).
  rewrite (bind_ret_eq _ _ w 0 w) by reflexivity.
  rewrite (bind_ret_eq _ _ _ _ _ (call_eq _ _ _ _ _ Hn)).
  unfold _E at 1.
  replace (num <? 0) with false by (symmetry; apply Z.ltb_ge; lia).
  rewrite (bind_ret_eq _ _ _ tt _) by reflexivity.
  rewrite (bind_ret_eq _ _ _ _ _ (snapshot_get_live p _ _ Hp)).
  rewrite (bind_ret_eq _ _ _ 0 _) by reflexivity.
  unfold fetch_names. unfold bind at 1. unfold bind at 1.
  rewrite (call_eq "virDomainSnapshotListChildrenNames" _
             (logged w "virDomainSnapshotNumChildren" st) (Some offered) st')
    by exact Hf.
  destruct (strdup_all_spec (take (Z.to_nat num) offered)
              (logged (logged w "virDomainSnapshotNumChildren" st)
                      "virDomainSnapshotListChildrenNames" st'))
    as (strs & w' & Hrun & Hchars & Hheap & Haddr).
  unfold bind at 1. rewrite Hrun. unfold ret at 1.
  unfold _E at 1.
  replace (Z.of_nat (length strs) <? 0) with false
    by (symmetry; apply Z.ltb_ge; lia).
  rewrite (bind_ret_eq _ _ _ tt _) by reflexivity.
  rewrite Nat2Z.id.
  assert (Hlen : (length strs <= Z.to_nat num)%nat).
  { rewrite <- (length_map chars), Hchars, length_take. lia. }
  destruct (children_loop (fill (fresh_slots num) strs)
              (Z.of_nat (length strs)) [] strs w') as (w'' & Hloop & Hfreed).
  { intros i c Hi. by apply fill_lookup. }
  simpl in Hloop. unfold rb_ary_new. rewrite Hloop.
  exists w''. split.
  - f_equal. f_equal. f_equal. rewrite <- Hchars. unfold name_of.
    by rewrite map_map.
  - intros Hok. rewrite Hfreed, Hheap. simpl.
    assert (Hdisj : forall blk, blk ∈ map addr strs -> blk ∉ heap w).
    { intros blk Hblk Hin. apply Hok in Hin.
      apply list_elem_of_fmap in Hblk as (c & -> & Hc).
      rewrite Forall_forall in Haddr. apply Haddr in Hc. simpl in Hc. lia. }
    apply set_eq. intros x.
    rewrite elem_of_difference, elem_of_union, elem_of_list_to_set.
    split.
    + intros [[Hx|Hx] Hnot]; [by destruct Hnot|done].
    + intros Hx. split; [by right|]. intros Hx'. by apply (Hdisj x).
Qed.

(** *** [internal_get_stats] *)

Lemma node_cpu_stats_zero q (w : world LV) reply st :
  q <> 0 ->
  virNodeGetCPUStats q (-1) false 0 0 (libvirt w) = (reply, st) ->
  0 <= sr_ret reply ->
  sr_nparams reply = 0 ->
  libvirt_conn_node_cpu_stats [] (Connect q) w
  = (Ret (RHash []), logged w "virNodeGetCPUStats" st).
Proof.
  intros Hq Hg Hret Hzero.
  unfold libvirt_conn_node_cpu_stats, internal_get_stats.
  rewrite (bind_ret_eq _ _ w [Qnil; Qnil] w) by reflexivity.
  cbv zeta. simpl nth. simpl NIL_P. cbv iota.
  rewrite (bind_ret_eq _ _ _ _ _ (connect_get_live q w Hq)).
  rewrite (bind_ret_eq _ _ w (-1) w) by reflexivity.
  rewrite (bind_ret_eq _ _ w 0 w) by reflexivity.
  unfold cpu_get_stats at 1. unfold bind at 1. unfold bind at 1.
  change (bool_decide (is_Some (@None (list (option node_stats))))) with false.
  rewrite (call_eq "virNodeGetCPUStats" _ w reply st) by exact Hg.
  replace (sr_ret reply <? 0) with false by (symmetry; apply Z.ltb_ge; lia).
  unfold ret at 1. rewrite Hzero. reflexivity.
Qed.

Lemma node_cpu_stats_probe_fails q (w : world LV) reply st :
  q <> 0 ->
  virNodeGetCPUStats q (-1) false 0 0 (libvirt w) = (reply, st) ->
  sr_ret reply < 0 ->
  libvirt_conn_node_cpu_stats [] (Connect q) w
  = (Raise (Exception e_RetrieveError "virNodeGetCPUStats"),
     logged w "virNodeGetCPUStats" st).
Proof.
  intros Hq Hg Hret.
  unfold libvirt_conn_node_cpu_stats, internal_get_stats.
  rewrite (bind_ret_eq _ _ w [Qnil; Qnil] w) by reflexivity.
  cbv zeta. simpl nth. simpl NIL_P. cbv iota.
  rewrite (bind_ret_eq _ _ _ _ _ (connect_get_live q w Hq)).
  rewrite (bind_ret_eq _ _ w (-1) w) by reflexivity.
  rewrite (bind_ret_eq _ _ w 0 w) by reflexivity.
  unfold cpu_get_stats at 1. unfold bind at 1. unfold bind at 1.
  change (bool_decide (is_Some (@None (list (option node_stats))))) with false.
  rewrite (call_eq "virNodeGetCPUStats" _ w reply st) by exact Hg.
  replace (sr_ret reply <? 0) with true by (symmetry; by apply Z.ltb_lt).
  unfold ret at 1. unfold bind.
  rewrite (connect_get_live q _ Hq). reflexivity.
Qed.
End TwoPhase.

(** *** No buffer outlives the query *)

Section Stats.
Context {LV : Type} `{Host LV} {T : Type}.
Variable get_stats :
  virConnectPtr -> Z -> option (list (option T)) -> Z -> Z ->
  M (LV := LV) (option string * option (list (option T)) * Z).
Variable hash_set : hash_field T -> M (LV := LV) VALUE.

(** [get_stats] answers by its return value, as [cpu_get_stats] and
    [memory_get_stats] do; it and [hash_set] leave the storage alone. *)
Hypothesis get_stats_returns :
  forall conn ip params nparams fl w,
    exists r w', get_stats conn ip params nparams fl w = (Ret r, w').
Hypothesis get_stats_keeps_heap :
  forall conn ip params nparams fl,
    keeps_heap (get_stats conn ip params nparams fl).
Hypothesis hash_set_keeps_heap : forall hf, keeps_heap (hash_set hf).

(** The conversion loop ends with the block still held, or raises after
    giving it back. *)
Lemma stats_loop_heap block params count i result (w : world LV) o w' :
  for_upto count i
    (fun i result =>
       let hf := HashField params i result in
       let* caught := rb_protect (hash_set hf) in
       match caught with
       | inl exception => xfree block ;; rb_jump_tag exception
       | inr result' => ret result'
       end)
    result w = (o, w') ->
  match o with
  | Ret _ => heap w' = heap w /\ brk w' = brk w
  | Raise _ => heap w' = heap w ∖ {[ block ]}
  | Undef => True
  end.
Proof.
  revert i result w. induction count as [|count IH]; intros i result w Hrun.
  - simpl in Hrun. injection Hrun as Ho Hw. by subst.
  - simpl in Hrun. unfold bind at 1 in Hrun. unfold bind at 1 in Hrun.
    unfold rb_protect in Hrun.
    destruct (hash_set (HashField params i result) w) as [o1 w1] eqn:Hset.
    destruct (hash_set_keeps_heap _ _ _ _ Hset) as [Hh Hb].
    destruct o1 as [result'|e|].
    + unfold ret at 1 in Hrun. apply IH in Hrun.
      destruct o; [|by rewrite <- Hh|done].
      destruct Hrun as [-> ->]. done.
    + unfold bind, xfree, rb_jump_tag, raise in Hrun. simpl in Hrun.
      injection Hrun as Ho Hw. subst. simpl. by rewrite Hh.
    + injection Hrun as Ho Hw. by subst.
Qed.

(** C6. For every two-phase query whose fetch fails, or whose conversion
    of the result raises, the buffer allocated for the query is released
    before the error reaches the caller: [internal_get_stats], the one
    query that takes its buffer from the heap, leaves the heap as it found
    it on every way out, by [return] or by a raise.  (The other queries
    take their buffer with [alloca], in the frame that the raise unwinds;
    the strings that a fetch hands over are freed by
    [libvirt_dom_snapshot_list_children_names] itself, lemma
    [children_names_truncates], and by [gen_list] elsewhere.) *)
Theorem internal_get_stats_no_leak c argv (w : world LV) o w' :
  heap_ok w ->
  internal_get_stats c argv get_stats ALLOC_N hash_set w = (o, w') ->
  o <> Undef ->
  heap w' = heap w.
Proof.
  intros Hok Hrun Hdef. unfold internal_get_stats in Hrun.
  unfold bind at 1 in Hrun.
  destruct (pure_rb_scan_args (LV := LV) 0 2 argv) as [oa Hoa].
  rewrite Hoa in Hrun.
  destruct oa as [args|e|];
    [|injection Hrun as Ho Hw; by subst..].
  set (intparam := if NIL_P (nth 0 args Qnil) then INT2NUM (-1)
                   else nth 0 args Qnil) in *.
  set (flags := if NIL_P (nth 1 args Qnil) then INT2NUM 0
                else nth 1 args Qnil) in *.
  unfold bind at 1 in Hrun.
  destruct (pure_connect_get (LV := LV) c) as [oc Hoc]. rewrite Hoc in Hrun.
  destruct oc as [conn|e|];
    [|injection Hrun as Ho Hw; by subst..].
  unfold bind at 1 in Hrun. unfold lift at 1 in Hrun.
  destruct (NUM2INT intparam) as [ip|e|] eqn:Hip;
    [|injection Hrun as Ho Hw; by subst..].
  unfold bind at 1 in Hrun. unfold lift at 1 in Hrun.
  destruct (NUM2UINT flags) as [fl|e|] eqn:Hfl;
    [|injection Hrun as Ho Hw; by subst..].
  unfold bind at 1 in Hrun.
  destruct (get_stats_returns conn ip None 0 fl w) as (r1 & w1 & Hg1).
  rewrite Hg1 in Hrun.
  destruct (get_stats_keeps_heap _ _ _ _ _ _ _ _ Hg1) as [Hh1 Hb1].
  destruct r1 as [[errname ?] nparams].
  destruct errname as [name|].
  { unfold bind in Hrun. rewrite Hoc in Hrun.
    injection Hrun as Ho Hw. by subst. }
  destruct (nparams =? 0); [injection Hrun as Ho Hw; by subst|].
  unfold bind at 1 in Hrun. unfold ALLOC_N in Hrun.
  destruct (nparams <? 0); [injection Hrun as Ho Hw; by subst|].
  unfold bind at 1 in Hrun. unfold malloc at 1 in Hrun.
  unfold ret at 1 in Hrun.
  set (w2 := World (libvirt w1) (trace w1) ({[brk w1]} ∪ heap w1)
                   (S (brk w1))) in *.
  assert (Hfresh : brk w1 ∉ heap w1).
  { rewrite Hh1, Hb1. intros Hin. apply Hok in Hin. lia. }
  unfold bind at 1 in Hrun. rewrite Hoc in Hrun.
  unfold bind at 1 in Hrun. unfold lift at 1 in Hrun.
  unfold bind at 1 in Hrun. unfold lift at 1 in Hrun.
  unfold bind at 1 in Hrun.
  destruct (get_stats_returns conn ip (Some (fresh_slots nparams)) nparams fl w2)
    as (r2 & w3 & Hg2).
  rewrite Hg2 in Hrun.
  pose proof (get_stats_keeps_heap _ _ _ _ _ _ _ _ Hg2) as [Hh3 Hb3].
  destruct r2 as [[errname params] nparams2].
  destruct errname as [name|].
  - unfold bind, xfree in Hrun. simpl in Hrun. rewrite Hoc in Hrun.
    injection Hrun as Ho Hw. subst. simpl. rewrite Hh3. subst w2. simpl.
    by rewrite free_last.
  - unfold bind at 1 in Hrun.
    match type of Hrun with
    | context [for_upto ?n ?i ?body ?r w3] =>
        destruct (for_upto n i body r w3) as [o4 w4] eqn:Hloop
    end.
    apply stats_loop_heap in Hloop.
    destruct o4 as [result|e|].
    + unfold bind, xfree, ret in Hrun. simpl in Hrun.
      injection Hrun as Ho Hw. subst. simpl. destruct Hloop as [-> _].
      rewrite Hh3. subst w2. simpl. by rewrite free_last.
    + injection Hrun as Ho Hw. subst. rewrite Hloop, Hh3. subst w2. simpl.
      by rewrite free_last.
    + injection Hrun as Ho Hw. by subst.
Qed.
End Stats.

(** The fetch of the CPU statistics fails after the buffer was
    allocated: the heap is as before, and the error names the fetch. *)
Lemma internal_get_stats_no_leak_witness :
  heap (snd (libvirt_conn_node_cpu_stats [] a_connection (boot failing_fetch)))
  = heap (boot failing_fetch)
  /\ fst (libvirt_conn_node_cpu_stats [] a_connection (boot failing_fetch))
     = Raise (Exception e_RetrieveError "virNodeGetCPUStats").
Proof.
  split; [|vm_compute; reflexivity].
  apply (internal_get_stats_no_leak cpu_get_stats cpu_hash_set
           cpu_get_stats_returns cpu_get_stats_keeps_heap
           cpu_hash_set_keeps_heap a_connection [] (boot failing_fetch)
           (fst (libvirt_conn_node_cpu_stats [] a_connection
                   (boot failing_fetch)))).
  - intros blk Hblk. vm_compute in Hblk. discriminate Hblk.
  - apply surjective_pairing.
  - vm_compute. discriminate.
Defined.

(** ** The claims that the code departs from *)

(** C1, which the code departs from.  The claim: when the fetch reports
    fewer entries than the probe had counted, the result has as many
    entries as the fetch reported.  Here the probe counts three snapshots
    and the fetch writes two names: [libvirt_dom_list_snapshots] still hands
    [gen_list] the count three, with a buffer whose third slot nothing has
    written, and [libvirt_conn_list_domains] reads [ids[2]] in the same
    way; neither answers a list of two.  Lemmas
    [list_snapshots_passes_probed_count] and
    [list_domains_reads_unwritten_slot] show the same for every libvirt. *)
Theorem shorter_fetch_keeps_probed_count :
  libvirt_dom_list_snapshots [] a_domain (boot shrinking)
  = gen_list 3 [Some (CStr 0 "first"); Some (CStr 1 "second"); None]
      (World (Script [] [] [Some [7; 8]] [] ∅ 0)
             [Libvirt "virDomainSnapshotNum";
              Libvirt "virDomainSnapshotListNames"]
             {[ 0%nat; 1%nat ]} 2)
  /\ fst (libvirt_dom_list_snapshots [] a_domain (boot shrinking)) = Undef
  /\ fst (libvirt_conn_list_domains a_connection (boot shrinking)) = Undef.
Proof. repeat split; vm_compute; reflexivity. Qed.

(** C2, which the code departs from.  The claim: when the probe reports a
    count of zero, the result is empty and the fetch is never performed.
    [libvirt_dom_snapshot_list_children_names] answers the empty array, but
    it has entered [virDomainSnapshotListChildrenNames] with a buffer of
    no slots to do so. *)
Theorem children_names_fetch_with_zero_count :
  libvirt_dom_snapshot_list_children_names [] a_snapshot (boot childless)
  = (Ret (RArray []),
     World (Script [] [] [] [] ∅ 0)
           [Libvirt "virDomainSnapshotNumChildren";
            Libvirt "virDomainSnapshotListChildrenNames"] ∅ 0).
Proof. vm_compute. reflexivity. Qed.

(** C5, which the code departs from.  The claim: when the probe fails, the
    failure is propagated at once as the error of the query and the fetch
    is never performed.  [libvirt_dom_snapshot_list_children_names] stops
    before the fetch, but what it raises is the [ArgumentError] of
    [connect_get], not the [RetrieveError] naming the probe. *)
Theorem children_names_probe_failure :
  libvirt_dom_snapshot_list_children_names [] a_snapshot (boot unreachable)
  = (Raise (Exception rb_eArgError "Expected Connection object"),
     World (Script [] [] [] [] ∅ 0)
           [Libvirt "virDomainSnapshotNumChildren"] ∅ 0).
Proof. vm_compute. reflexivity. Qed.

(** ** Domain events (§4.3) *)

Section Events.
Context {LV : Type} `{Host LV}.

(** The loop over the identities of a graphics event builds one pair for
    each, in order. *)
Lemma subject_loop (done rest : list graphics_identity) (w : world LV) :
  for_upto (length rest) (length done)
    (fun i subject_array =>
       let* identity := read (Some <$> (done ++ rest)) i in
       ret (rb_ary_store subject_array i
              (rb_ary_store
                 (rb_ary_store rb_ary_new 0 (rb_str_new2 (gi_type identity)))
                 1 (rb_str_new2 (gi_name identity)))))
    (RArray (map identity_pair done)) w
  = (Ret (RArray (map identity_pair (done ++ rest))), w).
Proof.
  revert done. induction rest as [|x rest IH]; intros done.
  - simpl. by rewrite app_nil_r.
  - simpl. unfold bind at 1. unfold bind at 1, read.
    rewrite list_lookup_fmap, lookup_app_r by lia.
    rewrite Nat.sub_diag. simpl. unfold ret at 1. unfold ret at 1.
    specialize (IH (done ++ [x])).
    rewrite length_app in IH. simpl in IH.
    replace (length done + 1)%nat with (S (length done)) in IH by lia.
    rewrite <- app_assoc in IH. simpl in IH.
    rewrite <- IH. f_equal. f_equal.
    unfold ary_store. rewrite length_map.
    case_decide; [lia|]. rewrite Nat.sub_diag. simpl.
    by rewrite map_app.
Qed.

(** C4. For every kind of event, the callback registered for that kind
    calls the handler once, with exactly the positional arguments fixed for
    the kind, in order: a Watchdog handler sees (connection, domain,
    actionCode, userData), a Graphics handler sees in seventh place one
    (type, name) pair for each identity of the raw event, in order.  A
    Symbol handler is called as the method it names, a Proc handler through
    [call]; the callback answers [0] when the handler returns. *)
Theorem dispatch_positional_arguments internalcb conn dom ev cb userData
    (w : world LV) :
  select_internalcb (event_id ev) = Some internalcb ->
  event_ok ev ->
  is_symbol_or_proc cb = true ->
  let argv :=
    positional_arguments (Connect conn) (Domain dom (Connect conn)) userData ev in
  dispatch internalcb conn dom ev (RArray [cb; userData]) w
  = (handler_outcome (rb_method (receiver cb) (method_name cb) argv),
     after_funcall w (receiver cb) (method_name cb) argv)
  /\ length argv = arity ev.
Proof.
  intros Hsel Hok Hcb argv.
  split; [|by destruct ev].
  destruct ev; vm_compute in Hsel; injection Hsel as <-; subst argv.
  7: {
    simpl in Hok. destruct subject as [n ids]. simpl in Hok. subst n.
    unfold dispatch, domain_event_graphics_callback.
    rewrite (bind_ret_eq _ _ w tt w) by reflexivity.
    rewrite (bind_ret_eq _ _ w tt w) by reflexivity.
    cbv zeta. simpl nidentity. simpl identities. rewrite Nat2Z.id.
    rewrite (bind_ret_eq _ _ w _ w (subject_loop [] ids w)).
    destruct (symbol_or_proc cb Hcb) as [[id ->]|[body ->]];
      unfold rb_ary_entry; simpl nth; simpl streq; cbv iota;
      unfold bind, rb_funcall; simpl;
      destruct (rb_method _ _ _); reflexivity.
  }
  all: unfold dispatch, domain_event_lifecycle_callback,
         domain_event_reboot_callback, domain_event_rtc_callback,
         domain_event_watchdog_callback, domain_event_io_error_callback,
         domain_event_io_error_reason_callback;
       rewrite (bind_ret_eq _ _ w tt w) by reflexivity;
       rewrite (bind_ret_eq _ _ w tt w) by reflexivity;
       cbv zeta;
       destruct (symbol_or_proc cb Hcb) as [[id ->]|[body ->]];
       unfold rb_ary_entry; simpl nth; simpl streq; cbv iota;
       unfold bind, rb_funcall; simpl;
       destruct (rb_method _ _ _); reflexivity.
Qed.

(** C7. For every dispatch whose handler is neither a Symbol nor a Proc,
    the callback raises the error of a broken handler contract (a
    [TypeError]) for that dispatch: no handler is called, and the world,
    with the table of registrations libvirt keeps, is as before. *)
Theorem dispatch_unsupported_handler internalcb conn dom ev cb userData
    (w : world LV) :
  select_internalcb (event_id ev) = Some internalcb ->
  event_ok ev ->
  is_symbol_or_proc cb = false ->
  exists msg : string,
    dispatch internalcb conn dom ev (RArray [cb; userData]) w
    = (Raise (Exception rb_eTypeError msg), w).
Proof.
  intros Hsel Hok Hcb.
  unfold is_symbol_or_proc in Hcb. apply orb_false_elim in Hcb as [Hsym Hproc].
  destruct ev; vm_compute in Hsel; injection Hsel as <-.
  7: {
    simpl in Hok. destruct subject as [n ids]. simpl in Hok. subst n.
    unfold dispatch, domain_event_graphics_callback.
    rewrite (bind_ret_eq _ _ w tt w) by reflexivity.
    rewrite (bind_ret_eq _ _ w tt w) by reflexivity.
    cbv zeta. simpl nidentity. simpl identities. rewrite Nat2Z.id.
    rewrite (bind_ret_eq _ _ w _ w (subject_loop [] ids w)).
    unfold rb_ary_entry. simpl nth. rewrite Hsym, Hproc.
    eexists. reflexivity.
  }
  all: unfold dispatch, domain_event_lifecycle_callback,
         domain_event_reboot_callback, domain_event_rtc_callback,
         domain_event_watchdog_callback, domain_event_io_error_callback,
         domain_event_io_error_reason_callback;
       rewrite (bind_ret_eq _ _ w tt w) by reflexivity;
       rewrite (bind_ret_eq _ _ w tt w) by reflexivity;
       cbv zeta; unfold rb_ary_entry; simpl nth; rewrite Hsym, Hproc;
       eexists; reflexivity.
Qed.

(** What a registration hands to libvirt: the callback of the kind, and
    the array of the handler and the user data that the callback will be
    given back. *)
Lemma register_any_registers q eventID cb opaque id internalcb
    (w : world LV) r st :
  q <> 0 ->
  is_symbol_or_proc cb = true ->
  NUM2INT eventID = Ret id ->
  select_internalcb id = Some internalcb ->
  virConnectDomainEventRegisterAny q 0 id internalcb (RArray [cb; opaque])
    (libvirt w) = (r, st) ->
  0 <= r ->
  libvirt_conn_domain_event_register_any [eventID; cb; Qnil; opaque]
    (Connect q) w
  = (Ret (Integer r), logged w "virConnectDomainEventRegisterAny" st).
Proof.
  intros Hq Hcb Hnum Hsel Hreg Hr.
  unfold libvirt_conn_domain_event_register_any.
  rewrite (bind_ret_eq _ _ w [eventID; cb; Qnil; opaque] w) by reflexivity.
  cbv zeta. simpl nth. rewrite Hcb. simpl negb. unfold when.
  rewrite (bind_ret_eq _ _ w tt w) by reflexivity.
  simpl NIL_P. cbv iota.
  rewrite (bind_ret_eq _ _ w 0 w) by reflexivity.
  unfold bind at 1, lift at 1. rewrite Hnum, Hsel.
  rewrite (bind_ret_eq _ _ w internalcb w) by reflexivity.
  unfold gen_call_int.
  unfold bind at 1. unfold bind at 1.
  rewrite (connect_get_live q w Hq).
  unfold bind at 1, lift at 1.
  rewrite (call_eq "virConnectDomainEventRegisterAny" _ w r st) by exact Hreg.
  unfold _E. replace (r <? 0) with false by (symmetry; apply Z.ltb_ge; lia).
  reflexivity.
Qed.

(** The seven known kinds are the discriminants from 0 to 6. *)
Lemma known_event_kind_range (id : Z) : known_event_kind id <-> 0 <= id <= 6.
Proof.
  unfold known_event_kind. rewrite !elem_of_cons, elem_of_nil.
  unfold VIR_DOMAIN_EVENT_ID_LIFECYCLE, VIR_DOMAIN_EVENT_ID_REBOOT,
    VIR_DOMAIN_EVENT_ID_RTC_CHANGE, VIR_DOMAIN_EVENT_ID_WATCHDOG,
    VIR_DOMAIN_EVENT_ID_IO_ERROR, VIR_DOMAIN_EVENT_ID_IO_ERROR_REASON,
    VIR_DOMAIN_EVENT_ID_GRAPHICS.
  lia.
Qed.

(** The [switch] has a [case] for each of the seven known kinds and for
    nothing else: it takes the [default] branch for every other
    discriminant, and only then. *)
Lemma switch_refuses_the_unknown (id : Z) :
  select_internalcb id = None <-> ~ known_event_kind id.
Proof.
  rewrite known_event_kind_range. unfold select_internalcb.
  unfold VIR_DOMAIN_EVENT_ID_LIFECYCLE, VIR_DOMAIN_EVENT_ID_REBOOT,
    VIR_DOMAIN_EVENT_ID_RTC_CHANGE, VIR_DOMAIN_EVENT_ID_WATCHDOG,
    VIR_DOMAIN_EVENT_ID_IO_ERROR, VIR_DOMAIN_EVENT_ID_IO_ERROR_REASON,
    VIR_DOMAIN_EVENT_ID_GRAPHICS.
  destruct (Z.eqb_spec id 0); [split; [discriminate|lia]|].
  destruct (Z.eqb_spec id 1); [split; [discriminate|lia]|].
  destruct (Z.eqb_spec id 2); [split; [discriminate|lia]|].
  destruct (Z.eqb_spec id 3); [split; [discriminate|lia]|].
  destruct (Z.eqb_spec id 4); [split; [discriminate|lia]|].
  destruct (Z.eqb_spec id 6); [split; [discriminate|lia]|].
  destruct (Z.eqb_spec id 5); [split; [discriminate|lia]|].
  split; [lia|done].
Qed.

(** C10. For every registration request whose event id is outside the
    seven known kinds, the registration raises an argument error before
    libvirt's register call is made: the world is as before, so no
    registration was created, and no id is returned.  When the request is
    in order otherwise, the error is the [ArgumentError] of the [default]
    branch of the [switch]; when it is not, it is the error of the earlier
    check. *)
Theorem register_any_unknown_event_id argv c (w : world LV) :
  (forall id, NUM2INT (nth 0 argv Qnil) = Ret id -> ~ known_event_kind id) ->
  exists e,
    libvirt_conn_domain_event_register_any argv c w = (Raise e, w)
    /\ argument_error e
    /\ (request_ok argv ->
        e = Exception rb_eArgError "invalid eventID argument %d").
Proof.
  intros Hkind.
  assert (Hid : forall id, NUM2INT (nth 0 argv Qnil) = Ret id ->
                           select_internalcb id = None).
  { intros id Hnum. apply switch_refuses_the_unknown. by apply Hkind. }
  unfold libvirt_conn_domain_event_register_any.
  unfold bind at 1. unfold rb_scan_args.
  case_decide as Hfew.
  { eexists. split; [reflexivity|]. split; [by left|].
    intros [[Hlen _] _]. lia. }
  case_decide as Hmany.
  { eexists. split; [reflexivity|]. split; [by left|].
    intros [[_ Hlen] _]. lia. }
  unfold ret at 1. cbv zeta. rewrite !nth_padded.
  unfold bind at 1. unfold when.
  destruct (is_symbol_or_proc (nth 1 argv Qnil)) eqn:Hcb; simpl negb; cbv iota.
  2: { eexists. split; [reflexivity|]. split; [by right; left|].
       intros (_ & _ & Hcb' & _). congruence. }
  unfold ret at 1. unfold bind at 1.
  destruct (NIL_P (nth 2 argv Qnil)) eqn:Hnil.
  - unfold ret at 1. unfold bind at 1, lift at 1.
    destruct (NUM2INT (nth 0 argv Qnil)) as [id|e|] eqn:Hnum.
    + rewrite (Hid id eq_refl). unfold bind at 1.
      eexists. split; [reflexivity|]. split; [by left|]. done.
    + exists e. split; [reflexivity|]. split.
      * unfold NUM2INT in Hnum. destruct (nth 0 argv Qnil); try discriminate;
          try (injection Hnum as <-; by right; left).
        destruct (_ && _); [discriminate|].
        injection Hnum as <-. by right; right.
      * intros (_ & [id Hid'] & _). congruence.
    + unfold NUM2INT in Hnum. destruct (nth 0 argv Qnil); try discriminate.
      destruct (_ && _); discriminate.
  - unfold domain_get, generic_get.
    destruct (data_ptr (nth 2 argv Qnil)) as [p|] eqn:Hptr.
    + destruct (p =? 0) eqn:Hp.
      * eexists. split; [reflexivity|]. split; [by left|].
        intros (_ & _ & _ & [Hdom|(p' & conn & Hdom & Hp')]).
        -- rewrite Hdom in Hnil. discriminate Hnil.
        -- rewrite Hdom in Hptr. injection Hptr as ->.
           apply Z.eqb_eq in Hp. contradiction.
      * unfold ret at 1. unfold bind at 1, lift at 1.
        destruct (NUM2INT (nth 0 argv Qnil)) as [id|e|] eqn:Hnum.
        -- rewrite (Hid id eq_refl). unfold bind at 1.
           eexists. split; [reflexivity|]. split; [by left|]. done.
        -- exists e. split; [reflexivity|]. split.
           ++ unfold NUM2INT in Hnum.
              destruct (nth 0 argv Qnil); try discriminate;
                try (injection Hnum as <-; by right; left).
              destruct (_ && _); [discriminate|].
              injection Hnum as <-. by right; right.
           ++ intros (_ & [id Hid'] & _). congruence.
        -- unfold NUM2INT in Hnum. destruct (nth 0 argv Qnil); try discriminate.
           destruct (_ && _); discriminate.
    + eexists. split; [reflexivity|]. split; [by right; left|].
      intros (_ & _ & _ & [Hdom|(p' & conn & Hdom & Hp')]).
      * rewrite Hdom in Hnil. discriminate Hnil.
      * rewrite Hdom in Hptr. discriminate Hptr.
Qed.
End Events.

(** The scenario of §8: a Watchdog handler dispatched with action code 2
    and user data "x"; and a Graphics handler with two identities. *)
Lemma dispatch_positional_arguments_witness :
  (dispatch domain_event_watchdog_cb 9 5 (WatchdogEvent 2)
     (RArray [Symbol "on_watchdog"; RString "x"]) (boot idle)
   = (Ret 0,
      World idle
        [Funcall (Class "Symbol") "on_watchdog"
           [Connect 9; Domain 5 (Connect 9); Integer 2; RString "x"]] ∅ 0)
   /\ length [Connect 9; Domain 5 (Connect 9); Integer 2; RString "x"] = 4%nat)
  /\ (dispatch domain_event_graphics_cb 9 5 a_graphics_event
        (RArray [Proc 1; Qnil]) (boot idle)
      = (Ret 0,
         World idle
           [Funcall (Proc 1) "call"
              [Connect 9; Domain 5 (Connect 9); Integer 0;
               RHash [("family", Integer 1); ("node", RString "10.0.0.1");
                      ("service", RString "5900")];
               RHash [("family", Integer 1); ("node", RString "10.0.0.7");
                      ("service", RString "41234")];
               RString "sasl";
               RArray [RArray [RString "x509dname"; RString "CN=client"];
                       RArray [RString "saslUsername"; RString "fred"]];
               Qnil]] ∅ 0)
      /\ length (positional_arguments (Connect 9) (Domain 5 (Connect 9)) Qnil
                   a_graphics_event) = 8%nat).
Proof.
  split.
  - exact (dispatch_positional_arguments domain_event_watchdog_cb 9 5
             (WatchdogEvent 2) (Symbol "on_watchdog") (RString "x")
             (boot idle) eq_refl I eq_refl).
  - exact (dispatch_positional_arguments domain_event_graphics_cb 9 5
             a_graphics_event (Proc 1) Qnil (boot idle)
             eq_refl eq_refl eq_refl).
Defined.

(** A handler that is an Integer. *)
Lemma dispatch_unsupported_handler_witness :
  exists msg : string,
    dispatch domain_event_watchdog_cb 9 5 (WatchdogEvent 2)
      (RArray [Integer 7; RString "x"]) (boot idle)
    = (Raise (Exception rb_eTypeError msg), boot idle).
Proof.
  apply (dispatch_unsupported_handler domain_event_watchdog_cb 9 5
           (WatchdogEvent 2) (Integer 7) (RString "x") (boot idle));
    [reflexivity | exact I | reflexivity].
Defined.

(** Requests for the event ids 7 and -1, the nearest to the seven known
    ones, in order otherwise. *)
Lemma register_any_unknown_event_id_witness :
  (exists e,
     libvirt_conn_domain_event_register_any
       [Integer 7; Symbol "on_event"] a_connection (boot idle)
     = (Raise e, boot idle)
     /\ argument_error e
     /\ (request_ok [Integer 7; Symbol "on_event"] ->
         e = Exception rb_eArgError "invalid eventID argument %d"))
  /\ (exists e,
        libvirt_conn_domain_event_register_any
          [Integer (-1); Symbol "on_event"] a_connection (boot idle)
        = (Raise e, boot idle)
        /\ argument_error e
        /\ (request_ok [Integer (-1); Symbol "on_event"] ->
            e = Exception rb_eArgError "invalid eventID argument %d")).
Proof.
  split.
  - apply (register_any_unknown_event_id [Integer 7; Symbol "on_event"]
             a_connection (boot idle)).
    intros id Hid. vm_compute in Hid. injection Hid as <-.
    rewrite known_event_kind_range. lia.
  - apply (register_any_unknown_event_id [Integer (-1); Symbol "on_event"]
             a_connection (boot idle)).
    intros id Hid. vm_compute in Hid. injection Hid as <-.
    rewrite known_event_kind_range. lia.
Defined.

(** ** The table of registrations *)

(** C8. For every registration id that has been deregistered, a second
    deregistration of the same id fails: libvirt, keeping the table as
    §4.3 describes it, refuses the id, and the binding raises
    [Libvirt::Error] naming the call; the table is left as it was. *)
Theorem deregister_twice c callbackID (w w1 : world script) :
  libvirt_conn_domain_event_deregister_any c callbackID w = (Ret Qnil, w1) ->
  libvirt_conn_domain_event_deregister_any c callbackID w1
  = (Raise (Exception e_Error "virConnectDomainEventDeregisterAny"),
     logged w1 "virConnectDomainEventDeregisterAny" (libvirt w1)).
Proof.
  unfold libvirt_conn_domain_event_deregister_any, gen_call_void.
  intros Hfirst.
  destruct (pure_connect_get (LV := script) c) as [oc Hoc].
  unfold bind at 1 in Hfirst. unfold bind at 1 in Hfirst.
  rewrite Hoc in Hfirst.
  destruct oc as [conn|e|]; [|discriminate..].
  unfold bind at 1 in Hfirst. unfold lift at 1 in Hfirst.
  destruct (NUM2INT callbackID) as [id|e|] eqn:Hid; [|discriminate..].
  unfold call in Hfirst. simpl in Hfirst.
  unfold deregister_callback in Hfirst.
  destruct (callbacks (libvirt w) !! id) as [reg|] eqn:Hreg.
  - simpl in Hfirst. injection Hfirst as <-.
    unfold bind at 1. unfold bind at 1. rewrite Hoc.
    unfold bind at 1, lift at 1. unfold call. simpl.
    unfold deregister_callback. simpl. rewrite lookup_delete_eq.
    simpl. unfold bind. rewrite Hoc. reflexivity.
  - simpl in Hfirst. unfold bind in Hfirst. rewrite Hoc in Hfirst. discriminate.
Qed.

(** The callback registered first is deregistered, then deregistered
    again. *)
Lemma deregister_twice_witness :
  fst (libvirt_conn_domain_event_deregister_any a_connection (Integer 0)
         one_registered) = Ret Qnil
  /\ fst (libvirt_conn_domain_event_deregister_any a_connection (Integer 0)
            (snd (libvirt_conn_domain_event_deregister_any a_connection
                    (Integer 0) one_registered)))
     = Raise (Exception e_Error "virConnectDomainEventDeregisterAny").
Proof.
  split; [vm_compute; reflexivity|].
  rewrite (deregister_twice a_connection (Integer 0) one_registered
             (snd (libvirt_conn_domain_event_deregister_any a_connection
                     (Integer 0) one_registered))).
  - reflexivity.
  - vm_compute. reflexivity.
Defined.

(** ** Typed parameters (§4.1) *)

Section Codec.
Import TypedParameter.

Lemma wrap_signed_native (w v : Z) :
  0 < w -> - 2 ^ (w - 1) <= v < 2 ^ (w - 1) -> wrap_signed w v = v.
Proof.
  intros Hw Hv. unfold wrap_signed.
  assert (Hpow : 2 ^ w = 2 * 2 ^ (w - 1)).
  { replace w with (Z.succ (w - 1)) at 1 by lia. apply Z.pow_succ_r. lia. }
  rewrite Z.mod_small by lia. lia.
Qed.

Lemma wrap_unsigned_native (w v : Z) :
  0 <= v < 2 ^ w -> wrap_unsigned w v = v.
Proof. intros Hv. unfold wrap_unsigned. by apply Z.mod_small. Qed.

(** Outside the native range the written number is another one. *)
Example wrap_signed_outside : wrap_signed 32 (2 ^ 31) = - 2 ^ 31.
Proof. reflexivity. Qed.

Lemma kind_of_tag_of_kind (k : Kind) : kind_of_tag (tag_of_kind k) = Some k.
Proof. by destruct k. Qed.

(** The scenarios of §8: a name of 90 bytes is refused, and so is the
    tag 99. *)
Example encode_long_name :
  encode [Build_TypedValue
            "0123456789012345678901234567890123456789012345678901234567890123456789012345678901234567890"
            Int32 (PInt32 1)]
  = inl NameTooLongError.
Proof. reflexivity. Qed.

Example decode_unknown_kind :
  decode [VirTypedParameter "first" VIR_TYPED_PARAM_INT (i 1);
          VirTypedParameter "second" 99 (i 2)] 2
  = inl DecodeError.
Proof. reflexivity. Qed.

(** One entry there and back. *)
Lemma decode_encode_entry (tv : TypedValue) :
  typed tv ->
  (String.length (name tv) <= VIR_TYPED_PARAM_FIELD_LENGTH)%nat ->
  payload tv <> PString None ->
  exists r, encode_entry tv = inr r /\ decode_record r = inr tv.
Proof.
  destruct tv as [n k p]. unfold typed. simpl. intros [Hk Hnat] Hlen Hnull.
  unfold encode_entry. simpl. case_decide; [lia|].
  subst k. destruct p as [v|v|v|v|bits|v|[str|]]; simpl in *;
    try (eexists; split; [reflexivity|]; unfold decode_record; simpl).
  - by rewrite wrap_signed_native by (simpl; lia).
  - by rewrite wrap_unsigned_native.
  - by rewrite wrap_signed_native by (simpl; lia).
  - by rewrite wrap_unsigned_native.
  - done.
  - by destruct v.
  - done.
  - done.
Qed.

(** C3, as stated, fails.  The entry below holds the Int32 2^31: no name
    is too long and no String is null, yet [encode] wraps the number to
    -2^31 (§4.1: "two's-complement wraparound on overflow ... callers must
    range-check before encode") and [decode] gives that back. *)
Lemma round_trip_wraps_outside_native_range :
  Forall (fun tv =>
            (String.length (name tv) <= VIR_TYPED_PARAM_FIELD_LENGTH)%nat)
         overflowing_parameters
  /\ Forall (fun tv => payload tv <> PString None) overflowing_parameters
  /\ encode overflowing_parameters
     = inr [VirTypedParameter "weight" VIR_TYPED_PARAM_INT (i (- 2 ^ 31))]
  /\ decode [VirTypedParameter "weight" VIR_TYPED_PARAM_INT (i (- 2 ^ 31))] 1
     = inr [Build_TypedValue "weight" Int32 (PInt32 (- 2 ^ 31))]
  /\ [Build_TypedValue "weight" Int32 (PInt32 (- 2 ^ 31))]
     <> overflowing_parameters.
Proof.
  split; [repeat constructor; simpl; lia|].
  split; [repeat constructor; discriminate|].
  split; [reflexivity|]. split; [reflexivity|]. discriminate.
Qed.

(** C3, as amended.  For every ParameterSet P in which every payload is of
    its kind and every number lies within the range of its native type, no
    name exceeds the bounded capacity and no String entry has a null
    payload, encoding succeeds and decoding the encoding yields P
    exactly. *)
Theorem decode_encode_round_trip (P : ParameterSet) :
  Forall typed P ->
  Forall (fun tv =>
            (String.length (name tv) <= VIR_TYPED_PARAM_FIELD_LENGTH)%nat) P ->
  Forall (fun tv => payload tv <> PString None) P ->
  exists rawArray,
    encode P = inr rawArray
    /\ decode rawArray (Z.of_nat (length rawArray)) = inr P.
Proof.
  intros Htyped Hname Hnull.
  assert (Hall : exists rawArray,
             encode P = inr rawArray /\ decode_all rawArray = inr P).
  { induction P as [|tv P IH].
    - by exists [].
    - inversion Htyped as [|? ? Ht Hts]; subst.
      inversion Hname as [|? ? Hn Hns]; subst.
      inversion Hnull as [|? ? Hp Hps]; subst.
      destruct (decode_encode_entry tv Ht Hn Hp) as (r & Henc & Hdec).
      destruct (IH Hts Hns Hps) as (rs & Hencs & Hdecs).
      exists (r :: rs). simpl. by rewrite Henc, Hencs, Hdec, Hdecs. }
  destruct Hall as (rawArray & Henc & Hdec).
  exists rawArray. split; [done|].
  unfold decode. by rewrite Nat2Z.id, take_ge.
Qed.






End Codec.

(** Five parameters, one of each of five kinds, there and back. *)
Lemma decode_encode_round_trip_witness :
  exists rawArray,
    TypedParameter.encode some_parameters = inr rawArray
    /\ TypedParameter.decode rawArray (Z.of_nat (length rawArray))
       = inr some_parameters.
Proof.
  apply (decode_encode_round_trip some_parameters).
  - repeat constructor; simpl; lia.
  - repeat constructor; simpl; lia.
  - repeat constructor; discriminate.
Defined.


(** * More of the code *)

(** ** Steps of a call *)

Section Steps.
Context {LV : Type} `{Host LV}.

Lemma bind_raise_eq {A B : Type} (m : M (LV := LV) A) (k : A -> M B) w e w' :
  m w = (Raise e, w') -> bind m k w = (Raise e, w').
Proof. intros Hm. unfold bind. by rewrite Hm. Qed.

(** [rb_scan_args] answers the arguments, padded with [nil], or raises an
    [ArgumentError]. *)
Lemma scan_cases req opt argv (w : world LV) :
  rb_scan_args req opt argv w
  = (Ret (argv ++ replicate (req + opt - length argv) Qnil), w)
  \/ (exists e, rb_scan_args req opt argv w = (Raise e, w)
                /\ argument_error e).
Proof.
  unfold rb_scan_args. repeat case_decide.
  - right. eexists. split; [reflexivity|]. by left.
  - right. eexists. split; [reflexivity|]. by left.
  - by left.
Qed.

(** [rb_scan_args] lets through a number of arguments that fits. *)
Lemma scan_fits req opt argv (w : world LV) :
  (req <= length argv <= req + opt)%nat ->
  rb_scan_args req opt argv w
  = (Ret (argv ++ replicate (req + opt - length argv) Qnil), w).
Proof.
  intros Hlen. unfold rb_scan_args. repeat case_decide; [lia..|done].
Qed.

(** The world before any call holds no block. *)
Lemma heap_ok_boot (s : script) : heap_ok (boot s).
Proof. intros b Hb. vm_compute in Hb. discriminate Hb. Qed.
End Steps.

(** ** More on the two-phase queries *)

Section Queries.
Context {LV : Type} `{Host LV}.

(** [connect_get] answers the same in every world. *)
Lemma connect_get_again s conn (w w1 : world LV) :
  connect_get s w = (Ret conn, w) -> connect_get s w1 = (Ret conn, w1).
Proof.
  intros Hc. destruct (pure_connect_get (LV := LV) s) as [o Ho].
  rewrite Ho in Hc. injection Hc as ->. apply Ho.
Qed.

(** Duplicating strings changes nothing but the heap. *)
Lemma strdup_all_world names (w : world LV) strs w' :
  strdup_all names w = (Ret strs, w') ->
  libvirt w' = libvirt w /\ trace w' = trace w.
Proof.
  revert strs w. induction names as [|n names IH]; intros strs w Hdup.
  - simpl in Hdup. injection Hdup as _ <-. done.
  - simpl in Hdup. unfold bind at 1, malloc at 1 in Hdup.
    unfold bind at 1 in Hdup.
    destruct (strdup_all names _) as [[tl|e|] w1] eqn:Htl;
      try discriminate Hdup.
    injection Hdup as _ <-.
    by destruct (IH _ _ Htl) as [-> ->].
Qed.

(** X1. When the probe of [gen_conn_list_names] counts nothing, the
    query answers the empty array; when the probe fails, it raises the
    [RetrieveError] named after the probe.  In both cases libvirt was
    entered once: the list is not fetched. *)
Theorem conn_list_names_without_fetch s objs conn (w : world LV) num st :
  connect_get s w = (Ret conn, w) ->
  virConnectNumOf objs conn (libvirt w) = (num, st) ->
  num <= 0 ->
  gen_conn_list_names s objs w
  = (if num =? 0 then Ret (RArray [])
     else Raise (Exception e_RetrieveError ("virConnectNumOf" +:+ objs)),
     logged w ("virConnectNumOf" +:+ objs) st).
Proof.
  intros Hc Hn Hle. destruct (num =? 0) eqn:Hz.
  - apply Z.eqb_eq in Hz. subst num.
    by apply (gen_conn_list_names_zero s objs conn).
  - apply Z.eqb_neq in Hz.
    apply (gen_conn_list_names_probe_fails s objs conn w num); [done..|lia].
Qed.

(** X2. When the probe of [gen_conn_list_names] counts [num] objects,
    the list is fetched into a buffer of [num] slots.  A fetch that fails
    raises the [RetrieveError] named after the list function.  Otherwise
    [gen_list] is handed the count [num] and the buffer, which holds
    copies of the first [num] names that libvirt had to offer. *)
Theorem conn_list_names_hands_over s objs conn (w : world LV) num st reply
    st' :
  connect_get s w = (Ret conn, w) ->
  virConnectNumOf objs conn (libvirt w) = (num, st) ->
  0 < num ->
  virConnectList objs conn num st = (reply, st') ->
  match reply with
  | None =>
      gen_conn_list_names s objs w
      = (Raise (Exception e_RetrieveError ("virConnectList" +:+ objs)),
         logged (logged w ("virConnectNumOf" +:+ objs) st)
                ("virConnectList" +:+ objs) st')
  | Some offered =>
      exists strs w',
        map chars strs = take (Z.to_nat num) offered
        /\ libvirt w' = st'
        /\ gen_conn_list_names s objs w
           = gen_list num (fill (fresh_slots num) strs) w'
  end.
Proof.
  intros Hc Hn Hpos Hf.
  assert (Hrun :
    gen_conn_list_names s objs w
    = (let* (r, names) :=
         fetch_names ("virConnectList" +:+ objs)
                     (virConnectList objs conn num) (fresh_slots num) num in
       _E (r <? 0)
          (let* conn := connect_get s in
           ret (create_error e_RetrieveError ("virConnectList" +:+ objs)
                             conn)) ;;
       gen_list num names)
        (logged w ("virConnectNumOf" +:+ objs) st)).
  { unfold gen_conn_list_names.
    rewrite (bind_ret_eq _ _ _ _ _ Hc).
    rewrite (bind_ret_eq _ _ _ _ _ (call_eq _ _ _ _ _ Hn)).
    unfold _E at 1.
    replace (num <? 0) with false by (symmetry; apply Z.ltb_ge; lia).
    rewrite (bind_ret_eq _ _ _ tt _) by reflexivity.
    replace (num =? 0) with false by (symmetry; apply Z.eqb_neq; lia).
    by rewrite (bind_ret_eq _ _ _ _ _ (connect_get_again s conn w _ Hc)). }
  unfold fetch_names in Hrun. unfold bind at 1 in Hrun.
  unfold bind at 1 in Hrun.
  rewrite (call_eq ("virConnectList" +:+ objs) _
             (logged w ("virConnectNumOf" +:+ objs) st) reply st')
    in Hrun by exact Hf.
  destruct reply as [offered|].
  - destruct (strdup_all_spec (take (Z.to_nat num) offered)
                (logged (logged w ("virConnectNumOf" +:+ objs) st)
                        ("virConnectList" +:+ objs) st'))
      as (strs & w' & Hdup & Hchars & Hheap & _).
    unfold bind at 1 in Hrun. rewrite Hdup in Hrun. unfold ret at 1 in Hrun.
    exists strs, w'. split; [done|]. split.
    + by destruct (strdup_all_world _ _ _ _ Hdup) as [-> _].
    + rewrite Hrun. unfold _E.
      replace (Z.of_nat (length strs) <? 0) with false
        by (symmetry; apply Z.ltb_ge; lia).
      reflexivity.
  - rewrite Hrun. unfold ret at 1. unfold _E.
    change (-1 <? 0) with true. cbv iota.
    unfold bind.
    by rewrite (connect_get_again s conn w _ Hc).
Qed.
(** The loop of [libvirt_conn_list_domains] leaves the world alone. *)
Lemma list_domains_loop_world (ids : list (option Z)) count i result
    (w : world LV) :
  snd (for_upto count i
         (fun i result =>
            let* id := read ids i in
            let* caught := rb_protect (ret (rb_ary_push result (INT2NUM id))) in
            match caught with
            | inl exception => rb_jump_tag exception
            | inr result' => ret result'
            end)
         result w) = w.
Proof.
  revert i result. induction count as [|count IH]; intros i result.
  - reflexivity.
  - simpl for_upto. unfold bind at 1. unfold bind at 1. unfold read at 1.
    destruct (ids !! i) as [[id|]|]; [|reflexivity..].
    unfold ret at 1. unfold bind at 1. unfold rb_protect at 1, ret at 1.
    unfold ret at 1. apply IH.
Qed.

(** Over slots that libvirt has written, it pushes the ids in order. *)
Lemma list_domains_loop (ids : list (option Z)) (done rest : list Z)
    (w : world LV) :
  (forall i id, (done ++ rest) !! i = Some id -> ids !! i = Some (Some id)) ->
  for_upto (length rest) (length done)
    (fun i result =>
       let* id := read ids i in
       let* caught := rb_protect (ret (rb_ary_push result (INT2NUM id))) in
       match caught with
       | inl exception => rb_jump_tag exception
       | inr result' => ret result'
       end)
    (RArray (map Integer done)) w
  = (Ret (RArray (map Integer (done ++ rest))), w).
Proof.
  revert done. induction rest as [|id rest IH]; intros done Hbuf.
  - simpl. by rewrite app_nil_r.
  - simpl for_upto.
    assert (Hid : ids !! length done = Some (Some id)).
    { apply Hbuf. rewrite lookup_app_r by lia. by rewrite Nat.sub_diag. }
    unfold bind at 1. unfold bind at 1. unfold read at 1. rewrite Hid.
    unfold ret at 1. unfold bind at 1. unfold rb_protect at 1, ret at 1.
    unfold ret at 1.
    specialize (IH (done ++ [id])).
    rewrite length_app in IH. simpl in IH.
    replace (length done + 1)%nat with (S (length done)) in IH by lia.
    rewrite <- app_assoc in IH. simpl in IH.
    rewrite <- IH by exact Hbuf.
    simpl rb_ary_push. unfold INT2NUM. by rewrite map_app.
Qed.

(** X3. [libvirt_conn_list_domains] answers the ids that libvirt wrote,
    in order, when the fetch filled the buffer that the probe had sized;
    when the fetch had fewer ids than the probe counted, the loop, which
    runs to the count of the probe, reads a slot that nothing has
    written. *)
Theorem list_domains_answer q (w : world LV) num st offered st' :
  q <> 0 ->
  virConnectNumOf "Domains" q (libvirt w) = (num, st) ->
  0 < num ->
  virConnectListDomains q num st = (Some offered, st') ->
  libvirt_conn_list_domains (Connect q) w
  = (if decide (Z.to_nat num <= length offered)%nat
     then Ret (RArray (map Integer (take (Z.to_nat num) offered)))
     else Undef,
     logged (logged w "virConnectNumOfDomains" st)
            "virConnectListDomains" st').
Proof.
  intros Hq Hn Hpos Hf.
  case_decide as Hfull.
  - unfold libvirt_conn_list_domains.
    rewrite (bind_ret_eq _ _ _ _ _ (connect_get_live q w Hq)).
    rewrite (bind_ret_eq _ _ _ _ _ (call_eq _ _ _ _ _ Hn)).
    unfold _E at 1.
    replace (num <? 0) with false by (symmetry; apply Z.ltb_ge; lia).
    rewrite (bind_ret_eq _ _ _ tt _) by reflexivity.
    replace (num =? 0) with false by (symmetry; apply Z.eqb_neq; lia).
    unfold fetch_ints. unfold bind at 1. unfold bind at 1.
    rewrite (call_eq "virConnectListDomains" _
               (logged w "virConnectNumOfDomains" st) (Some offered) st')
      by exact Hf.
    unfold ret at 1. unfold _E at 1.
    replace (Z.of_nat (length (take (Z.to_nat num) offered)) <? 0)
      with false by (symmetry; apply Z.ltb_ge; lia).
    rewrite (bind_ret_eq _ _ _ tt _) by reflexivity.
    rewrite (bind_ret_eq _ _ _ (inr (rb_ary_new2 num)) _) by reflexivity.
    pose proof (list_domains_loop
                  (fill (fresh_slots num) (take (Z.to_nat num) offered)) []
                  (take (Z.to_nat num) offered)
                  (logged (logged w "virConnectNumOfDomains" st)
                          "virConnectListDomains" st')) as Hloop.
    rewrite length_take in Hloop.
    replace (Z.to_nat num `min` length offered)%nat with (Z.to_nat num)
      in Hloop by lia.
    apply Hloop. intros i id Hi. apply fill_lookup; [|exact Hi].
    rewrite length_take. lia.
  - pose proof (list_domains_reads_unwritten_slot q w num st offered st'
                  Hq Hn Hf ltac:(lia)) as Hfst.
    assert (Hsnd : snd (libvirt_conn_list_domains (Connect q) w)
                   = logged (logged w "virConnectNumOfDomains" st)
                            "virConnectListDomains" st').
    { unfold libvirt_conn_list_domains.
      rewrite (bind_ret_eq _ _ _ _ _ (connect_get_live q w Hq)).
      rewrite (bind_ret_eq _ _ _ _ _ (call_eq _ _ _ _ _ Hn)).
      unfold _E at 1.
      replace (num <? 0) with false by (symmetry; apply Z.ltb_ge; lia).
      rewrite (bind_ret_eq _ _ _ tt _) by reflexivity.
      replace (num =? 0) with false by (symmetry; apply Z.eqb_neq; lia).
      unfold fetch_ints. unfold bind at 1. unfold bind at 1.
      rewrite (call_eq "virConnectListDomains" _
                 (logged w "virConnectNumOfDomains" st) (Some offered) st')
        by exact Hf.
      unfold ret at 1. unfold _E at 1.
      replace (Z.of_nat (length (take (Z.to_nat num) offered)) <? 0)
        with false by (symmetry; apply Z.ltb_ge; lia).
      rewrite (bind_ret_eq _ _ _ tt _) by reflexivity.
      rewrite (bind_ret_eq _ _ _ (inr (rb_ary_new2 num)) _) by reflexivity.
      apply list_domains_loop_world. }
    destruct (libvirt_conn_list_domains (Connect q) w) as [o w'].
    simpl in Hfst, Hsnd. by subst.
Qed.

(** X4. The flags given to [libvirt_dom_list_snapshots] reach the
    fetch only: the probe is always asked with flags [0].  [gen_list] is
    then handed the count of the probe, and a buffer that holds copies of
    the first names that the fetch, asked with the flags, had to offer. *)
Theorem list_snapshots_flags_reach_fetch_only p conn flags_val fl
    (w : world LV) num st offered st' :
  p <> 0 ->
  NUM2UINT flags_val = Ret fl ->
  virDomainSnapshotNum p 0 (libvirt w) = (num, st) ->
  0 < num ->
  virDomainSnapshotListNames p num fl st = (Some offered, st') ->
  exists strs w',
    map chars strs = take (Z.to_nat num) offered
    /\ libvirt w' = st'
    /\ trace w' = trace w ++ [Libvirt "virDomainSnapshotNum";
                              Libvirt "virDomainSnapshotListNames"]
    /\ libvirt_dom_list_snapshots [flags_val] (Domain p conn) w
       = gen_list num (fill (fresh_slots num) strs) w'.
Proof.
  intros Hp Hfl Hn Hpos Hf. unfold libvirt_dom_list_snapshots.
  rewrite (bind_ret_eq _ _ w [flags_val] w) by reflexivity.
  cbv zeta. simpl nth.
  assert (Hnil : NIL_P flags_val = false) by (by destruct flags_val).
  rewrite Hnil.
  rewrite (bind_ret_eq _ _ w fl w) by (unfold lift; by rewrite Hfl).
  rewrite (bind_ret_eq _ _ _ _ _ (domain_get_live p _ w Hp)).
  rewrite (bind_ret_eq _ _ _ _ _ (call_eq _ _ _ _ _ Hn)).
  unfold _E at 1.
  replace (num <? 0) with false by (symmetry; apply Z.ltb_ge; lia).
  rewrite (bind_ret_eq _ _ _ tt _) by reflexivity.
  replace (num =? 0) with false by (symmetry; apply Z.eqb_neq; lia).
  rewrite (bind_ret_eq _ _ _ _ _ (domain_get_live p _ _ Hp)).
  unfold fetch_names.
  unfold bind at 1. unfold bind at 1.
  rewrite (call_eq "virDomainSnapshotListNames" _
             (logged w "virDomainSnapshotNum" st) (Some offered) st')
    by exact Hf.
  destruct (strdup_all_spec (take (Z.to_nat num) offered)
              (logged (logged w "virDomainSnapshotNum" st)
                      "virDomainSnapshotListNames" st'))
    as (strs & w' & Hrun & Hchars & _).
  unfold bind at 1. rewrite Hrun. unfold ret at 1.
  exists strs, w'. split; [done|].
  destruct (strdup_all_world _ _ _ _ Hrun) as [-> ->].
  split; [done|]. split; [simpl; by rewrite <- app_assoc|].
  unfold _E.
  replace (Z.of_nat (length strs) <? 0) with false
    by (symmetry; apply Z.ltb_ge; lia).
  reflexivity.
Qed.

(** X5. [libvirt_conn_list_nodedevices] asks the probe and the fetch
    for the devices of the capability it was given ([NULL] for [nil]); the
    flags it was given reach the fetch only, the probe is asked with flags
    [0].  When the probe counts nothing, the fetch is not made. *)
Theorem list_nodedevices_passes_capability q cap capstr flags_val fl
    (w : world LV) num st :
  q <> 0 ->
  get_string_or_nil cap w = (Ret capstr, w) ->
  NUM2UINT flags_val = Ret fl ->
  virNodeNumOfDevices q capstr 0 (libvirt w) = (num, st) ->
  0 <= num ->
  if num =? 0 then
    libvirt_conn_list_nodedevices [cap; flags_val] (Connect q) w
    = (Ret (RArray []), logged w "virNodeNumOfDevices" st)
  else
    forall offered st',
      virNodeListDevices q capstr num fl st = (Some offered, st') ->
      exists strs w',
        map chars strs = take (Z.to_nat num) offered
        /\ libvirt w' = st'
        /\ trace w' = trace w ++ [Libvirt "virNodeNumOfDevices";
                                  Libvirt "virNodeListDevices"]
        /\ libvirt_conn_list_nodedevices [cap; flags_val] (Connect q) w
           = gen_list num (fill (fresh_slots num) strs) w'.
Proof.
  intros Hq Hcap Hfl Hn Hpos.
  assert (Hnil : NIL_P flags_val = false) by (by destruct flags_val).
  assert (Hprobe :
    libvirt_conn_list_nodedevices [cap; flags_val] (Connect q) w
    = (if num =? 0 then ret (rb_ary_new2 num)
       else
         let names := fresh_slots num in
         let* conn := connect_get (Connect q) in
         let* (r, names) :=
           fetch_names "virNodeListDevices"
                       (virNodeListDevices conn capstr num fl) names num in
         _E (r <? 0)
            (let* conn := connect_get (Connect q) in
             ret (create_error e_RetrieveError "virNodeListDevices" conn)) ;;
         gen_list num names) (logged w "virNodeNumOfDevices" st)).
  { unfold libvirt_conn_list_nodedevices.
    rewrite (bind_ret_eq _ _ w [cap; flags_val] w) by reflexivity.
    cbv zeta. simpl nth. rewrite Hnil.
    rewrite (bind_ret_eq _ _ w fl w) by (unfold lift; by rewrite Hfl).
    rewrite (bind_ret_eq _ _ _ _ _ Hcap).
    rewrite (bind_ret_eq _ _ _ _ _ (connect_get_live q w Hq)).
    rewrite (bind_ret_eq _ _ _ _ _ (call_eq _ _ _ _ _ Hn)).
    unfold _E at 1.
    replace (num <? 0) with false by (symmetry; apply Z.ltb_ge; lia).
    by rewrite (bind_ret_eq _ _ _ tt _) by reflexivity. }
  destruct (num =? 0) eqn:Hz; [exact Hprobe|].
  apply Z.eqb_neq in Hz.
  intros offered st' Hf. rewrite Hprobe. cbv zeta.
  rewrite (bind_ret_eq _ _ _ _ _ (connect_get_live q _ Hq)).
  unfold fetch_names.
  unfold bind at 1. unfold bind at 1.
  rewrite (call_eq "virNodeListDevices" _
             (logged w "virNodeNumOfDevices" st) (Some offered) st')
    by exact Hf.
  destruct (strdup_all_spec (take (Z.to_nat num) offered)
              (logged (logged w "virNodeNumOfDevices" st)
                      "virNodeListDevices" st'))
    as (strs & w' & Hrun & Hchars & _).
  unfold bind at 1. rewrite Hrun. unfold ret at 1.
  exists strs, w'. split; [done|].
  destruct (strdup_all_world _ _ _ _ Hrun) as [-> ->].
  split; [done|]. split; [simpl; by rewrite <- app_assoc|].
  unfold _E.
  replace (Z.of_nat (length strs) <? 0) with false
    by (symmetry; apply Z.ltb_ge; lia).
  reflexivity.
Qed.
(** X6. Whatever flags it is given,
    [libvirt_dom_snapshot_list_children_names] passes them to the probe
    and to the fetch, answers the names that the fetch wrote, in order,
    and has freed every string that libvirt handed over when it returns:
    the heap is as it was. *)
Theorem children_names_frees_every_string argv p domain fl (w : world LV)
    num st offered st' :
  p <> 0 ->
  (length argv <= 1)%nat ->
  NUM2UINT (integer_default_if_nil (nth 0 argv Qnil) 0) = Ret fl ->
  heap_ok w ->
  virDomainSnapshotNumChildren p fl (libvirt w) = (num, st) ->
  0 <= num ->
  virDomainSnapshotListChildrenNames p num fl st = (Some offered, st') ->
  exists w',
    libvirt_dom_snapshot_list_children_names argv (DomainSnapshot p domain) w
    = (Ret (RArray (map RString (take (Z.to_nat num) offered))), w')
    /\ heap w' = heap w.
Proof.
  intros Hp Hlen Hfl Hok Hn Hpos Hf.
  unfold libvirt_dom_snapshot_list_children_names.
  rewrite (bind_ret_eq _ _ w (argv ++ replicate (0 + 1 - length argv) Qnil) w)
    by (unfold rb_scan_args; repeat case_decide; [lia..|done]).
  cbv zeta. rewrite nth_padded.
  rewrite (bind_ret_eq _ _ _ _ _ (snapshot_get_live p _ w Hp)).
  rewrite (bind_ret_eq _ _ w fl w) by (unfold lift; by rewrite Hfl).
  rewrite (bind_ret_eq _ _ _ _ _ (call_eq _ _ _ _ _ Hn)).
  unfold _E at 1.
  replace (num <? 0) with false by (symmetry; apply Z.ltb_ge; lia).
  rewrite (bind_ret_eq _ _ _ tt _) by reflexivity.
  rewrite (bind_ret_eq _ _ _ _ _ (snapshot_get_live p _ _ Hp)).
  rewrite (bind_ret_eq _ _ _ fl _) by (unfold lift; by rewrite Hfl).
  unfold fetch_names. unfold bind at 1. unfold bind at 1.
  rewrite (call_eq "virDomainSnapshotListChildrenNames" _
             (logged w "virDomainSnapshotNumChildren" st) (Some offered) st')
    by exact Hf.
  destruct (strdup_all_spec (take (Z.to_nat num) offered)
              (logged (logged w "virDomainSnapshotNumChildren" st)
                      "virDomainSnapshotListChildrenNames" st'))
    as (strs & w' & Hrun & Hchars & Hheap & Haddr).
  unfold bind at 1. rewrite Hrun. unfold ret at 1.
  unfold _E at 1.
  replace (Z.of_nat (length strs) <? 0) with false
    by (symmetry; apply Z.ltb_ge; lia).
  rewrite (bind_ret_eq _ _ _ tt _) by reflexivity.
  rewrite Nat2Z.id.
  assert (Hfit : (length strs <= Z.to_nat num)%nat).
  { rewrite <- (length_map chars), Hchars, length_take. lia. }
  destruct (children_loop (fill (fresh_slots num) strs)
              (Z.of_nat (length strs)) [] strs w') as (w'' & Hloop & Hfreed).
  { intros i c Hi. by apply fill_lookup. }
  simpl in Hloop. unfold rb_ary_new. rewrite Hloop.
  exists w''. split.
  - f_equal. f_equal. f_equal. rewrite <- Hchars. unfold name_of.
    by rewrite map_map.
  - rewrite Hfreed, Hheap. simpl.
    assert (Hdisj : forall blk, blk ∈ map addr strs -> blk ∉ heap w).
    { intros blk Hblk Hin. apply Hok in Hin.
      apply list_elem_of_fmap in Hblk as (c & -> & Hc).
      rewrite Forall_forall in Haddr. apply Haddr in Hc. simpl in Hc. lia. }
    apply set_eq. intros x.
    rewrite elem_of_difference, elem_of_union, elem_of_list_to_set.
    split.
    + intros [[Hx|Hx] Hnot]; [by destruct Hnot|done].
    + intros Hx. split; [by right|]. intros Hx'. by apply (Hdisj x).
Qed.

(** A key that the hash does not hold yet goes to its end. *)
Lemma hash_aset_new pairs key val :
  key ∉ map fst pairs -> hash_aset pairs key val = pairs ++ [(key, val)].
Proof.
  induction pairs as [|[k v] pairs IH]; intros Hnew; [reflexivity|].
  simpl. unfold streq. rewrite bool_decide_eq_false_2.
  - rewrite IH; [reflexivity|]. intros Hin. apply Hnew. simpl. by right.
  - intros ->. apply Hnew. simpl. by left.
Qed.

(** Records of distinct names come out as they went in. *)
Lemma fields_of_distinct written :
  NoDup (map field written) ->
  fields_of written = RHash (map field_value written).
Proof.
  unfold fields_of.
  assert (Hgen : forall pairs,
    NoDup (map fst pairs ++ map field written) ->
    fold_left (fun pairs p => hash_aset pairs (field p) (ULL2NUM (value p)))
              written pairs
    = pairs ++ map field_value written).
  { induction written as [|p written IH]; intros pairs Hdup.
    - simpl. by rewrite app_nil_r.
    - simpl. simpl in Hdup.
      apply NoDup_app in Hdup as (Hpairs & Hfresh & Hrest).
      apply NoDup_cons in Hrest as [Hp Hrest].
      rewrite hash_aset_new.
      + rewrite IH.
        * rewrite <- app_assoc. reflexivity.
        * rewrite map_app. simpl. rewrite <- app_assoc. simpl.
          apply NoDup_app. split; [exact Hpairs|]. split.
          -- intros k Hk Hin. apply (Hfresh k Hk). exact Hin.
          -- by apply NoDup_cons.
      + intros Hin. apply (Hfresh _ Hin). by left. }
  intros Hdup. by rewrite Hgen.
Qed.

(** The conversion loop of [internal_get_stats] over records that libvirt
    has written. *)
Lemma cpu_stats_loop block (params : list (option node_stats))
    (done rest : list node_stats) pairs (w : world LV) :
  (forall i p, (done ++ rest) !! i = Some p -> params !! i = Some (Some p)) ->
  for_upto (length rest) (length done)
    (fun i result =>
       let hf := HashField params i result in
       let* caught := rb_protect (cpu_hash_set hf) in
       match caught with
       | inl exception => xfree block ;; rb_jump_tag exception
       | inr result' => ret result'
       end)
    (RHash pairs) w
  = (Ret (RHash (fold_left
                   (fun pairs p =>
                      hash_aset pairs (field p) (ULL2NUM (value p)))
                   rest pairs)), w).
Proof.
  revert done pairs. induction rest as [|x rest IH]; intros done pairs Hbuf.
  - reflexivity.
  - simpl for_upto. cbv zeta.
    assert (Hx : params !! length done = Some (Some x)).
    { apply Hbuf. rewrite lookup_app_r by lia. by rewrite Nat.sub_diag. }
    rewrite (bind_ret_eq _ _ w (RHash (hash_aset pairs (field x)
                                                 (ULL2NUM (value x)))) w).
    + specialize (IH (done ++ [x])).
      rewrite length_app in IH. simpl in IH.
      replace (length done + 1)%nat with (S (length done)) in IH by lia.
      rewrite <- app_assoc in IH. simpl in IH.
      by apply IH.
    + rewrite (bind_ret_eq _ _ w
                 (inr (RHash (hash_aset pairs (field x)
                                        (ULL2NUM (value x))))) w);
        [reflexivity|].
      unfold rb_protect, cpu_hash_set, bind, read.
      cbn [hf_params hf_i hf_result]. by rewrite Hx.
Qed.

(** X7. When libvirt counts [n > 0] statistics and then writes that
    many records or fewer, reporting their number,
    [libvirt_conn_node_cpu_stats] answers a hash that maps the field name
    of every record written to its value, a later record of the same name
    replacing an earlier one, so that records of distinct names come out
    in the order in which libvirt wrote them; and it has freed the buffer:
    the heap is as it was.  libvirt was entered twice, the second time
    with a buffer of [n] records. *)
Theorem node_cpu_stats_answers_fields q (w : world LV) probe st reply st' :
  q <> 0 ->
  heap_ok w ->
  virNodeGetCPUStats q (-1) false 0 0 (libvirt w) = (probe, st) ->
  0 <= sr_ret probe ->
  0 < sr_nparams probe ->
  virNodeGetCPUStats q (-1) true (sr_nparams probe) 0 st = (reply, st') ->
  0 <= sr_ret reply ->
  sr_nparams reply = Z.of_nat (length (sr_written reply)) ->
  (length (sr_written reply) <= Z.to_nat (sr_nparams probe))%nat ->
  libvirt_conn_node_cpu_stats [] (Connect q) w
  = (Ret (fields_of (sr_written reply)),
     World st'
           (trace w ++ [Libvirt "virNodeGetCPUStats";
                        Libvirt "virNodeGetCPUStats"])
           (heap w) (S (brk w)))
  /\ (NoDup (map field (sr_written reply)) ->
      fields_of (sr_written reply)
      = RHash (map field_value (sr_written reply))).
Proof.
  intros Hq Hok Hg1 Hret1 Hn Hg2 Hret2 Hcount Hfit.
  split; [|apply fields_of_distinct].
  unfold libvirt_conn_node_cpu_stats, internal_get_stats.
  rewrite (bind_ret_eq _ _ w [Qnil; Qnil] w) by reflexivity.
  cbv zeta. simpl nth. simpl NIL_P. cbv iota.
  rewrite (bind_ret_eq _ _ _ _ _ (connect_get_live q w Hq)).
  rewrite (bind_ret_eq _ _ w (-1) w) by reflexivity.
  rewrite (bind_ret_eq _ _ w 0 w) by reflexivity.
  rewrite (bind_ret_eq _ _ w (None, None, sr_nparams probe)
             (logged w "virNodeGetCPUStats" st)).
  2: { unfold cpu_get_stats.
       change (bool_decide (is_Some (@None (list (option node_stats)))))
         with false.
       rewrite (bind_ret_eq _ _ _ _ _ (call_eq _ _ _ _ _ Hg1)).
       replace (sr_ret probe <? 0) with false
         by (symmetry; apply Z.ltb_ge; lia).
       reflexivity. }
  replace (sr_nparams probe =? 0) with false
    by (symmetry; apply Z.eqb_neq; lia).
  set (w1 := logged w "virNodeGetCPUStats" st).
  set (w2 := World st (trace w1) ({[ brk w ]} ∪ heap w) (S (brk w))).
  rewrite (bind_ret_eq _ _ w1 (brk w, fresh_slots (sr_nparams probe)) w2).
  2: { unfold cpu_alloc_stats, ALLOC_N.
       replace (sr_nparams probe <? 0) with false
         by (symmetry; apply Z.ltb_ge; lia).
       reflexivity. }
  rewrite (bind_ret_eq _ _ _ _ _ (connect_get_live q w2 Hq)).
  rewrite (bind_ret_eq _ _ w2 (-1) w2) by reflexivity.
  rewrite (bind_ret_eq _ _ w2 0 w2) by reflexivity.
  set (w3 := World st' (trace w1 ++ [Libvirt "virNodeGetCPUStats"])
                   ({[ brk w ]} ∪ heap w) (S (brk w))).
  rewrite (bind_ret_eq _ _ w2
             (None,
              Some (fill (fresh_slots (sr_nparams probe)) (sr_written reply)),
              sr_nparams reply) w3).
  2: { unfold cpu_get_stats.
       rewrite bool_decide_eq_true_2 by eauto.
       rewrite (bind_ret_eq _ _ w2 reply w3)
         by (unfold call; simpl libvirt; by rewrite Hg2).
       replace (sr_ret reply <? 0) with false
         by (symmetry; apply Z.ltb_ge; lia).
       reflexivity. }
  simpl default. rewrite Hcount, Nat2Z.id.
  rewrite (bind_ret_eq _ _ w3 (fields_of (sr_written reply)) w3).
  2: { apply (cpu_stats_loop _ _ [] (sr_written reply) [] w3).
       intros i p Hi. by apply fill_lookup. }
  unfold bind, xfree, ret. simpl. subst w1. simpl.
  rewrite <- app_assoc. simpl.
  rewrite free_last; [reflexivity|].
  intros Hin. apply Hok in Hin. lia.
Qed.
End Queries.

(** No network is defined: the names are not fetched. *)
Lemma conn_list_names_without_fetch_witness :
  libvirt_conn_list_networks a_connection (boot childless)
  = (Ret (RArray []),
     logged (boot childless) "virConnectNumOfNetworks"
            (Script [] [Some []] [] [] ∅ 0)).
Proof.
  exact (conn_list_names_without_fetch a_connection "Networks" 9
           (boot childless) 0 (Script [] [Some []] [] [] ∅ 0)
           eq_refl eq_refl ltac:(lia)).
Defined.

(** The probe counts three networks and the fetch has two names: the
    count three goes to [gen_list], with the two names. *)
Lemma conn_list_names_hands_over_witness :
  exists strs w',
    map chars strs = ["first"; "second"]
    /\ libvirt w' = Script [] [] [Some [7; 8]] [] ∅ 0
    /\ libvirt_conn_list_networks a_connection (boot shrinking)
       = gen_list 3 (fill (fresh_slots 3) strs) w'.
Proof.
  exact (conn_list_names_hands_over a_connection "Networks" 9
           (boot shrinking) 3 (Script [] [Some ["first"; "second"]]
                                      [Some [7; 8]] [] ∅ 0)
           (Some ["first"; "second"]) (Script [] [] [Some [7; 8]] [] ∅ 0)
           eq_refl eq_refl ltac:(lia) eq_refl).
Defined.

(** Two domains counted, two ids fetched. *)
Lemma list_domains_answer_witness :
  libvirt_conn_list_domains a_connection (boot steady)
  = (Ret (RArray [Integer 7; Integer 8]),
     World (Script [] [Some ["first"; "second"]] [] [] ∅ 0)
           [Libvirt "virConnectNumOfDomains"; Libvirt "virConnectListDomains"]
           ∅ 0).
Proof.
  exact (list_domains_answer 9 (boot steady) 2
           (Script [] [Some ["first"; "second"]] [Some [7; 8]] [] ∅ 0)
           [7; 8] (Script [] [Some ["first"; "second"]] [] [] ∅ 0)
           ltac:(lia) eq_refl ltac:(lia) eq_refl).
Defined.

(** The snapshots of a domain, asked for with the flags [1]. *)
Lemma list_snapshots_flags_reach_fetch_only_witness :
  exists strs w',
    map chars strs = ["first"; "second"]
    /\ libvirt w' = Script [] [] [Some [7; 8]] [] ∅ 0
    /\ trace w' = [Libvirt "virDomainSnapshotNum";
                   Libvirt "virDomainSnapshotListNames"]
    /\ libvirt_dom_list_snapshots [Integer 1] a_domain (boot steady)
       = gen_list 2 (fill (fresh_slots 2) strs) w'.
Proof.
  exact (list_snapshots_flags_reach_fetch_only 5 a_connection (Integer 1) 1
           (boot steady) 2
           (Script [] [Some ["first"; "second"]] [Some [7; 8]] [] ∅ 0)
           ["first"; "second"] (Script [] [] [Some [7; 8]] [] ∅ 0)
           ltac:(lia) eq_refl eq_refl ltac:(lia) eq_refl).
Defined.

(** The devices of the capability [net], asked for with the flags [1]. *)
Lemma list_nodedevices_passes_capability_witness :
  exists strs w',
    map chars strs = ["first"; "second"]
    /\ libvirt w' = Script [] [] [Some [7; 8]] [] ∅ 0
    /\ trace w' = [Libvirt "virNodeNumOfDevices"; Libvirt "virNodeListDevices"]
    /\ libvirt_conn_list_nodedevices [RString "net"; Integer 1] a_connection
         (boot steady)
       = gen_list 2 (fill (fresh_slots 2) strs) w'.
Proof.
  exact (list_nodedevices_passes_capability 9 (RString "net") (Some "net")
           (Integer 1) 1 (boot steady) 2
           (Script [] [Some ["first"; "second"]] [Some [7; 8]] [] ∅ 0)
           ltac:(lia) eq_refl eq_refl eq_refl ltac:(lia)
           ["first"; "second"] (Script [] [] [Some [7; 8]] [] ∅ 0) eq_refl).
Defined.

(** Two children, asked for with the flags [1]: both names are answered
    and no string is left on the heap. *)
Lemma children_names_frees_every_string_witness :
  exists w',
    libvirt_dom_snapshot_list_children_names [Integer 1] a_snapshot
      (boot steady)
    = (Ret (RArray [RString "first"; RString "second"]), w')
    /\ heap w' = ∅.
Proof.
  exact (children_names_frees_every_string [Integer 1] 4 a_domain 1
           (boot steady) 2
           (Script [] [Some ["first"; "second"]] [Some [7; 8]] [] ∅ 0)
           ["first"; "second"] (Script [] [] [Some [7; 8]] [] ∅ 0)
           ltac:(lia) ltac:(simpl; lia) eq_refl (heap_ok_boot steady)
           eq_refl ltac:(lia) eq_refl).
Defined.

(** Two statistics of the host CPU. *)
Lemma node_cpu_stats_answers_fields_witness :
  libvirt_conn_node_cpu_stats [] a_connection (boot two_statistics)
  = (Ret (RHash [("kernel", Integer 10); ("user", Integer 20)]),
     World idle [Libvirt "virNodeGetCPUStats"; Libvirt "virNodeGetCPUStats"]
           ∅ 1).
Proof.
  refine (proj1 (node_cpu_stats_answers_fields 9 (boot two_statistics)
           (StatsReply 0 2 [])
           (Script [] [] []
                   [StatsReply 0 2 [NodeStats "kernel" 10;
                                    NodeStats "user" 20]] ∅ 0)
           (StatsReply 0 2 [NodeStats "kernel" 10; NodeStats "user" 20])
           idle
           ltac:(lia) (heap_ok_boot two_statistics) eq_refl ltac:(simpl; lia)
           ltac:(simpl; lia) eq_refl ltac:(simpl; lia) eq_refl
           ltac:(simpl; lia))).
Defined.

(** ** More of [connect.c] *)

Section Cells.
Context {LV : Type} `{Host LV} `{Hypervisor LV} `{Machine}.

(** The loop of [libvirt_conn_node_cells_free_memory] over slots that
    libvirt has written. *)
Lemma cells_loop (freeMems : list (option Z)) (done rest : list Z)
    (w : world LV) :
  (forall i m, (done ++ rest) !! i = Some m -> freeMems !! i = Some (Some m)) ->
  for_upto (length rest) (length done)
    (fun i cells =>
       let* freeMem := read freeMems i in
       ret (rb_ary_push cells (ULL2NUM freeMem)))
    (RArray (map Integer done)) w
  = (Ret (RArray (map Integer (done ++ rest))), w).
Proof.
  revert done. induction rest as [|m rest IH]; intros done Hbuf.
  - simpl. by rewrite app_nil_r.
  - simpl for_upto.
    assert (Hm : freeMems !! length done = Some (Some m)).
    { apply Hbuf. rewrite lookup_app_r by lia. by rewrite Nat.sub_diag. }
    unfold bind at 1. unfold bind at 1. unfold read at 1. rewrite Hm.
    unfold ret at 1. unfold ret at 1.
    specialize (IH (done ++ [m])).
    rewrite length_app in IH. simpl in IH.
    replace (length done + 1)%nat with (S (length done)) in IH by lia.
    rewrite <- app_assoc in IH. simpl in IH.
    rewrite <- IH by exact Hbuf.
    simpl rb_ary_push. unfold ULL2NUM. by rewrite map_app.
Qed.

(** An [unsigned int] taken for an [int] is no more than it was. *)
Lemma int_of_unsigned_le (u : Z) : int_of_unsigned u <= u.
Proof. unfold int_of_unsigned. destruct (u <=? INT_MAX); lia. Qed.

Lemma int_of_unsigned_fits (u : Z) : u <= INT_MAX -> int_of_unsigned u = u.
Proof.
  intros Hu. unfold int_of_unsigned.
  by replace (u <=? INT_MAX) with true by (symmetry; by apply Z.leb_le).
Qed.

(** The fetch of the cells and the conversion of what it wrote. *)
Lemma cells_fetch_and_convert q startCell maxCells (w : world LV) offered st :
  virNodeGetCellsFreeMemory q startCell (int_of_unsigned maxCells) (libvirt w)
  = (Some offered, st) ->
  (let* (r, freeMems) :=
     fetch_ints "virNodeGetCellsFreeMemory"
                (virNodeGetCellsFreeMemory q startCell
                                           (int_of_unsigned maxCells))
                (fresh_slots maxCells) (int_of_unsigned maxCells) in
   _E (r <? 0)
      (let* conn := connect_get (Connect q) in
       ret (create_error e_RetrieveError "virNodeGetCellsFreeMemory" conn)) ;;
   let cells := rb_ary_new2 r in
   for_upto (Z.to_nat r) 0
     (fun i cells =>
        let* freeMem := read freeMems i in
        ret (rb_ary_push cells (ULL2NUM freeMem)))
     cells) w
  = (Ret (RArray (map Integer
                      (take (Z.to_nat (int_of_unsigned maxCells)) offered))),
     logged w "virNodeGetCellsFreeMemory" st).
Proof.
  intros Hf. unfold fetch_ints.
  unfold bind at 1. unfold bind at 1.
  rewrite (call_eq "virNodeGetCellsFreeMemory" _ w (Some offered) st)
    by exact Hf.
  unfold ret at 1. unfold _E at 1.
  replace (Z.of_nat (length (take (Z.to_nat (int_of_unsigned maxCells))
                                  offered)) <? 0)
    with false by (symmetry; apply Z.ltb_ge; lia).
  rewrite (bind_ret_eq _ _ _ tt _) by reflexivity.
  cbv zeta. rewrite Nat2Z.id. unfold rb_ary_new2.
  apply (cells_loop _ [] (take (Z.to_nat (int_of_unsigned maxCells)) offered)).
  intros i m Hi. apply fill_lookup; [|exact Hi].
  rewrite length_take. pose proof (int_of_unsigned_le maxCells). lia.
Qed.

(** X8. [libvirt_conn_node_cells_free_memory], asked for [maxCells] cells
    from [startCell] on, takes a buffer of [maxCells] slots from the
    stack without a look at the number: where the stack has no room for
    it, what the call does is undefined, and libvirt is not entered.
    Where it has room, and [maxCells] is a number that libvirt's [int]
    holds, the call answers the amounts that libvirt wrote to the buffer,
    in order, and no more than [maxCells] of them: its loop runs to the
    count that the fetch returned, so that it reads no slot that libvirt
    has not written, however few cells libvirt reports.  [startCell]
    reaches libvirt as an [int]. *)
Theorem cells_free_memory_lists_what_was_written q start max startCell
    maxCells (w : world LV) :
  q <> 0 ->
  NUM2UINT start = Ret startCell ->
  NUM2UINT max = Ret maxCells ->
  (stack_room < sizeof_unsigned_long_long * maxCells ->
   libvirt_conn_node_cells_free_memory [start; max] (Connect q) w
   = (Undef, w))
  /\ (sizeof_unsigned_long_long * maxCells <= stack_room ->
      maxCells <= INT_MAX ->
      forall offered st,
        virNodeGetCellsFreeMemory q (int_of_unsigned startCell) maxCells
          (libvirt w)
        = (Some offered, st) ->
        libvirt_conn_node_cells_free_memory [start; max] (Connect q) w
        = (Ret (RArray (map Integer (take (Z.to_nat maxCells) offered))),
           logged w "virNodeGetCellsFreeMemory" st)).
Proof.
  intros Hq Hstart Hmax.
  assert (Hrun :
      libvirt_conn_node_cells_free_memory [start; max] (Connect q) w
      = (let* freeMems :=
           alloca (sizeof_unsigned_long_long * maxCells) maxCells in
         let* conn := connect_get (Connect q) in
         let* (r, freeMems) :=
           fetch_ints "virNodeGetCellsFreeMemory"
                      (virNodeGetCellsFreeMemory conn
                         (int_of_unsigned startCell)
                         (int_of_unsigned maxCells))
                      freeMems (int_of_unsigned maxCells) in
         _E (r <? 0)
            (let* conn := connect_get (Connect q) in
             ret (create_error e_RetrieveError
                               "virNodeGetCellsFreeMemory" conn)) ;;
         let cells := rb_ary_new2 r in
         for_upto (Z.to_nat r) 0
           (fun i cells =>
              let* freeMem := read freeMems i in
              ret (rb_ary_push cells (ULL2NUM freeMem)))
           cells) w).
  { unfold libvirt_conn_node_cells_free_memory.
    rewrite (bind_ret_eq _ _ w [start; max] w) by reflexivity.
    cbv zeta. simpl nth.
    assert (Hs : NIL_P start = false) by (by destruct start).
    assert (Hm : NIL_P max = false) by (by destruct max).
    rewrite Hs, Hm.
    unfold bind at 1, lift at 1. rewrite Hstart.
    unfold bind at 1, lift at 1. by rewrite Hmax. }
  rewrite Hrun. unfold alloca. split.
  - intros Hroom.
    replace (sizeof_unsigned_long_long * maxCells <=? stack_room) with false
      by (symmetry; apply Z.leb_gt; lia).
    reflexivity.
  - intros Hroom Hint offered st Hf.
    replace (sizeof_unsigned_long_long * maxCells <=? stack_room) with true
      by (symmetry; by apply Z.leb_le).
    rewrite (bind_ret_eq _ _ w (fresh_slots maxCells) w) by reflexivity.
    rewrite (bind_ret_eq _ _ _ _ _ (connect_get_live q w Hq)).
    rewrite <- (int_of_unsigned_fits maxCells Hint) in Hf.
    etrans; [exact (cells_fetch_and_convert _ _ _ _ _ _ Hf)|].
    by rewrite (int_of_unsigned_fits maxCells Hint).
Qed.

(** X9. Without arguments, [libvirt_conn_node_cells_free_memory] asks
    [virNodeGetInfo] for the number of cells of the host and fetches that
    many cells from cell 0 on, into a buffer of that many slots taken
    from the stack; where the stack has no room for it, what the call
    does is undefined.  When [virNodeGetInfo] fails, it raises the
    [RetrieveError] of that name and leaves [virNodeGetCellsFreeMemory]
    alone. *)
Theorem cells_free_memory_default_range q (w : world LV) r st :
  q <> 0 ->
  virNodeGetInfo q (libvirt w) = (r, st) ->
  match r with
  | None =>
      libvirt_conn_node_cells_free_memory [] (Connect q) w
      = (Raise (Exception e_RetrieveError "virNodeGetInfo"),
         logged w "virNodeGetInfo" st)
  | Some nodeinfo =>
      let maxCells := int_of_unsigned (nodes nodeinfo) in
      if sizeof_unsigned_long_long * nodes nodeinfo <=? stack_room then
        forall offered st',
          virNodeGetCellsFreeMemory q 0 maxCells st = (Some offered, st') ->
          libvirt_conn_node_cells_free_memory [] (Connect q) w
          = (Ret (RArray (map Integer (take (Z.to_nat maxCells) offered))),
             logged (logged w "virNodeGetInfo" st)
                    "virNodeGetCellsFreeMemory" st')
      else
        libvirt_conn_node_cells_free_memory [] (Connect q) w
        = (Undef, logged w "virNodeGetInfo" st)
  end.
Proof.
  intros Hq Hinfo.
  assert (Hprobe :
      libvirt_conn_node_cells_free_memory [] (Connect q) w
      = match r with
        | None =>
            (Raise (Exception e_RetrieveError "virNodeGetInfo"),
             logged w "virNodeGetInfo" st)
        | Some nodeinfo =>
            (let* freeMems :=
               alloca (sizeof_unsigned_long_long * nodes nodeinfo)
                      (nodes nodeinfo) in
             let* conn := connect_get (Connect q) in
             let* (r, freeMems) :=
               fetch_ints "virNodeGetCellsFreeMemory"
                          (virNodeGetCellsFreeMemory conn (int_of_unsigned 0)
                             (int_of_unsigned (nodes nodeinfo)))
                          freeMems (int_of_unsigned (nodes nodeinfo)) in
             _E (r <? 0)
                (let* conn := connect_get (Connect q) in
                 ret (create_error e_RetrieveError
                                   "virNodeGetCellsFreeMemory" conn)) ;;
             let cells := rb_ary_new2 r in
             for_upto (Z.to_nat r) 0
               (fun i cells =>
                  let* freeMem := read freeMems i in
                  ret (rb_ary_push cells (ULL2NUM freeMem)))
               cells) (logged w "virNodeGetInfo" st)
        end).
  { unfold libvirt_conn_node_cells_free_memory.
    rewrite (bind_ret_eq _ _ w [Qnil; Qnil] w) by reflexivity.
    cbv zeta. simpl nth. simpl NIL_P. cbv iota.
    rewrite (bind_ret_eq _ _ w 0 w) by reflexivity.
    unfold bind at 1. unfold bind at 1.
    rewrite (connect_get_live q w Hq).
    unfold bind at 1.
    rewrite (call_eq "virNodeGetInfo" _ w r st) by exact Hinfo.
    destruct r as [nodeinfo|]; [reflexivity|].
    unfold bind at 1. rewrite (connect_get_live q _ Hq). reflexivity. }
  destruct r as [nodeinfo|]; [|exact Hprobe].
  cbv zeta. rewrite Hprobe. unfold alloca.
  destruct (sizeof_unsigned_long_long * nodes nodeinfo <=? stack_room);
    [|reflexivity].
  intros offered st' Hf.
  rewrite (bind_ret_eq _ _ _ (fresh_slots (nodes nodeinfo)) _)
    by reflexivity.
  rewrite (bind_ret_eq _ _ _ _ _ (connect_get_live q _ Hq)).
  by apply cells_fetch_and_convert.
Qed.
End Cells.

(** Two cells asked for, three on offer: two are answered.  And [-1]
    given for the number of cells: a buffer of 4294967295 slots. *)
Lemma cells_free_memory_lists_what_was_written_witness :
  libvirt_conn_node_cells_free_memory [Integer 0; Integer 2] a_connection
    (boot three_cells)
  = (Ret (RArray [Integer 100; Integer 200]),
     World idle [Libvirt "virNodeGetCellsFreeMemory"] ∅ 0)
  /\ libvirt_conn_node_cells_free_memory [Integer 0; Integer (-1)]
       a_connection (boot three_cells)
     = (Undef, boot three_cells).
Proof.
  split.
  - exact (proj2
             (@cells_free_memory_lists_what_was_written script
                script_hypervisor a_machine 9 (Integer 0)
                (Integer 2) 0 2 (boot three_cells)
                ltac:(lia) eq_refl eq_refl)
             ltac:(vm_compute; discriminate) ltac:(vm_compute; discriminate)
             [100; 200; 300] idle eq_refl).
  - exact (proj1
             (@cells_free_memory_lists_what_was_written script
                script_hypervisor a_machine 9 (Integer 0)
                (Integer (-1)) 0 4294967295 (boot three_cells)
                ltac:(lia) eq_refl eq_refl)
             ltac:(vm_compute; reflexivity)).
Defined.

(** A host of two cells, asked without arguments. *)
Lemma cells_free_memory_default_range_witness :
  libvirt_conn_node_cells_free_memory [] a_connection (boot two_nodes)
  = (Ret (RArray [Integer 100; Integer 200]),
     World idle [Libvirt "virNodeGetInfo"; Libvirt "virNodeGetCellsFreeMemory"]
           ∅ 0).
Proof.
  exact (cells_free_memory_default_range 9 (boot two_nodes)
           (Some (VirNodeInfo "x86_64" 0 2 0 2 1 1 1)) three_cells
           ltac:(lia) eq_refl [100; 200; 300] idle eq_refl).
Defined.

Section Baseline.
Context {LV : Type} `{Host LV} `{Hypervisor LV}.

Lemma StringValueCStr_c_string v str (w : world LV) :
  c_string v str -> StringValueCStr v w = (Ret str, w).
Proof. intros [-> Hnul]. unfold StringValueCStr. by rewrite Hnul. Qed.

Lemma StringValueCStr_cases v (w : world LV) :
  (exists str, c_string v str /\ StringValueCStr v w = (Ret str, w))
  \/ (exists e, StringValueCStr v w = (Raise e, w) /\ argument_error e).
Proof.
  destruct v; try (right; eexists; split; [reflexivity|]; right; by left).
  unfold StringValueCStr. destruct (has_nul s) eqn:Hnul.
  - right. eexists. split; [reflexivity|]. by left.
  - left. exists s. by split.
Qed.

(** One round of the loop of [libvirt_conn_baseline_cpu]. *)
Lemma xml_round xmlcpus i xmllist (w : world LV) :
  (exists str,
     c_string (rb_ary_entry xmlcpus i) str
     /\ (fun (i : nat) (xmllist : list (option string)) =>
       let* caught := rb_protect (ret (rb_ary_entry xmlcpus i)) in
       match caught with
       | inl exception => rb_jump_tag exception
       | inr entry =>
           let* caught := rb_protect (StringValueCStr entry) in
           match caught with
           | inl exception => rb_jump_tag exception
           | inr str => ret (<[i := Some str]> xmllist)
           end
       end) i xmllist w
        = (Ret (<[i := Some str]> xmllist), w))
  \/ (exists e,
        (fun (i : nat) (xmllist : list (option string)) =>
       let* caught := rb_protect (ret (rb_ary_entry xmlcpus i)) in
       match caught with
       | inl exception => rb_jump_tag exception
       | inr entry =>
           let* caught := rb_protect (StringValueCStr entry) in
           match caught with
           | inl exception => rb_jump_tag exception
           | inr str => ret (<[i := Some str]> xmllist)
           end
       end) i xmllist w = (Raise e, w)
        /\ argument_error e).
Proof.
  cbv beta.
  rewrite (bind_ret_eq _ _ w (inr (rb_ary_entry xmlcpus i)) w) by reflexivity.
  destruct (StringValueCStr_cases (rb_ary_entry xmlcpus i) w)
    as [(str & Hstr & Hrun)|(e & Hrun & He)].
  - left. exists str. split; [exact Hstr|].
    rewrite (bind_ret_eq _ _ w (inr str) w); [reflexivity|].
    unfold rb_protect. by rewrite Hrun.
  - right. exists e. split; [|exact He].
    rewrite (bind_ret_eq _ _ w (inl e) w); [reflexivity|].
    unfold rb_protect. by rewrite Hrun.
Qed.

(** The loop leaves the world alone. *)
Lemma xml_loop_world xmlcpus count i xmllist (w : world LV) :
  snd (for_upto count i
         (fun (i : nat) (xmllist : list (option string)) =>
       let* caught := rb_protect (ret (rb_ary_entry xmlcpus i)) in
       match caught with
       | inl exception => rb_jump_tag exception
       | inr entry =>
           let* caught := rb_protect (StringValueCStr entry) in
           match caught with
           | inl exception => rb_jump_tag exception
           | inr str => ret (<[i := Some str]> xmllist)
           end
       end) xmllist w) = w.
Proof.
  revert i xmllist. induction count as [|count IH]; intros i xmllist.
  - reflexivity.
  - simpl for_upto.
    destruct (xml_round xmlcpus i xmllist w)
      as [(str & _ & Hrun)|(e & Hrun & _)].
    + rewrite (bind_ret_eq _ _ _ _ _ Hrun). apply IH.
    + by rewrite (bind_raise_eq _ _ _ _ _ Hrun).
Qed.




End Baseline.



(** ** More on domain events *)

Section RegisterAny.
Context {LV : Type} `{Host LV}.

(** X12. [libvirt_conn_domain_event_register_any] hands libvirt the
    callback that goes with the event id, the pointer of the domain it
    was given, [NULL] for [nil], and the pair [[cb, opaque]] that the
    callback will be given back.  It answers the id that libvirt returns,
    and raises the [RetrieveError] named after
    [virConnectDomainEventRegisterAny] when libvirt returns a negative
    number. *)
Theorem register_any_hands_over q eventID cb dom domain opaque id
    internalcb (w : world LV) r st :
  q <> 0 ->
  is_symbol_or_proc cb = true ->
  NUM2INT eventID = Ret id ->
  select_internalcb id = Some internalcb ->
  (dom = Qnil /\ domain = 0)
  \/ (exists c, dom = Domain domain c /\ domain <> 0) ->
  virConnectDomainEventRegisterAny q domain id internalcb
    (RArray [cb; opaque]) (libvirt w) = (r, st) ->
  libvirt_conn_domain_event_register_any [eventID; cb; dom; opaque]
    (Connect q) w
  = (if r <? 0
     then Raise (Exception e_RetrieveError "virConnectDomainEventRegisterAny")
     else Ret (Integer r),
     logged w "virConnectDomainEventRegisterAny" st).
Proof.
  intros Hq Hcb Hnum Hsel Hdom Hreg.
  unfold libvirt_conn_domain_event_register_any.
  rewrite (bind_ret_eq _ _ w [eventID; cb; dom; opaque] w) by reflexivity.
  cbv zeta. simpl nth. rewrite Hcb. simpl negb. unfold when.
  rewrite (bind_ret_eq _ _ w tt w) by reflexivity.
  rewrite (bind_ret_eq _ _ w domain w).
  2: { destruct Hdom as [[-> ->]|(c & -> & Hd)]; [reflexivity|].
       simpl NIL_P. cbv iota. by apply domain_get_live. }
  rewrite (bind_ret_eq _ _ w id w) by (unfold lift; by rewrite Hnum).
  rewrite Hsel.
  rewrite (bind_ret_eq _ _ w internalcb w) by reflexivity.
  unfold gen_call_int.
  rewrite (bind_ret_eq _ _ w r
             (logged w "virConnectDomainEventRegisterAny" st)).
  2: { rewrite (bind_ret_eq _ _ _ _ _ (connect_get_live q w Hq)).
       rewrite (bind_ret_eq _ _ w id w) by (unfold lift; by rewrite Hnum).
       by apply call_eq. }
  unfold _E. destruct (r <? 0).
  - unfold bind. rewrite (connect_get_live q _ Hq). reflexivity.
  - reflexivity.
Qed.
End RegisterAny.

(** A handler for the reboots of the domain [5]. *)
Lemma register_any_hands_over_witness :
  libvirt_conn_domain_event_register_any
    [Integer VIR_DOMAIN_EVENT_ID_REBOOT; Symbol "on_reboot"; a_domain;
     Integer 42] a_connection (boot idle)
  = (Ret (Integer 0),
     World (Script [] [] [] []
              {[ 0 := (domain_event_reboot_cb,
                       RArray [Symbol "on_reboot"; Integer 42]) ]} 1)
           [Libvirt "virConnectDomainEventRegisterAny"] ∅ 0).
Proof.
  exact (register_any_hands_over 9 (Integer VIR_DOMAIN_EVENT_ID_REBOOT)
           (Symbol "on_reboot") a_domain 5 (Integer 42) 1
           domain_event_reboot_cb (boot idle) 0
           (Script [] [] [] []
              {[ 0 := (domain_event_reboot_cb,
                       RArray [Symbol "on_reboot"; Integer 42]) ]} 1)
           ltac:(lia) eq_refl eq_refl eq_refl
           (or_intror (ex_intro _ a_connection
                         (conj eq_refl (ltac:(lia) : 5 <> 0))))
           eq_refl).
Defined.

Section LegacyEvents.
Context {LV : Type} `{Host LV} `{Hypervisor LV}.

(** X13. A handler registered through
    [libvirt_conn_domain_event_register] is given to libvirt as the pair
    [[cb, opaque]], with the callback [domain_event_callback].  When
    libvirt calls that callback back with the pair, the handler is called
    once with the connection, the domain, the event, the detail and the
    [opaque] of the registration, in this order.
    [libvirt_conn_domain_event_deregister] names the same callback to
    libvirt. *)
Theorem legacy_registration_delivers q cb opaque (w : world LV) r st :
  q <> 0 ->
  is_symbol_or_proc cb = true ->
  virConnectDomainEventRegister q domain_event_callback (RArray [cb; opaque])
                                (libvirt w) = (r, st) ->
  0 <= r ->
  libvirt_conn_domain_event_register [cb; opaque] (Connect q) w
  = (Ret Qnil, logged w "virConnectDomainEventRegister" st)
  /\ (forall conn dom event detail (w1 : world LV),
        let argv := [Connect conn; Domain dom (Connect conn); Integer event;
                     Integer detail; opaque] in
        domain_event_callback conn dom event detail (RArray [cb; opaque]) w1
        = (handler_outcome (rb_method (receiver cb) (method_name cb) argv),
           after_funcall w1 (receiver cb) (method_name cb) argv))
  /\ (forall (w2 : world LV) r2 st2,
        virConnectDomainEventDeregister q domain_event_callback (libvirt w2)
        = (r2, st2) ->
        0 <= r2 ->
        libvirt_conn_domain_event_deregister (Connect q) w2
        = (Ret Qnil, logged w2 "virConnectDomainEventDeregister" st2)).
Proof.
  intros Hq Hcb Hreg Hr. split; [|split].
  - unfold libvirt_conn_domain_event_register.
    rewrite (bind_ret_eq _ _ w [cb; opaque] w) by reflexivity.
    cbv zeta. simpl nth. rewrite Hcb. simpl negb. unfold when.
    rewrite (bind_ret_eq _ _ w tt w) by reflexivity.
    unfold gen_call_void.
    rewrite (bind_ret_eq _ _ w r (logged w "virConnectDomainEventRegister" st)).
    + unfold _E.
      replace (r <? 0) with false by (symmetry; apply Z.ltb_ge; lia).
      reflexivity.
    + rewrite (bind_ret_eq _ _ _ _ _ (connect_get_live q w Hq)).
      by apply call_eq.
  - intros conn dom event detail w1 argv. subst argv.
    unfold domain_event_callback, domain_event_lifecycle_callback.
    rewrite (bind_ret_eq _ _ w1 tt w1) by reflexivity.
    rewrite (bind_ret_eq _ _ w1 tt w1) by reflexivity.
    cbv zeta.
    destruct (symbol_or_proc cb Hcb) as [[id ->]|[body ->]];
      unfold rb_ary_entry; simpl nth; simpl streq; cbv iota;
      unfold bind, rb_funcall; simpl;
      destruct (rb_method _ _ _); reflexivity.
  - intros w2 r2 st2 Hdereg Hr2.
    unfold libvirt_conn_domain_event_deregister, gen_call_void.
    rewrite (bind_ret_eq _ _ w2 r2
               (logged w2 "virConnectDomainEventDeregister" st2)).
    + unfold _E.
      replace (r2 <? 0) with false by (symmetry; apply Z.ltb_ge; lia).
      reflexivity.
    + rewrite (bind_ret_eq _ _ _ _ _ (connect_get_live q w2 Hq)).
      by apply call_eq.
Qed.

(** X14. A handler that is neither a Symbol nor a Proc is refused by
    [libvirt_conn_domain_event_register] with an argument error, a
    [TypeError] when one or two arguments were given, and the world is as
    before: nothing was registered with libvirt. *)
Theorem legacy_registration_refuses_handler argv c (w : world LV) :
  is_symbol_or_proc (nth 0 argv Qnil) = false ->
  exists e,
    libvirt_conn_domain_event_register argv c w = (Raise e, w)
    /\ argument_error e
    /\ ((1 <= length argv <= 2)%nat ->
        e = Exception rb_eTypeError
                      "wrong argument type (expected Symbol or Proc)").
Proof.
  intros Hcb. unfold libvirt_conn_domain_event_register.
  unfold bind at 1. unfold rb_scan_args.
  case_decide as Hfew.
  { eexists. split; [reflexivity|]. split; [by left|]. lia. }
  case_decide as Hmany.
  { eexists. split; [reflexivity|]. split; [by left|]. lia. }
  unfold ret at 1. cbv zeta. rewrite nth_padded, Hcb. simpl negb.
  eexists. split; [reflexivity|]. split; [right; by left|done].
Qed.
End LegacyEvents.

(** The handler [on_event], registered with the user data [42]. *)
Lemma legacy_registration_delivers_witness :
  libvirt_conn_domain_event_register [Symbol "on_event"; Integer 42]
    a_connection (boot (one_count 0))
  = (Ret Qnil, World idle [Libvirt "virConnectDomainEventRegister"] ∅ 0)
  /\ domain_event_callback 9 5 2 1
       (RArray [Symbol "on_event"; Integer 42]) (boot idle)
     = (Ret 0,
        World idle
              [Funcall (Class "Symbol") "on_event"
                 [a_connection; a_domain; Integer 2; Integer 1; Integer 42]]
              ∅ 0).
Proof.
  destruct (@legacy_registration_delivers script script_host
              script_hypervisor 9 (Symbol "on_event") (Integer 42)
              (boot (one_count 0)) 0 idle ltac:(lia) eq_refl eq_refl
              ltac:(lia)) as (Hreg & Hcall & _).
  split; [exact Hreg|exact (Hcall 9 5 2 1 (boot idle))].
Defined.

(** A handler that is a String. *)
Lemma legacy_registration_refuses_handler_witness :
  exists e,
    libvirt_conn_domain_event_register [RString "on_event"] a_connection
      (boot (one_count 0))
    = (Raise e, boot (one_count 0))
    /\ argument_error e
    /\ ((1 <= 1 <= 2)%nat ->
        e = Exception rb_eTypeError
                      "wrong argument type (expected Symbol or Proc)").
Proof.
  exact (legacy_registration_refuses_handler [RString "on_event"]
           a_connection (boot (one_count 0)) eq_refl).
Defined.

(** ** More of [domain.c] *)

Section MoreDomain.
Context {LV : Type} `{Host LV} `{Hypervisor LV}.

(** X15. The domain that [libvirt_dom_migrate] answers is the one
    libvirt returned, and it belongs to the destination: its
    [@connection] is the object [dconn] that was given.  When [dconn] is
    a connection, [connect_get] finds in the migrated domain the
    connection that libvirt migrated to.  When [dconn] is another object
    that carries a connection, a domain of the destination, the migration
    is made through that connection all the same, but [connect_get] finds
    no connection in the migrated domain. *)
Theorem migrate_answers_domain_of_destination p conn dconn q flags
    dname_val uri_val bandwidth fl dname uri bw (w : world LV) ddom st :
  p <> 0 ->
  connect_get dconn w = (Ret q, w) ->
  NUM2ULONG (integer_default_if_nil flags 0) = Ret fl ->
  get_string_or_nil dname_val w = (Ret dname, w) ->
  get_string_or_nil uri_val w = (Ret uri, w) ->
  NUM2ULONG (integer_default_if_nil bandwidth 0) = Ret bw ->
  virDomainMigrate p q fl dname uri bw (libvirt w) = (ddom, st) ->
  ddom <> 0 ->
  let w' := logged w "virDomainMigrate" st in
  let migrated := Domain ddom dconn in
  libvirt_dom_migrate [dconn; flags; dname_val; uri_val; bandwidth]
    (Domain p conn) w
  = (Ret migrated, w')
  /\ domain_get migrated w' = (Ret ddom, w')
  /\ connect_get migrated w'
     = (if is_connect dconn then Ret q
        else Raise (Exception rb_eArgError "Expected Connection object"),
        w').
Proof.
  intros Hp Hconn Hfl Hdname Huri Hbw Hmig Hddom w' migrated.
  split; [|split].
  - unfold libvirt_dom_migrate.
    rewrite (bind_ret_eq _ _ w [dconn; flags; dname_val; uri_val; bandwidth]
               w) by reflexivity.
    cbv zeta. simpl nth.
    rewrite (bind_ret_eq _ _ _ _ _ (domain_get_live p conn w Hp)).
    rewrite (bind_ret_eq _ _ _ _ _ Hconn).
    rewrite (bind_ret_eq _ _ w fl w) by (unfold lift; by rewrite Hfl).
    rewrite (bind_ret_eq _ _ _ _ _ Hdname).
    rewrite (bind_ret_eq _ _ _ _ _ Huri).
    rewrite (bind_ret_eq _ _ w bw w) by (unfold lift; by rewrite Hbw).
    rewrite (bind_ret_eq _ _ _ _ _ (call_eq _ _ _ _ _ Hmig)).
    unfold _E.
    replace (ddom =? 0) with false by (symmetry; by apply Z.eqb_neq).
    reflexivity.
  - by apply domain_get_live.
  - subst migrated. destruct dconn; simpl is_connect; try reflexivity.
    pose proof (connect_get_again _ _ w w' Hconn) as Hagain.
    unfold connect_get, conn_attr, bind in Hagain |- *.
    simpl in Hagain |- *. exact Hagain.
Qed.

(** X16. [libvirt_dom_scheduler_type] answers the pair of the type and
    the number of parameters that libvirt reports, and returns with the
    string that libvirt allocated for the type still allocated: it frees
    that string only when building the pair raises.  [scheduler_nparams],
    which makes the same call, frees it. *)
Theorem scheduler_type_keeps_its_string p conn flags (w : world LV) type
    nparams st :
  p <> 0 ->
  heap_ok w ->
  virDomainGetSchedulerType p (libvirt w) = (Some (type, nparams), st) ->
  libvirt_dom_scheduler_type (Domain p conn) w
  = (Ret (RArray [RString type; Integer nparams]),
     World st (trace w ++ [Libvirt "virDomainGetSchedulerType"])
           ({[ brk w ]} ∪ heap w) (S (brk w)))
  /\ scheduler_nparams (Domain p conn) flags w
     = (Ret nparams,
        World st (trace w ++ [Libvirt "virDomainGetSchedulerType"])
              (heap w) (S (brk w))).
Proof.
  intros Hp Hok Hcall. split.
  - unfold libvirt_dom_scheduler_type.
    rewrite (bind_ret_eq _ _ _ _ _ (domain_get_live p conn w Hp)).
    rewrite (bind_ret_eq _ _ _ _ _ (call_eq _ _ _ _ _ Hcall)).
    reflexivity.
  - unfold scheduler_nparams.
    rewrite (bind_ret_eq _ _ _ _ _ (domain_get_live p conn w Hp)).
    rewrite (bind_ret_eq _ _ _ _ _ (call_eq _ _ _ _ _ Hcall)).
    unfold owned. unfold bind at 1. unfold bind at 1.
    unfold malloc at 1. unfold ret at 1.
    unfold bind at 1. unfold xfree at 1. unfold ret at 1.
    simpl. rewrite free_last; [reflexivity|].
    intros Hin. apply Hok in Hin. lia.
Qed.

(** X17. On a connection whose type is not [QEMU],
    [libvirt_dom_qemu_monitor_command] raises a [TypeError] as soon as
    libvirt has told the type: the command is not sent, and it is not even
    looked at. *)
Theorem qemu_monitor_command_refuses_other_hypervisors argv p q
    (w : world LV) type st :
  q <> 0 ->
  (1 <= length argv <= 2)%nat ->
  virConnectGetType q (libvirt w) = (Some type, st) ->
  type <> "QEMU" ->
  libvirt_dom_qemu_monitor_command argv (Domain p (Connect q)) w
  = (Raise (Exception rb_eTypeError
              "Tried to use virDomainQemuMonitor command on %s connection"),
     logged w "virConnectGetType" st).
Proof.
  intros Hq Hlen Htype Hne. unfold libvirt_dom_qemu_monitor_command.
  rewrite (bind_ret_eq _ _ _ _ _ (scan_fits 1 1 argv w Hlen)).
  cbv zeta.
  rewrite (bind_ret_eq _ _ _ _ _ (connect_get_of_domain p q w Hq)).
  rewrite (bind_ret_eq _ _ _ _ _ (call_eq _ _ _ _ _ Htype)).
  unfold streq. rewrite bool_decide_eq_false_2 by exact Hne.
  reflexivity.
Qed.

(** X18. On a QEMU connection, [libvirt_dom_qemu_monitor_command] sends
    the characters of the command with the flags and answers the reply as
    a String, having freed the string in which libvirt handed the reply
    over: the heap is as it was.  When the command fails, it raises the
    [RetrieveError] named after [virDomainQemuMonitorCommand]. *)
Theorem qemu_monitor_command_answer p q cmd command flags_val fl
    (w : world LV) st reply st' :
  p <> 0 ->
  q <> 0 ->
  heap_ok w ->
  c_string cmd command ->
  NUM2UINT (integer_default_if_nil flags_val 0) = Ret fl ->
  virConnectGetType q (libvirt w) = (Some "QEMU", st) ->
  virDomainQemuMonitorCommand p command fl st = (reply, st') ->
  let sent :=
    trace w ++ [Libvirt "virConnectGetType";
                Libvirt "virDomainQemuMonitorCommand"] in
  libvirt_dom_qemu_monitor_command [cmd; flags_val] (Domain p (Connect q)) w
  = match reply with
    | Some result =>
        (Ret (RString result), World st' sent (heap w) (S (brk w)))
    | None =>
        (Raise (Exception e_RetrieveError "virDomainQemuMonitorCommand"),
         World st' sent (heap w) (brk w))
    end.
Proof.
  intros Hp Hq Hok Hcmd Hfl Htype Hsend sent. subst sent.
  unfold libvirt_dom_qemu_monitor_command.
  rewrite (bind_ret_eq _ _ w [cmd; flags_val] w) by reflexivity.
  cbv zeta. simpl nth.
  rewrite (bind_ret_eq _ _ _ _ _ (connect_get_of_domain p q w Hq)).
  rewrite (bind_ret_eq _ _ _ _ _ (call_eq _ _ _ _ _ Htype)).
  rewrite (bind_ret_eq _ _ _ tt _) by reflexivity.
  rewrite (bind_ret_eq _ _ _ _ _ (domain_get_live p _ _ Hp)).
  rewrite (bind_ret_eq _ _ _ _ _ (StringValueCStr_c_string _ _ _ Hcmd)).
  rewrite (bind_ret_eq _ _ _ fl _) by (unfold lift; by rewrite Hfl).
  rewrite (bind_ret_eq _ _ _ _ _
             (call_eq "virDomainQemuMonitorCommand" _
                      (logged w "virConnectGetType" st) reply st' Hsend)).
  destruct reply as [result|].
  - unfold owned. unfold bind at 1. unfold bind at 1.
    unfold malloc at 1. unfold ret at 1.
    unfold bind at 1. unfold rb_protect at 1, ret at 1.
    unfold bind at 1. unfold xfree at 1. unfold ret at 1.
    simpl. rewrite <- app_assoc. simpl.
    rewrite free_last; [reflexivity|].
    intros Hin. apply Hok in Hin. lia.
  - unfold bind. rewrite (connect_get_of_domain p q _ Hq).
    unfold raise, logged. simpl. by rewrite <- app_assoc.
Qed.

(** X19. Asked for the parent of a snapshot that has none,
    [libvirt_dom_snapshot_parent] does not answer [nil]: to tell a root
    from a failure it needs the connection, and a snapshot, which
    [domain_snapshot_new] gives a [@domain] and no [@connection], has none
    that [connect_get] finds.  It raises the [ArgumentError] of
    [conn_attr]; [virConnGetLastError] is not reached. *)
Theorem snapshot_parent_of_root argv p domain (w : world LV) fl st :
  p <> 0 ->
  (length argv <= 1)%nat ->
  NUM2UINT (integer_default_if_nil (nth 0 argv Qnil) 0) = Ret fl ->
  virDomainSnapshotGetParent p fl (libvirt w) = (0, st) ->
  libvirt_dom_snapshot_parent argv (domain_snapshot_new p domain) w
  = (Raise (Exception rb_eArgError "Expected Connection object"),
     logged w "virDomainSnapshotGetParent" st).
Proof.
  intros Hp Hlen Hfl Hparent. unfold libvirt_dom_snapshot_parent.
  rewrite (bind_ret_eq _ _ _ _ _ (scan_fits 0 1 argv w ltac:(lia))).
  cbv zeta. rewrite nth_padded.
  rewrite (bind_ret_eq _ _ _ _ _ (snapshot_get_live p domain w Hp)).
  rewrite (bind_ret_eq _ _ _ fl _) by (unfold lift; by rewrite Hfl).
  rewrite (bind_ret_eq _ _ _ _ _ (call_eq _ _ _ _ _ Hparent)).
  reflexivity.
Qed.

(** X20. Whatever it is given and whatever libvirt answers,
    [libvirt_dom_snapshot_parent] never answers [nil] for a snapshot. *)
Theorem snapshot_parent_never_nil argv p domain (w : world LV) :
  fst (libvirt_dom_snapshot_parent argv (domain_snapshot_new p domain) w)
  <> Ret Qnil.
Proof.
  unfold libvirt_dom_snapshot_parent.
  destruct (scan_cases 0 1 argv w) as [Hscan|(e & Hscan & _)];
    [|by rewrite (bind_raise_eq _ _ _ _ _ Hscan)].
  rewrite (bind_ret_eq _ _ _ _ _ Hscan). cbv zeta.
  unfold bind at 1.
  destruct (domain_snapshot_get (domain_snapshot_new p domain) w)
    as [[snapshot|e|] w1] eqn:Hget; [|done..].
  unfold bind at 1. unfold lift at 1.
  destruct (NUM2UINT _) as [fl|e|]; [|done..].
  unfold bind at 1. unfold call at 1.
  destruct (virDomainSnapshotGetParent snapshot fl (libvirt w1))
    as [snap st].
  destruct (snap =? 0); [|done].
  unfold bind at 1. by rewrite connect_get_of_snapshot.
Qed.
End MoreDomain.

(** The domain [5] migrated to the connection [8], where it is the domain
    [77]. *)
Lemma migrate_answers_domain_of_destination_witness :
  libvirt_dom_migrate [Connect 8; Qnil; Qnil; Qnil; Qnil] a_domain
    (boot (one_count 77))
  = (Ret (Domain 77 (Connect 8)),
     World idle [Libvirt "virDomainMigrate"] ∅ 0)
  /\ connect_get (Domain 77 (Connect 8))
       (World idle [Libvirt "virDomainMigrate"] ∅ 0)
     = (Ret 8, World idle [Libvirt "virDomainMigrate"] ∅ 0).
Proof.
  destruct (@migrate_answers_domain_of_destination script
              script_hypervisor 5 a_connection (Connect 8) 8 Qnil Qnil Qnil
              Qnil 0 None None 0 (boot (one_count 77)) 77 idle
              ltac:(lia) eq_refl eq_refl eq_refl eq_refl eq_refl eq_refl
              ltac:(lia)) as (Hrun & _ & Hconn).
  split; [exact Hrun|exact Hconn].
Defined.

(** The scheduler [credit]. *)
Lemma scheduler_type_keeps_its_string_witness :
  libvirt_dom_scheduler_type a_domain (boot a_scheduler)
  = (Ret (RArray [RString "credit"; Integer 2]),
     World idle [Libvirt "virDomainGetSchedulerType"] {[ 0%nat ]} 1)
  /\ scheduler_nparams a_domain 0 (boot a_scheduler)
     = (Ret 2, World idle [Libvirt "virDomainGetSchedulerType"] ∅ 1).
Proof.
  exact (scheduler_type_keeps_its_string 5 a_connection 0 (boot a_scheduler)
           "credit" 2 idle ltac:(lia) (heap_ok_boot _) eq_refl).
Defined.

(** A Xen connection. *)
Lemma qemu_monitor_command_refuses_other_hypervisors_witness :
  libvirt_dom_qemu_monitor_command [RString "info status"] a_domain
    (boot (one_answer "Xen"))
  = (Raise (Exception rb_eTypeError
              "Tried to use virDomainQemuMonitor command on %s connection"),
     World idle [Libvirt "virConnectGetType"] ∅ 0).
Proof.
  exact (qemu_monitor_command_refuses_other_hypervisors
           [RString "info status"] 5 9 (boot (one_answer "Xen")) "Xen" idle
           ltac:(lia) ltac:(simpl; lia) eq_refl ltac:(discriminate)).
Defined.

(** The command [info status] on a QEMU connection. *)
Lemma qemu_monitor_command_answer_witness :
  libvirt_dom_qemu_monitor_command [RString "info status"; Qnil] a_domain
    (boot a_monitor)
  = (Ret (RString "running"),
     World idle
           [Libvirt "virConnectGetType"; Libvirt "virDomainQemuMonitorCommand"]
           ∅ 1).
Proof.
  exact (qemu_monitor_command_answer 5 9 (RString "info status")
           "info status" Qnil 0 (boot a_monitor)
           (Script [] [Some ["running"]] [] [] ∅ 0) (Some "running") idle
           ltac:(lia) ltac:(lia) (heap_ok_boot _) (conj eq_refl eq_refl)
           eq_refl eq_refl eq_refl).
Defined.

(** A snapshot without a parent. *)
Lemma snapshot_parent_of_root_witness :
  libvirt_dom_snapshot_parent [] a_snapshot (boot (one_count 0))
  = (Raise (Exception rb_eArgError "Expected Connection object"),
     World idle [Libvirt "virDomainSnapshotGetParent"] ∅ 0).
Proof.
  exact (snapshot_parent_of_root [] 4 a_domain (boot (one_count 0)) 0 idle
           ltac:(lia) ltac:(simpl; lia) eq_refl eq_refl).
Defined.

(** ** Maps of CPUs *)

Section CpuMaps.
Context {LV : Type} `{Host LV} `{Hypervisor LV}.

Lemma testbit_one (j : Z) : Z.testbit 1 j = (j =? 0).
Proof. destruct j as [|j|j]; [reflexivity| |reflexivity]. by destruct j. Qed.

(** The bits of [1 << k]. *)
Lemma testbit_shiftl_one (k j : Z) :
  0 <= j -> Z.testbit (Z.shiftl 1 k) j = (j =? k).
Proof.
  intros Hj. rewrite Z.shiftl_spec by exact Hj. rewrite testbit_one.
  destruct (j =? k) eqn:Hjk.
  - apply Z.eqb_eq in Hjk. apply Z.eqb_eq. lia.
  - apply Z.eqb_neq in Hjk. apply Z.eqb_neq. lia.
Qed.

(** [byte & (1 << k)] is not zero when bit [k] of [byte] is set, and only
    then. *)
Lemma land_shiftl_one (byte k : Z) :
  0 <= k -> Z.land byte (Z.shiftl 1 k) <> 0 <-> Z.testbit byte k = true.
Proof.
  intros Hk. split.
  - intros Hne. destruct (Z.testbit byte k) eqn:Hbit; [done|].
    destruct Hne. apply Z.bits_inj'. intros j Hj.
    rewrite Z.land_spec, testbit_shiftl_one, Z.bits_0 by exact Hj.
    destruct (j =? k) eqn:Hjk; [|by rewrite andb_false_r].
    apply Z.eqb_eq in Hjk. subst j. by rewrite Hbit.
  - intros Hbit Hzero.
    assert (Hk' : Z.testbit (Z.land byte (Z.shiftl 1 k)) k = true).
    { rewrite Z.land_spec, testbit_shiftl_one, Hbit by exact Hk.
      by rewrite Z.eqb_refl. }
    rewrite Hzero, Z.bits_0 in Hk'. discriminate Hk'.
Qed.







End CpuMaps.



Section Vcpus.
Context {LV : Type} `{Host LV} `{Hypervisor LV} `{Instances}.

(** X23. For a domain that is shut off and has a virtual CPU,
    [libvirt_dom_get_vcpus] reads what nothing has written: when
    [virDomainGetVcpus] fails it falls back on [virDomainGetVcpuPinInfo],
    which fills the maps only, and then reads the state, the CPU time and
    the CPU of the first virtual CPU from the buffer that
    [virDomainGetVcpus] was to fill. *)
Theorem get_vcpus_of_shut_off_domain p q (w : world LV) nodeinfo st1 dominfo
    st2 st3 bytes st4 :
  p <> 0 ->
  q <> 0 ->
  virNodeGetInfo q (libvirt w) = (Some nodeinfo, st1) ->
  virDomainGetInfo p st1 = (Some dominfo, st2) ->
  let maplen := VIR_CPU_MAPLEN (VIR_NODEINFO_MAXCPUS nodeinfo) in
  di_state dominfo = VIR_DOMAIN_SHUTOFF ->
  1 <= di_nrVirtCpu dominfo ->
  di_nrVirtCpu dominfo * maplen <= INT_MAX ->
  virDomainGetVcpus p (di_nrVirtCpu dominfo) maplen st2 = (None, st3) ->
  virDomainGetVcpuPinInfo p (di_nrVirtCpu dominfo) maplen
    VIR_DOMAIN_AFFECT_CONFIG st3 = (Some bytes, st4) ->
  libvirt_dom_get_vcpus (Domain p (Connect q)) w
  = (Undef,
     World st4
           (trace w ++ [Libvirt "virNodeGetInfo"; Libvirt "virDomainGetInfo";
                        Libvirt "virDomainGetVcpus";
                        Libvirt "virDomainGetVcpuPinInfo"])
           (heap w) (brk w)).
Proof.
  intros Hp Hq Hnode Hdom maplen Hoff Hone Hsize Hvcpus Hpin.
  unfold libvirt_dom_get_vcpus.
  rewrite (bind_ret_eq _ _ _ _ _ (connect_get_of_domain p q w Hq)).
  rewrite (bind_ret_eq _ _ _ _ _ (call_eq _ _ _ _ _ Hnode)).
  rewrite (bind_ret_eq _ _ _ _ _ (domain_get_live p _ _ Hp)).
  rewrite (bind_ret_eq _ _ _ _ _
             (call_eq "virDomainGetInfo" _ (logged w "virNodeGetInfo" st1)
                      _ _ Hdom)).
  cbv zeta. fold maplen.
  replace (di_nrVirtCpu dominfo * maplen <=? INT_MAX) with true
    by (symmetry; by apply Z.leb_le).
  cbv iota. rewrite (bind_ret_eq (ret tt) _ _ tt _ eq_refl).
  rewrite (bind_ret_eq _ _ _ _ _ (domain_get_live p _ _ Hp)).
  rewrite (bind_ret_eq _ _ _ _ _
             (call_eq "virDomainGetVcpus" _
                (logged (logged w "virNodeGetInfo" st1) "virDomainGetInfo"
                        st2) _ _ Hvcpus)).
  rewrite Hoff, Z.eqb_refl.
  unfold when. simpl negb. cbv iota.
  set (w3 := logged _ "virDomainGetVcpus" st3).
  rewrite (bind_ret_eq _ _ w3
             (Some (fresh_slots (di_nrVirtCpu dominfo)),
              fill (fresh_slots (di_nrVirtCpu dominfo * maplen)) bytes)
             (logged w3 "virDomainGetVcpuPinInfo" st4)).
  2:{ rewrite (bind_ret_eq (ret tt) _ w3 tt w3 eq_refl).
      rewrite (bind_ret_eq _ _ _ _ _ (domain_get_live p _ _ Hp)).
      rewrite (bind_ret_eq _ _ _ _ _
                 (call_eq "virDomainGetVcpuPinInfo" _ w3 _ _ Hpin)).
      reflexivity. }
  simpl fst. simpl snd.
  destruct (Z.to_nat (di_nrVirtCpu dominfo)) as [|n] eqn:Hn; [lia|].
  simpl for_upto.
  unfold bind at 1. unfold bind at 1. unfold read.
  unfold fresh_slots at 1. rewrite Hn. simpl.
  unfold undef, w3, logged. simpl.
  by rewrite <- !app_assoc.
Qed.

(** A byte of the maps that libvirt has written. *)
Lemma VIR_CPU_USABLE_written (bytes : list Z) (size maplen : Z) (i j : nat)
    (w : world LV) :
  length bytes = Z.to_nat size ->
  (Z.to_nat (Z.of_nat i * maplen + Z.of_nat j / 8) < length bytes)%nat ->
  VIR_CPU_USABLE (fill (fresh_slots size) bytes) maplen (Z.of_nat i)
    (Z.of_nat j) w
  = (Ret (Z.land (nth (Z.to_nat (Z.of_nat i * maplen + Z.of_nat j / 8))
                      bytes 0)
                 (Z.shiftl 1 (Z.of_nat j mod 8))), w).
Proof.
  intros Hlen Hidx. unfold VIR_CPU_USABLE.
  destruct (lookup_lt_is_Some_2 bytes _ Hidx) as [byte Hbyte].
  unfold bind, read.
  rewrite (fill_lookup size bytes _ byte) by (lia || exact Hbyte).
  by rewrite (nth_lookup_Some _ _ 0 _ Hbyte).
Qed.

(** The inner loop of [libvirt_dom_get_vcpus]: one entry for each CPU of
    the host. *)
Lemma usable_loop (bytes : list Z) (size maplen : Z) (i : nat)
    (count j0 : nat) (acc : list VALUE) (w : world LV) :
  length bytes = Z.to_nat size ->
  (forall j, (j < j0 + count)%nat ->
     (Z.to_nat (Z.of_nat i * maplen + Z.of_nat j / 8) < length bytes)%nat) ->
  for_upto count j0
    (fun j p2vcpumap =>
       let* usable :=
         VIR_CPU_USABLE (fill (fresh_slots size) bytes) maplen (Z.of_nat i)
           (Z.of_nat j) in
       ret (rb_ary_push p2vcpumap (if usable =? 0 then Qfalse else Qtrue)))
    (RArray acc) w
  = (Ret (RArray (acc ++ (truth <$> (pinned bytes maplen i <$> seq j0 count)))),
     w).
Proof.
  intros Hlen. revert j0 acc.
  induction count as [|count IH]; intros j0 acc Hidx.
  - simpl. by rewrite app_nil_r.
  - simpl for_upto.
    rewrite (bind_ret_eq _ _ w
               (RArray (acc ++ [truth (pinned bytes maplen i j0)])) w).
    + rewrite IH by (intros j Hj; apply Hidx; lia).
      simpl. by rewrite <- app_assoc.
    + rewrite (bind_ret_eq _ _ _ _ _
                 (VIR_CPU_USABLE_written bytes size maplen i j0 w Hlen
                    (Hidx j0 ltac:(lia)))).
      unfold ret, rb_ary_push, pinned, truth.
      assert (Hk : 0 <= Z.of_nat j0 mod 8) by (apply Z.mod_pos_bound; lia).
      pose proof (land_shiftl_one
                    (nth (Z.to_nat (Z.of_nat i * maplen + Z.of_nat j0 / 8))
                         bytes 0) _ Hk) as Hbit.
      destruct (Z.testbit _ (Z.of_nat j0 mod 8)).
      * replace (_ =? 0) with false; [done|].
        symmetry. apply Z.eqb_neq. by apply Hbit.
      * replace (_ =? 0) with true; [done|].
        symmetry. apply Z.eqb_eq.
        destruct (decide (Z.land
          (nth (Z.to_nat (Z.of_nat i * maplen + Z.of_nat j0 / 8)) bytes 0)
          (Z.shiftl 1 (Z.of_nat j0 mod 8)) = 0)) as [Hz|Hnz]; [exact Hz|].
        apply Hbit in Hnz. discriminate Hnz.
Qed.

(** A CPU of the host has its bit in the map of each virtual CPU. *)
Lemma map_index_fits (n maxcpus : Z) (i j : nat) :
  (i < Z.to_nat n)%nat ->
  (j < Z.to_nat maxcpus)%nat ->
  (Z.to_nat (Z.of_nat i * VIR_CPU_MAPLEN maxcpus + Z.of_nat j / 8)
   < Z.to_nat (n * VIR_CPU_MAPLEN maxcpus))%nat.
Proof.
  intros Hi Hj. unfold VIR_CPU_MAPLEN.
  assert (Hq : Z.of_nat j / 8 < (maxcpus + 7) / 8).
  { apply Z.div_lt_upper_bound; [lia|].
    pose proof (Z.mul_succ_div_gt (maxcpus + 7) 8 ltac:(lia)). lia. }
  assert (0 <= Z.of_nat j / 8) by (apply Z.div_pos; lia).
  nia.
Qed.

(** The outer loop of [libvirt_dom_get_vcpus]. *)
Lemma vcpus_loop (bytes : list Z) (n maxcpus : Z)
    (dinfos rinfos : list virVcpuInfo) (acc : list VALUE) (w : world LV) :
  length (dinfos ++ rinfos) = Z.to_nat n ->
  length bytes = Z.to_nat (n * VIR_CPU_MAPLEN maxcpus) ->
  for_upto (length rinfos) (length dinfos)
    (fun i result =>
       let vcpuinfo := rb_class_new_instance "Libvirt::Domain::VCPUInfo" in
       let vcpuinfo := rb_iv_set vcpuinfo "@number" (UINT2NUM (Z.of_nat i)) in
       let* vcpuinfo :=
         match Some (fill (fresh_slots n) (dinfos ++ rinfos)) with
         | Some cpuinfo =>
             let* info := read cpuinfo i in
             let vcpuinfo :=
               rb_iv_set vcpuinfo "@state" (INT2NUM (vi_state info)) in
             let vcpuinfo :=
               rb_iv_set vcpuinfo "@cpu_time" (ULL2NUM (vi_cpuTime info)) in
             ret (rb_iv_set vcpuinfo "@cpu" (INT2NUM (vi_cpu info)))
         | None =>
             let vcpuinfo := rb_iv_set vcpuinfo "@state" Qnil in
             let vcpuinfo := rb_iv_set vcpuinfo "@cpu_time" Qnil in
             ret (rb_iv_set vcpuinfo "@cpu" Qnil)
         end in
       let p2vcpumap := rb_ary_new in
       let* p2vcpumap :=
         for_upto (Z.to_nat maxcpus) 0
           (fun j p2vcpumap =>
              let* usable :=
                VIR_CPU_USABLE
                  (fill (fresh_slots (n * VIR_CPU_MAPLEN maxcpus)) bytes)
                  (VIR_CPU_MAPLEN maxcpus) (Z.of_nat i) (Z.of_nat j) in
              ret (rb_ary_push p2vcpumap
                     (if usable =? 0 then Qfalse else Qtrue)))
           p2vcpumap in
       let vcpuinfo := rb_iv_set vcpuinfo "@cpumap" p2vcpumap in
       ret (rb_ary_push result vcpuinfo))
    (RArray acc) w
  = (Ret (RArray
            (acc ++
             imap (fun k info =>
                     vcpu_object (length dinfos + k) info
                       (truth <$>
                        (pinned bytes (VIR_CPU_MAPLEN maxcpus)
                                (length dinfos + k)
                         <$> seq 0 (Z.to_nat maxcpus))))
                  rinfos)),
     w).
Proof.
  revert dinfos acc.
  induction rinfos as [|info rinfos IH]; intros dinfos acc Hinfos Hbytes.
  - simpl. by rewrite app_nil_r.
  - simpl length. simpl for_upto. cbv zeta.
    assert (Hi : (length dinfos < Z.to_nat n)%nat).
    { rewrite length_app in Hinfos. simpl in Hinfos. lia. }
    rewrite (bind_ret_eq _ _ w
               (RArray (acc ++
                  [vcpu_object (length dinfos) info
                     (truth <$>
                      (pinned bytes (VIR_CPU_MAPLEN maxcpus) (length dinfos)
                       <$> seq 0 (Z.to_nat maxcpus)))])) w).
    + replace (dinfos ++ info :: rinfos) with ((dinfos ++ [info]) ++ rinfos)
        by (by rewrite <- app_assoc).
      replace (S (length dinfos)) with (length (dinfos ++ [info]))
        by (rewrite length_app; simpl; lia).
      rewrite IH; [|by rewrite <- app_assoc|exact Hbytes].
      rewrite <- app_assoc. simpl. rewrite Nat.add_0_r.
      do 5 f_equal. apply imap_ext. intros k x _. simpl.
      rewrite length_app. simpl.
      by replace (length dinfos + 1 + k)%nat with (length dinfos + S k)%nat
        by lia.
    + rewrite (bind_ret_eq _ _ w
                 (rb_iv_set
                    (rb_iv_set
                       (rb_iv_set
                          (rb_iv_set
                             (rb_class_new_instance
                                "Libvirt::Domain::VCPUInfo")
                             "@number" (UINT2NUM (Z.of_nat (length dinfos))))
                          "@state" (INT2NUM (vi_state info)))
                       "@cpu_time" (ULL2NUM (vi_cpuTime info)))
                    "@cpu" (INT2NUM (vi_cpu info))) w).
      2:{ unfold bind, read.
          rewrite (fill_lookup n (dinfos ++ info :: rinfos) _ info);
            [reflexivity|lia|].
          rewrite lookup_app_r by lia.
          by rewrite Nat.sub_diag. }
      unfold rb_ary_new.
      rewrite (bind_ret_eq _ _ _ _ _
                 (usable_loop bytes _ _ (length dinfos) (Z.to_nat maxcpus) 0
                    [] w Hbytes
                    (fun j Hj =>
                       eq_ind_r (fun l => (_ < l)%nat)
                         (map_index_fits n maxcpus (length dinfos) j Hi Hj)
                         Hbytes))).
      reflexivity.
Qed.

(** X24. When [virDomainGetVcpus] has filled both buffers,
    [libvirt_dom_get_vcpus] answers one object for each virtual CPU, in
    their order, numbered from zero, with the state, the CPU time and the
    CPU that libvirt wrote for it, and with a [@cpumap] of one entry for
    each CPU of the host: [true] where the map of this virtual CPU has
    the bit of that CPU set, [false] elsewhere. *)
Theorem get_vcpus_answer p q (w : world LV) nodeinfo st1 dominfo st2 infos
    bytes st3 :
  p <> 0 ->
  q <> 0 ->
  virNodeGetInfo q (libvirt w) = (Some nodeinfo, st1) ->
  virDomainGetInfo p st1 = (Some dominfo, st2) ->
  let maxcpus := VIR_NODEINFO_MAXCPUS nodeinfo in
  let maplen := VIR_CPU_MAPLEN maxcpus in
  let n := di_nrVirtCpu dominfo in
  n * maplen <= INT_MAX ->
  virDomainGetVcpus p n maplen st2 = (Some (infos, bytes), st3) ->
  length infos = Z.to_nat n ->
  length bytes = Z.to_nat (n * maplen) ->
  libvirt_dom_get_vcpus (Domain p (Connect q)) w
  = (Ret (RArray
            (imap (fun i info =>
                     vcpu_object i info
                       (truth <$>
                        (pinned bytes maplen i <$> seq 0 (Z.to_nat maxcpus))))
                  infos)),
     World st3
           (trace w ++ [Libvirt "virNodeGetInfo"; Libvirt "virDomainGetInfo";
                        Libvirt "virDomainGetVcpus"])
           (heap w) (brk w)).
Proof.
  intros Hp Hq Hnode Hdom maxcpus maplen n Hsize Hvcpus Hinfos Hbytes.
  unfold libvirt_dom_get_vcpus.
  rewrite (bind_ret_eq _ _ _ _ _ (connect_get_of_domain p q w Hq)).
  rewrite (bind_ret_eq _ _ _ _ _ (call_eq _ _ _ _ _ Hnode)).
  rewrite (bind_ret_eq _ _ _ _ _ (domain_get_live p _ _ Hp)).
  rewrite (bind_ret_eq _ _ _ _ _
             (call_eq "virDomainGetInfo" _ (logged w "virNodeGetInfo" st1)
                      _ _ Hdom)).
  cbv zeta. fold maxcpus. fold maplen. fold n.
  replace (n * maplen <=? INT_MAX) with true
    by (symmetry; by apply Z.leb_le).
  cbv iota. rewrite (bind_ret_eq (ret tt) _ _ tt _ eq_refl).
  rewrite (bind_ret_eq _ _ _ _ _ (domain_get_live p _ _ Hp)).
  rewrite (bind_ret_eq _ _ _ _ _
             (call_eq "virDomainGetVcpus" _
                (logged (logged w "virNodeGetInfo" st1) "virDomainGetInfo"
                        st2) _ _ Hvcpus)).
  set (w3 := logged _ "virDomainGetVcpus" st3).
  rewrite (bind_ret_eq _ _ w3
             (Some (fill (fresh_slots n) infos),
              fill (fresh_slots (n * maplen)) bytes) w3) by reflexivity.
  simpl fst. simpl snd.
  rewrite <- Hinfos.
  etrans; [exact (vcpus_loop bytes n maxcpus [] infos [] w3 Hinfos Hbytes)|].
  unfold w3, logged. simpl.
  by rewrite <- !app_assoc.
Qed.
End Vcpus.

(** A shut-off domain of one virtual CPU. *)
Lemma get_vcpus_of_shut_off_domain_witness :
  libvirt_dom_get_vcpus a_domain (boot shut_off)
  = (Undef,
     World idle
           [Libvirt "virNodeGetInfo"; Libvirt "virDomainGetInfo";
            Libvirt "virDomainGetVcpus"; Libvirt "virDomainGetVcpuPinInfo"]
           ∅ 0).
Proof.
  exact (@get_vcpus_of_shut_off_domain script script_hypervisor
           shown_instances 5 9 (boot shut_off)
           (VirNodeInfo "x86_64" 0 8 0 8 1 1 1)
           (Script [5; 1] [] [None; Some [255]] [] ∅ 0)
           (VirDomainInfo 5 0 0 1 0)
           (Script [] [] [None; Some [255]] [] ∅ 0)
           (Script [] [] [Some [255]] [] ∅ 0) [255] idle
           ltac:(lia) ltac:(lia) eq_refl eq_refl eq_refl
           ltac:(simpl; lia) ltac:(vm_compute; discriminate)
           eq_refl eq_refl).
Defined.

(** Two virtual CPUs on a host of eight CPUs: the first may run on the
    CPUs [0] and [2], the second on the CPU [1]. *)
Lemma get_vcpus_answer_witness :
  libvirt_dom_get_vcpus a_domain (boot two_vcpus)
  = (Ret (RArray
            [vcpu_object 0 (VirVcpuInfo 0 1 0 0)
               [Qtrue; Qfalse; Qtrue; Qfalse; Qfalse; Qfalse; Qfalse; Qfalse];
             vcpu_object 1 (VirVcpuInfo 1 1 0 1)
               [Qfalse; Qtrue; Qfalse; Qfalse; Qfalse; Qfalse; Qfalse;
                Qfalse]]),
     World idle
           [Libvirt "virNodeGetInfo"; Libvirt "virDomainGetInfo";
            Libvirt "virDomainGetVcpus"]
           ∅ 0).
Proof.
  exact (@get_vcpus_answer script script_hypervisor
           shown_instances 5 9 (boot two_vcpus)
           (VirNodeInfo "x86_64" 0 8 0 8 1 1 1)
           (Script [1; 2] [] [Some [5; 2]] [] ∅ 0)
           (VirDomainInfo 1 0 0 2 0)
           (Script [] [] [Some [5; 2]] [] ∅ 0)
           [VirVcpuInfo 0 1 0 0; VirVcpuInfo 1 1 0 1] [5; 2] idle
           ltac:(lia) ltac:(lia) eq_refl eq_refl
           ltac:(vm_compute; discriminate) eq_refl eq_refl eq_refl).
Defined.
